(** * ivtt2txt: a shallow embedding of the imhd.sk timetable client

    The development follows the two Python sources of the repository:
    the current module ([__init__.py]: [busstop2id], [destid2destname] and
    the class [Stop] with [_subscribe], [fetch] and [get_data]) and the older
    script ([ivtt2txt.py], of which [busstop2id], [destid2destname] and the
    [on_message] callback of [ImhdBa.get_arrival_time] are embedded in
    [Module Old]).

    How the program is modelled:
    - Python values are an inductive type [pyval]; a dictionary is an
      association list in insertion order; a string is the UTF-8 encoding
      of the Python text, and [Str.len] counts its characters as Python's
      [len] does.
    - The network, the clock, the HTML selector and the JSON decoder are
      libraries outside the repository.  They are supplied by an environment
      [Env] of oracles; the program is written in a state-and-exception
      monad over the [Stop] object and a record of what has been done to the
      outside world so far, trace included.
    - [while True] loops take a step bound; running out of it is the outcome
      [OutOfFuel], distinct from returning, raising, and from blocking for
      ever in [recv] ([Hang]).
    - [time.time()] returns a float; clock readings are rationals here and
      the arithmetic on them is exact.  Python computes in double
      precision, where an operation returns its exact result whenever that
      result is a double ([is_binary64]) and a rounded one otherwise; the
      theorems that fix the value of a [toffset] for every batch assume
      the former ([exact_offsets]).
    - Calls of [logging] only format their arguments and are left out,
      except where formatting can raise. *)

From Stdlib Require Import ZArith QArith Qround String Ascii List Bool Lia Lqa.
From Stdlib Require Import Decimal DecimalString DecimalPos DecimalZ.
Import ListNotations.

Local Open Scope Z_scope.
Local Open Scope list_scope.
Local Open Scope string_scope.

(* ------------------------------------------------------------------ *)
(** ** Strings *)

Module Str.

(** [str(n)] for a Python int. *)
Definition of_Z (z : Z) : string := NilZero.string_of_int (Z.to_int z).

(** [s[n:]] for [n >= 0]. *)
Fixpoint drop (n : nat) (s : string) : string :=
  match n, s with
  | O, _ => s
  | S _, EmptyString => EmptyString
  | S n', String _ s' => drop n' s'
  end.

(** [s.replace(c, '')] for a one-character [c]. *)
Fixpoint remove (c : ascii) (s : string) : string :=
  match s with
  | EmptyString => EmptyString
  | String a s' => if Ascii.eqb a c then remove c s' else String a (remove c s')
  end.

Fixpoint mem (c : ascii) (s : string) : bool :=
  match s with
  | EmptyString => false
  | String a s' => Ascii.eqb a c || mem c s'
  end.

(** [s.startswith(p)]. *)
Fixpoint starts (p s : string) : bool :=
  match p, s with
  | EmptyString, _ => true
  | String _ _, EmptyString => false
  | String a p', String b s' => Ascii.eqb a b && starts p' s'
  end.

(** [p in s] for two strings: [p] occurs in [s]. *)
Fixpoint contains (p s : string) : bool :=
  starts p s ||
  match s with
  | EmptyString => false
  | String _ s' => contains p s'
  end.

(** [sep.join(l)]. *)
Fixpoint join (sep : string) (l : list string) : string :=
  match l with
  | [] => ""
  | [x] => x
  | x :: rest => x ++ sep ++ join sep rest
  end.

(** The characters of a string, each as a one-character string: what
    iterating over a [str] yields. *)
Fixpoint chars (s : string) : list string :=
  match s with
  | EmptyString => []
  | String a s' => String a EmptyString :: chars s'
  end.

Definition is_digit (c : ascii) : bool :=
  let n := nat_of_ascii c in (48 <=? n)%nat && (n <=? 57)%nat.

Definition digit_val (c : ascii) : Z := Z.of_nat (nat_of_ascii c) - 48.

(** Characters that [str.strip()] and [int()] treat as blank (ASCII). *)
Definition is_space (c : ascii) : bool :=
  let n := nat_of_ascii c in
  ((9 <=? n)%nat && (n <=? 13)%nat) || (28 <=? n)%nat && (n <=? 32)%nat.

Fixpoint lstrip (s : string) : string :=
  match s with
  | EmptyString => EmptyString
  | String a s' => if is_space a then lstrip s' else s
  end.

(** Drops trailing blanks: [rstrip s] is [s] without the blanks after
    its last non-blank character. *)
Fixpoint rstrip (s : string) : string :=
  match s with
  | EmptyString => EmptyString
  | String a s' =>
      match rstrip s' with
      | EmptyString => if is_space a then EmptyString else String a EmptyString
      | r => String a r
      end
  end.

(** The digits of an [int()] literal after the sign: decimal digits, with
    single underscores allowed between two digits.  [after_digit] says
    whether the previous character was a digit. *)
Fixpoint digits (acc : Z) (after_digit : bool) (s : string) : option Z :=
  match s with
  | EmptyString => if after_digit then Some acc else None
  | String a s' =>
      if is_digit a then digits (10 * acc + digit_val a) true s'
      else if Ascii.eqb a "_" then
             (if after_digit then digits acc false s' else None)
      else None
  end.

(** [int(s)] for a string: [None] is Python's [ValueError].  Blanks are
    stripped, one sign is allowed.  (Python also accepts non-ASCII decimal
    digits; a string here is ASCII.) *)
Definition to_Z (s : string) : option Z :=
  match rstrip (lstrip s) with
  | String "-" d => option_map Z.opp (digits 0 false d)
  | String "+" d => digits 0 false d
  | d => digits 0 false d
  end.

(** The number a decimal numeral of the standard library denotes, read
    digit by digit as [digits] reads a string. *)
Fixpoint uint_value (d : uint) (acc : Z) : Z :=
  match d with
  | Nil => acc
  | D0 l => uint_value l (10 * acc + 0)
  | D1 l => uint_value l (10 * acc + 1)
  | D2 l => uint_value l (10 * acc + 2)
  | D3 l => uint_value l (10 * acc + 3)
  | D4 l => uint_value l (10 * acc + 4)
  | D5 l => uint_value l (10 * acc + 5)
  | D6 l => uint_value l (10 * acc + 6)
  | D7 l => uint_value l (10 * acc + 7)
  | D8 l => uint_value l (10 * acc + 8)
  | D9 l => uint_value l (10 * acc + 9)
  end.

(** [s.split(c)] for a one-character separator [c]. *)
Fixpoint split (c : ascii) (s : string) : list string :=
  match s with
  | EmptyString => [EmptyString]
  | String a s' =>
      if Ascii.eqb a c then EmptyString :: split c s'
      else match split c s' with
           | h :: t => String a h :: t
           | [] => [String a EmptyString]
           end
  end.


(** [len(s)]: the number of characters of the text whose UTF-8 encoding
    is [s], that is, of the bytes that do not continue a character. *)
Definition is_continuation (c : ascii) : bool :=
  let n := nat_of_ascii c in ((128 <=? n) && (n <=? 191))%nat.

Fixpoint len (s : string) : nat :=
  match s with
  | EmptyString => O
  | String a s' => if is_continuation a then len s' else S (len s')
  end.


End Str.

(* ------------------------------------------------------------------ *)
(** ** Python values *)

(** Dictionary keys that occur in the program: strings (JSON objects) and
    ints (platform refs, destination ids). *)
Inductive pykey : Type :=
| KInt (z : Z)
| KStr (s : string).

#[local] Set Warnings "-register-all".

Inductive pyval : Type :=
| PNone
| PBool (b : bool)
| PInt (z : Z)
| PFloat (q : Q)
| PStr (s : string)
| PList (l : list pyval)
| PDict (d : list (pykey * pyval))
| PObject (name : string).  (* a module, class or function, by name *)

#[local] Set Warnings "+register-all".

Definition key_eqb (a b : pykey) : bool :=
  match a, b with
  | KInt x, KInt y => Z.eqb x y
  | KStr x, KStr y => String.eqb x y
  | _, _ => false
  end.

(** Exceptions, by class.  [is_OSError] and [is_ValueError] are the
    [except OSError] and [except ValueError] tests: a class and its
    subclasses. *)
Inductive exn : Type :=
| NameError (name : string)
| UnboundLocalError (name : string)
| AttributeError
| IndexError (msg : string)
| KeyError
| TypeError
| ValueError
| UnicodeDecodeError
| OSError
| BrokenPipeError
| ConnectionResetError
| RequestException
| WebSocketConnectionClosedException
| WebSocketTimeoutException
| KeyboardInterrupt
| NoMatch (msg : string)
| ConnError (msg : string)
| ParseError (msg : string).

Definition is_OSError (e : exn) : bool :=
  match e with
  | OSError | BrokenPipeError | ConnectionResetError | RequestException => true
  | _ => false
  end.

Definition is_ValueError (e : exn) : bool :=
  match e with
  | ValueError | UnicodeDecodeError => true
  | _ => false
  end.

(** [str(e)] of the exceptions the program formats. *)
Definition exn_str (e : exn) : string :=
  match e with
  | IndexError msg | NoMatch msg | ConnError msg | ParseError msg => msg
  | _ => ""
  end.

(** Dictionaries: association lists in insertion order, keys unique. *)
Module Dict.
Section WithKey.
Context {K V : Type} (eqb : K -> K -> bool).

Fixpoint get (d : list (K * V)) (k : K) : option V :=
  match d with
  | [] => None
  | (k', v) :: rest => if eqb k' k then Some v else get rest k
  end.

Definition mem (d : list (K * V)) (k : K) : bool :=
  match get d k with Some _ => true | None => false end.

(** [d[k] = v]: overwrite in place, or append a new key. *)
Fixpoint set (d : list (K * V)) (k : K) (v : V) : list (K * V) :=
  match d with
  | [] => [(k, v)]
  | (k', v') :: rest =>
      if eqb k' k then (k', v) :: rest else (k', v') :: set rest k v
  end.

Definition keys (d : list (K * V)) : list K := map fst d.
End WithKey.
End Dict.

Definition sget {V} (d : list (string * V)) (k : string) : option V :=
  Dict.get String.eqb d k.
Definition sset {V} (d : list (string * V)) (k : string) (v : V) :=
  Dict.set String.eqb d k v.
Definition kget (d : list (pykey * pyval)) (k : pykey) : option pyval :=
  Dict.get key_eqb d k.
Definition kset (d : list (pykey * pyval)) (k : pykey) (v : pyval) :=
  Dict.set key_eqb d k v.
Definition kmem (d : list (pykey * pyval)) (k : pykey) : bool :=
  Dict.mem key_eqb d k.

(* ------------------------------------------------------------------ *)
(** ** Numbers *)

(** [int(x)] of a float: truncation toward zero. *)
Definition Qtrunc (q : Q) : Z := Z.quot (Qnum q) (Z.pos (Qden q)).

(** [a > b] on clock readings. *)
(** A positive number without its factors 2. *)
Fixpoint odd_part (p : positive) : positive :=
  match p with
  | xO p' => odd_part p'
  | _ => p
  end.

(** The rationals that are double precision numbers: [n * 2 ^ e] with
    [|n| < 2 ^ 53] and [-1074 <= e <= 971].  A float operation whose exact
    result is one of them returns it. *)
Definition is_binary64 (q : Q) : bool :=
  let r := Qred q in
  match Qnum r with
  | Z0 => true
  | Zpos n | Zneg n =>
      Pos.eqb (odd_part (Qden r)) 1 &&
      (Z.pos (odd_part n) <? 2 ^ 53)%Z &&
      (Z.pos n <? 2 ^ 1024 * Z.pos (Qden r))%Z &&
      (Z.pos (Qden r) <=? 2 ^ 1074)%Z
  end.

Definition Qgtb (a b : Q) : bool := negb (Qle_bool a b).

(** [str(int(t * 1000))]: the millisecond stamp of the polling requests. *)
Definition millis (t : Q) : string := Str.of_Z (Qtrunc (t * 1000)).

(* ------------------------------------------------------------------ *)
(** ** The outside world *)

Record response : Type := mkResponse {
  status_code : Z;
  text : string;
  cookies : list (string * string)
}.

(** One call of [requests.get] or [requests.post], with the arguments the
    program passes ([rq_headers] and [rq_cookies] are empty when the call
    passes none; [rq_data] is the POST body). *)
Record request : Type := mkRequest {
  rq_method : string;
  rq_url : string;
  rq_params : list (string * string);
  rq_headers : list (string * string);
  rq_cookies : list (string * string);
  rq_data : option string
}.

Inductive http_result : Type :=
| Responded (resp : response)
| Refused (e : exn).

(** What a blocking [ws.recv()] does: deliver a frame, raise, or never
    return because the peer stays silent. *)
Inductive recv_result : Type :=
| Frame (payload : string)
| RecvRaises (e : exn)
| Silence.

(** The program's observable actions, in the order it performs them. *)
Inductive action : Type :=
| Http (rq : request)
| WsConnect (url : string)
| WsSend (msg : string)
| WsRecv
| Sleep (seconds : Z).

(** A handle of the websocket library. *)
Record wsconn : Type := mkWs { ws_url : string }.

(** The libraries and the network.  Every oracle that stands for a call
    with an effect is indexed by the number of such calls made before, so an
    environment fixes a whole run: [clock n] is what the [n]-th
    [time.time()] returns, [http n rq] how the [n]-th HTTP request ends,
    and so on.  [html_select] is
    [BeautifulSoup(text, 'html.parser').select(".cestovny_poriadok_zastavkova_tabula > a")]
    (each selected tag given by its attributes), [json_loads] is
    [json.loads] ([None]: [JSONDecodeError]), [repr] is [str()] of floats,
    lists, dicts and other objects. *)
Record Env : Type := mkEnv {
  clock : nat -> Q;
  http : nat -> request -> http_result;
  ws_open : nat -> string -> option exn;
  ws_send_result : nat -> string -> option exn;
  ws_recv_result : nat -> recv_result;
  json_loads : string -> option pyval;
  html_select : string -> list (list (string * string));
  repr : pyval -> string
}.

(** What has happened so far: how many calls of each kind, and the trace. *)
Record world : Type := mkWorld {
  ticks : nat;
  requests_made : nat;
  connects : nat;
  sends : nat;
  recvs : nat;
  trace : list action
}.

Definition world0 : world := mkWorld 0 0 0 0 0 [].

(* ------------------------------------------------------------------ *)
(** ** The [Stop] object *)

(** The attributes of a [Stop] instance.  [r], [ws] and [timer] do not exist
    until they are first assigned ([None]); [_data] maps a platform ref to
    the batch last cached for it. *)
Record Stop : Type := mkStop {
  headers : list (string * string);
  _urlbase : string;
  eta : list pyval;
  busstopid : string;
  _data : list (pykey * pyval);
  _valid_platforms : list pyval;
  r : option response;
  ws : option wsconn;
  timer : option Q
}.

Definition set_headers (h : list (string * string)) (o : Stop) : Stop :=
  mkStop h (_urlbase o) (eta o) (busstopid o) (_data o) (_valid_platforms o)
         (r o) (ws o) (timer o).
Definition set_data (d : list (pykey * pyval)) (o : Stop) : Stop :=
  mkStop (headers o) (_urlbase o) (eta o) (busstopid o) d (_valid_platforms o)
         (r o) (ws o) (timer o).
Definition set_r (x : response) (o : Stop) : Stop :=
  mkStop (headers o) (_urlbase o) (eta o) (busstopid o) (_data o)
         (_valid_platforms o) (Some x) (ws o) (timer o).
Definition set_ws (c : wsconn) (o : Stop) : Stop :=
  mkStop (headers o) (_urlbase o) (eta o) (busstopid o) (_data o)
         (_valid_platforms o) (r o) (Some c) (timer o).
Definition set_timer (t : Q) (o : Stop) : Stop :=
  mkStop (headers o) (_urlbase o) (eta o) (busstopid o) (_data o)
         (_valid_platforms o) (r o) (ws o) (Some t).

(** The state a computation runs in: the object and the world. *)
Record machine : Type := mkMachine {
  self : Stop;
  outside : world
}.

(* ------------------------------------------------------------------ *)
(** ** The monad of the program *)

(** A computation ends normally, raises, blocks for ever in [recv], or is
    cut off by the step bound of the model ([OutOfFuel]: the only outcome
    that says nothing about the program). *)
Inductive outcome (A : Type) : Type :=
| Ok (a : A) (m : machine)
| Raise (e : exn) (m : machine)
| Hang (m : machine)
| OutOfFuel.

Arguments Ok {A} a m.
Arguments Raise {A} e m.
Arguments Hang {A} m.
Arguments OutOfFuel {A}.

Definition M (A : Type) : Type := machine -> outcome A.

Definition ret {A} (a : A) : M A := fun m => Ok a m.

Definition bind {A B} (c : M A) (k : A -> M B) : M B :=
  fun m =>
    match c m with
    | Ok a m' => k a m'
    | Raise e m' => Raise e m'
    | Hang m' => Hang m'
    | OutOfFuel => OutOfFuel
    end.

Definition raise {A} (e : exn) : M A := fun m => Raise e m.

(** [try: c  except BaseException as e: ...]: the exception, if any, is
    handed to the continuation, which picks the matching handler. *)
Definition attempt {A} (c : M A) : M (A + exn) :=
  fun m =>
    match c m with
    | Ok a m' => Ok (inl a) m'
    | Raise e m' => Ok (inr e) m'
    | Hang m' => Hang m'
    | OutOfFuel => OutOfFuel
    end.

Declare Scope py_scope.
Delimit Scope py_scope with py.
Notation "x <- c ;; k" := (bind c (fun x => k))
  (at level 100, c at next level, right associativity) : py_scope.
Notation "c ;; k" := (bind c (fun _ => k))
  (at level 100, right associativity) : py_scope.
Local Open Scope py_scope.

Definition get_self : M Stop := fun m => Ok (self m) m.
Definition modify_self (f : Stop -> Stop) : M unit :=
  fun m => Ok tt (mkMachine (f (self m)) (outside m)).

(** [of_result]: lift a pure operation that may raise. *)
Definition of_result {A} (x : A + exn) : M A :=
  match x with inl a => ret a | inr e => raise e end.

(* ------------------------------------------------------------------ *)
(** ** Operations on Python values *)

Definition key_str (k : pykey) : string :=
  match k with
  | KInt z => Str.of_Z z
  | KStr s => s
  end.

(** [int(v)]. *)
Definition py_int (v : pyval) : Z + exn :=
  match v with
  | PInt z => inl z
  | PBool b => inl (if b then 1 else 0)
  | PFloat q => inl (Qtrunc q)
  | PStr s => match Str.to_Z s with Some z => inl z | None => inr ValueError end
  | PNone | PList _ | PDict _ | PObject _ => inr TypeError
  end.

Definition key_int (k : pykey) : Z + exn :=
  match k with
  | KInt z => inl z
  | KStr s => match Str.to_Z s with Some z => inl z | None => inr ValueError end
  end.

(** [v[i]] for an int [i >= 0]. *)
Definition py_index (v : pyval) (i : nat) : pyval + exn :=
  match v with
  | PList l =>
      match nth_error l i with
      | Some x => inl x
      | None => inr (IndexError "list index out of range")
      end
  | PStr s =>
      match nth_error (Str.chars s) i with
      | Some c => inl (PStr c)
      | None => inr (IndexError "string index out of range")
      end
  | PDict d =>
      match kget d (KInt (Z.of_nat i)) with
      | Some x => inl x
      | None => inr KeyError
      end
  | PNone | PBool _ | PInt _ | PFloat _ | PObject _ => inr TypeError
  end.

(** [v[k]] for a string [k]. *)
Definition py_item (v : pyval) (k : string) : pyval + exn :=
  match v with
  | PDict d =>
      match kget d (KStr k) with
      | Some x => inl x
      | None => inr KeyError
      end
  | _ => inr TypeError
  end.

Definition is_str (k : string) (v : pyval) : bool :=
  match v with PStr s => String.eqb s k | _ => false end.

(** [k in v] for a string [k]: a key of a dict, an element of a list, a
    substring of a string. *)
Definition py_in (k : string) (v : pyval) : bool + exn :=
  match v with
  | PDict d => inl (kmem d (KStr k))
  | PList l => inl (existsb (is_str k) l)
  | PStr s => inl (Str.contains k s)
  | PNone | PBool _ | PInt _ | PFloat _ | PObject _ => inr TypeError
  end.

(** [v.get(k)]: only a dict has the method. *)
Definition py_get (v : pyval) (k : string) : pyval + exn :=
  match v with
  | PDict d => inl (match kget d (KStr k) with Some x => x | None => PNone end)
  | _ => inr AttributeError
  end.

(** [v != 0]. *)
Definition py_ne_zero (v : pyval) : bool :=
  match v with
  | PInt z => negb (Z.eqb z 0)
  | PBool b => b
  | PFloat q => negb (Qeq_bool q 0)
  | PNone | PStr _ | PList _ | PDict _ | PObject _ => true
  end.

(** [x in conn] for a list of strings [conn]: only a string can be equal
    to one of them. *)
Definition in_strings (x : pyval) (conn : list string) : bool :=
  match x with
  | PStr s => existsb (String.eqb s) conn
  | _ => false
  end.

(** A dictionary key as a value: what iterating over a [dict] yields. *)
Definition key_val (k : pykey) : pyval :=
  match k with
  | KInt z => PInt z
  | KStr s => PStr s
  end.

(** [for x in v]: the values the iteration yields. *)
Definition py_iter (v : pyval) : list pyval + exn :=
  match v with
  | PList l => inl l
  | PStr s => inl (map PStr (Str.chars s))
  | PDict d => inl (map key_val (Dict.keys d))
  | PNone | PBool _ | PInt _ | PFloat _ | PObject _ => inr TypeError
  end.

(* ------------------------------------------------------------------ *)
(** ** Regular expressions

    The fragment of Python's [re] the program uses: a pattern is a
    sequence of one-character atoms, each taken once or under a greedy [*]
    or [+], some of them inside the (single) capturing group.  Matching
    backtracks as [re] does: a starred atom first takes as many characters
    as it can and gives them back one at a time. *)

Module Re.

Inductive atom : Type :=
| Any              (* [.]  : any character but a newline *)
| Lit (c : ascii)  (* [c]              *)
| Not (c : ascii). (* [[^c]]           *)

Inductive quant : Type := Once | Star | Plus.

Record piece : Type := mkPiece {
  p_atom : atom;
  p_quant : quant;
  p_group : bool
}.

Definition newline : ascii := "010"%char.

Definition atom_ok (a : atom) (c : ascii) : bool :=
  match a with
  | Any => negb (Ascii.eqb c newline)
  | Lit x => Ascii.eqb c x
  | Not x => negb (Ascii.eqb c x)
  end.

Definition keep (g : bool) (c : ascii) (cap : string) : string :=
  if g then String c cap else cap.

(** A greedy run of characters satisfying [ok], followed by [k].  The
    result is the text captured by the group. *)
Fixpoint star (ok : ascii -> bool) (g : bool) (k : string -> option string)
  (s : string) : option string :=
  match s with
  | String c s' =>
      if ok c then
        match star ok g k s' with
        | Some cap => Some (keep g c cap)
        | None => k s
        end
      else k s
  | EmptyString => k s
  end.

(** [re.match]: the pattern anchored at the start of [s]. *)
Fixpoint match_here (ps : list piece) : string -> option string :=
  match ps with
  | [] => fun _ => Some EmptyString
  | p :: rest =>
      let ok := atom_ok (p_atom p) in
      let g := p_group p in
      match p_quant p with
      | Once => fun s =>
          match s with
          | String c s' =>
              if ok c then option_map (keep g c) (match_here rest s') else None
          | EmptyString => None
          end
      | Star => star ok g (match_here rest)
      | Plus => fun s =>
          match s with
          | String c s' =>
              if ok c then option_map (keep g c) (star ok g (match_here rest) s')
              else None
          | EmptyString => None
          end
      end
  end.

(** [re.search(ps, s)], reduced to [group(1)] of the match: the leftmost
    start position at which the pattern matches. *)
Fixpoint search (ps : list piece) (s : string) : option string :=
  match match_here ps s with
  | Some cap => Some cap
  | None =>
      match s with
      | EmptyString => None
      | String _ s' => search ps s'
      end
  end.

End Re.

(** The pattern ['.*z=([^&]+)&.*'] of [busstop2id]. *)
Definition z_pattern : list Re.piece :=
  [ Re.mkPiece Re.Any Re.Star false;
    Re.mkPiece (Re.Lit "z") Re.Once false;
    Re.mkPiece (Re.Lit "=") Re.Once false;
    Re.mkPiece (Re.Not "&") Re.Plus true;
    Re.mkPiece (Re.Lit "&") Re.Once false;
    Re.mkPiece Re.Any Re.Star false ].

(** What follows the leading [.*] in it. *)
Definition tail_pattern : list Re.piece := tl z_pattern.

Section Program.

Variable E : Env.

(** [str(v)]. *)
Definition py_str (v : pyval) : string :=
  match v with
  | PNone => "None"
  | PBool b => if b then "True" else "False"
  | PInt z => Str.of_Z z
  | PStr s => s
  | PFloat _ | PList _ | PDict _ | PObject _ => repr E v
  end.

(* ------------------------------------------------------------------ *)
(** ** Library calls *)

Definition bump_tick (w : world) : world :=
  mkWorld (S (ticks w)) (requests_made w) (connects w) (sends w) (recvs w)
          (trace w).
Definition bump_http (rq : request) (w : world) : world :=
  mkWorld (ticks w) (S (requests_made w)) (connects w) (sends w) (recvs w)
          (trace w ++ [Http rq])%list.
Definition bump_connect (url : string) (w : world) : world :=
  mkWorld (ticks w) (requests_made w) (S (connects w)) (sends w) (recvs w)
          (trace w ++ [WsConnect url])%list.
Definition bump_send (msg : string) (w : world) : world :=
  mkWorld (ticks w) (requests_made w) (connects w) (S (sends w)) (recvs w)
          (trace w ++ [WsSend msg])%list.
Definition bump_recv (w : world) : world :=
  mkWorld (ticks w) (requests_made w) (connects w) (sends w) (S (recvs w))
          (trace w ++ [WsRecv])%list.
Definition log_sleep (n : Z) (w : world) : world :=
  mkWorld (ticks w) (requests_made w) (connects w) (sends w) (recvs w)
          (trace w ++ [Sleep n])%list.

Definition on_world (f : world -> world) (m : machine) : machine :=
  mkMachine (self m) (f (outside m)).

(** [time.time()]. *)
Definition time_time : M Q :=
  fun m => Ok (clock E (ticks (outside m))) (on_world bump_tick m).

(** [time.sleep(n)]. *)
Definition time_sleep (n : Z) : M unit :=
  fun m => Ok tt (on_world (log_sleep n) m).

(** [requests.get] and [requests.post]. *)
Definition requests_call (rq : request) : M response :=
  fun m =>
    let m' := on_world (bump_http rq) m in
    match http E (requests_made (outside m)) rq with
    | Responded resp => Ok resp m'
    | Refused e => Raise e m'
    end.

Definition requests_get (url : string) (params headers cookies : list (string * string))
  : M response :=
  requests_call (mkRequest "GET" url params headers cookies None).

Definition requests_post (url : string) (params headers : list (string * string))
  (data : string) (cookies : list (string * string)) : M response :=
  requests_call (mkRequest "POST" url params headers cookies (Some data)).

(** [websocket.create_connection(url)]. *)
Definition create_connection (url : string) : M wsconn :=
  fun m =>
    let m' := on_world (bump_connect url) m in
    match ws_open E (connects (outside m)) url with
    | None => Ok (mkWs url) m'
    | Some e => Raise e m'
    end.

(** [c.send(msg)]. *)
Definition ws_send (c : wsconn) (msg : string) : M unit :=
  fun m =>
    let m' := on_world (bump_send msg) m in
    match ws_send_result E (sends (outside m)) msg with
    | None => Ok tt m'
    | Some e => Raise e m'
    end.

(** [c.recv()]. *)
Definition ws_recv (c : wsconn) : M string :=
  fun m =>
    let m' := on_world bump_recv m in
    match ws_recv_result E (recvs (outside m)) with
    | Frame payload => Ok payload m'
    | RecvRaises e => Raise e m'
    | Silence => Hang m'
    end.

(** Reading the attributes that may not exist yet. *)
Definition self_ws : M wsconn :=
  o <- get_self ;;
  match ws o with Some c => ret c | None => raise AttributeError end.

Definition self_timer : M Q :=
  o <- get_self ;;
  match timer o with Some t => ret t | None => raise AttributeError end.

(* ------------------------------------------------------------------ *)
(** ** Module-level functions *)

Definition is_IndexError (e : exn) : bool :=
  match e with IndexError _ => true | _ => false end.

(** [l[0]] of a list. *)
Definition first {A} (l : list A) : A + exn :=
  match l with
  | x :: _ => inl x
  | [] => inr (IndexError "list index out of range")
  end.

(** [tag[name]] of a selected tag. *)
Definition attr (tag : list (string * string)) (name : string) : string + exn :=
  match sget tag name with
  | Some v => inl v
  | None => inr KeyError
  end.

(** [re.search('.*z=([^&]+)&.*', link).group(1)]. *)
Definition z_group (link : string) : string + exn :=
  match Re.search z_pattern link with
  | Some g => inl g
  | None => inr AttributeError
  end.

(** [busstop2id(busstop)] for a string [busstop]. *)
Definition busstop2id (busstop : string) : M Z :=
  r <- requests_get ("http://imhd.sk/ba/vyhladavanie?hladaj=" ++ busstop)
         [] [] [] ;;
  let soup := html_select E (text r) in
  found <- attempt (tag <- of_result (first soup) ;;
                    of_result (attr tag "href")) ;;
  match found with
  | inr e =>
      if is_IndexError e
      then raise (NoMatch ("Multiple matches for string or invalid name? "
                           ++ exn_str e))
      else raise e
  | inl link =>
      g <- of_result (z_group link) ;;
      of_result (py_int (PStr g))
  end.

(** [datetime.now().strftime("%s")]: the clock in whole seconds. *)
Definition strftime_s (now : Q) : string := Str.of_Z (Qfloor now).

(** [{int(x): y for (x, y) in zip(sn.keys(), sn.values())}]. *)
Fixpoint int_keys (sn acc : list (pykey * pyval)) : list (pykey * pyval) + exn :=
  match sn with
  | [] => inl acc
  | (x, y) :: rest =>
      match key_int x with
      | inl z => int_keys rest (kset acc (KInt z) y)
      | inr e => inr e
      end
  end.

(** [destid2destname(id)]. *)
Definition destid2destname (id : pyval) : M pyval :=
  let ids :=
    match id with
    | PList l => map (fun x => PStr (py_str x)) l
    | _ => [id]
    end in
  let idlist := Str.join "," (map py_str ids) in
  now <- time_time ;;
  r <- requests_get "http://imhd.sk/ba/api/sk/cp"
         [("op", "gsn"); ("id", idlist); ("t", strftime_s now)] [] [] ;;
  match json_loads E (text r) with
  | None => raise ValueError
  | Some doc =>
      sn <- of_result (py_item doc "sn") ;;
      match sn with
      | PDict d => names <- of_result (int_keys d []) ;; ret (PDict names)
      | _ => raise AttributeError
      end
  end.

(* ------------------------------------------------------------------ *)
(** ** class Stop *)

(** One double quote. *)
Definition dq : string := String "034"%char EmptyString.

(** [Stop.__init__(busstopid)] up to the call of [get_valid_platforms]. *)
Definition new_Stop (id : pyval) : Stop :=
  mkStop
    [ ("Connection", "keep-alive");
      ("Host", "imhd.sk");
      ("User-Agent",
       "Mozilla/5.0 (X11; Linux i686; rv:45.0) Gecko/20100101 Firefox/45.0") ]
    "http://imhd.sk/ba/"
    []
    (py_str id)
    []
    []
    None None None.

(** [get_valid_platforms]: the method returns on its first line; the
    request and the parsing below it are never run. *)
Definition get_valid_platforms : M unit := ret tt.

(** [Stop.__init__(busstopid)]: fill in the attributes, then call
    [get_valid_platforms].  ([debug] only configures logging, which is not
    modelled.) *)
Definition init (busstopid : pyval) : M unit :=
  modify_self (fun _ => new_Stop busstopid) ;;
  get_valid_platforms.

(** [self._u(url)]. *)
Definition _u (o : Stop) (url : string) : string := _urlbase o ++ url.

Definition sio2 : string := "http://imhd.sk/rt/sio2/".

Definition set_header (k v : string) : M unit :=
  modify_self (fun o => set_headers (sset (headers o) k v) o).

(** The [while True] of [_subscribe]: two polling GETs per round, until the
    second answer carries a non-empty [io] cookie. *)
Fixpoint poll (fuel : nat) : M string :=
  match fuel with
  | O => fun _ => OutOfFuel
  | S fuel' =>
      let jar := [("testCookie", "1")] in
      t <- time_time ;;
      o <- get_self ;;
      r1 <- requests_get sio2
              [("EIO", "3"); ("transport", "polling"); ("t", millis t)]
              (headers o) jar ;;
      modify_self (set_r r1) ;;
      t <- time_time ;;
      o <- get_self ;;
      r2 <- requests_get sio2
              [("EIO", "3"); ("transport", "polling"); ("t", millis t ++ "-0")]
              (headers o) jar ;;
      modify_self (set_r r2) ;;
      match sget (cookies r2) "io" return M string with
      | Some (String c rest) => ret (String c rest)
      | Some EmptyString | None => time_sleep 2 ;; poll fuel'
      end
  end.


(** The subscribe command: ['42["req",[{0},["*"]]]'.format(busstopid, ...)],
    spaces removed, prefixed with its length in characters and a colon. *)
Definition reqdata (o : Stop) : string :=
  let reqdata := "42[" ++ dq ++ "req" ++ dq ++ ",[" ++ busstopid o
                 ++ ",[" ++ dq ++ "*" ++ dq ++ "]]]" in
  let reqdata := Str.remove " " reqdata in
  Str.of_Z (Z.of_nat (Str.len reqdata)) ++ ":" ++ reqdata.

(** [Stop._subscribe]. *)
Definition _subscribe (fuel : nat) : M unit :=
  o <- get_self ;;
  let referer :=
    _u o ("online-zastavkova-tabula?z=" ++ busstopid o ++ "&skin=2&fullscreen=1") in
  set_header "Referer" referer ;;
  o <- get_self ;;
  r0 <- requests_get "http://imhd.sk/rt/sio/socket.io.js" [] (headers o) [] ;;
  modify_self (set_r r0) ;;
  io <- poll fuel ;;
  let jar := [("testCookie", "1"); ("io", io)] in
  t <- time_time ;;
  requests_get sio2
    [("EIO", "3"); ("transport", "polling"); ("t", millis t ++ "-1"); ("sid", io)]
    [] jar ;;
  set_header "Origin" "http://imhd.sk" ;;
  set_header "Content-type" "text/plain;charset=UTF-8" ;;
  o <- get_self ;;
  let reqdata := reqdata o in
  t <- time_time ;;
  o <- get_self ;;
  requests_post sio2
    [("EIO", "3"); ("transport", "polling"); ("t", millis t ++ "-2"); ("sid", io)]
    (headers o) reqdata jar ;;
  c <- create_connection
         ("ws://imhd.sk/rt/sio2/?EIO=3&transport=websocket&sid=" ++ io) ;;
  modify_self (set_ws c) ;;
  c <- self_ws ;; ws_send c "2probe" ;;
  c <- self_ws ;; ws_recv c ;;
  time_sleep 1 ;;
  c <- self_ws ;; ws_send c "5".

(** The three lines both error handlers of [fetch] run before [continue]. *)
Definition resubscribe (fuel : nat) : M unit :=
  _subscribe fuel ;;
  t <- time_time ;;
  modify_self (set_timer t) ;;
  time_sleep 3.

(** The local variables of [fetch] that live across iterations: [data]
    (unbound until the first frame) and [response_timer]. *)
Record locals : Type := mkLocals {
  data : option string;
  response_timer : Q
}.

(** The keepalive at the head of an iteration.  [true]: go on to receive;
    [false]: the handler ran and the iteration ends with [continue]. *)
Definition keepalive (fuel : nat) : M bool :=
  now <- time_time ;;
  last <- self_timer ;;
  if Qgtb (now - last) 30 then
    t <- time_time ;;
    modify_self (set_timer t) ;;
    sent <- attempt (c <- self_ws ;; ws_send c "2") ;;
    match sent with
    | inl _ => ret true
    | inr e =>
        if is_OSError e then resubscribe fuel ;; ret false
        else raise e
    end
  else ret true.

(** ['{0}.{1}'.format(self.busstopid, platform)]. *)
Definition frame_key (o : Stop) (platform : pykey) : string :=
  busstopid o ++ "." ++ key_str platform.

(** What follows the [try] statement: cache the batch keyed by the watched
    stop and platform, if the frame has one. *)
Definition accept (platform : pykey) (l : locals) (table_data : pyval)
  : M locals :=
  o <- get_self ;;
  second <- of_result (py_index table_data 1) ;;
  present <- of_result (py_in (frame_key o platform) second) ;;
  if present : bool then
    second <- of_result (py_index table_data 1) ;;
    batch <- of_result (py_get second (frame_key o platform)) ;;
    modify_self (fun o => set_data (kset (_data o) platform batch) o) ;;
    t <- time_time ;;
    ret (mkLocals (data l) t)
  else ret l.

(** The receive half of an iteration.  [None]: [fetch] returns;
    [Some l]: the loop goes round again with locals [l]. *)
Definition receive (fuel : nat) (platform : pykey) (l : locals)
  : M (option locals) :=
  got <- attempt (c <- self_ws ;; ws_recv c) ;;
  match got with
  | inr e =>
      if is_ValueError e then
        (* logging.debug('Cannot parse >>%s<<' % data) reads [data] *)
        match data l with
        | Some _ => ret (Some l)
        | None => raise (UnboundLocalError "data")
        end
      else resubscribe fuel ;; ret (Some l)
  | inl raw =>
      let l := mkLocals (Some (Str.drop 2 raw)) (response_timer l) in
      match json_loads E (Str.drop 2 raw) with
      | None => ret (Some l)
      | Some table_data =>
          now <- time_time ;;
          if Qgtb (now - response_timer l) 3 then ret None
          else l' <- accept platform l table_data ;; ret (Some l')
      end
  end.

(** One iteration of the [while True] of [fetch]. *)
Definition fetch_body (fuel : nat) (platform : pykey) (l : locals)
  : M (option locals) :=
  go <- keepalive fuel ;;
  if go : bool then receive fuel platform l else ret (Some l).

Fixpoint fetch_loop (sub fuel : nat) (platform : pykey) (l : locals) : M unit :=
  match fuel with
  | O => fun _ => OutOfFuel
  | S fuel' =>
      next <- fetch_body sub platform l ;;
      match next with
      | None => ret tt
      | Some l' => fetch_loop sub fuel' platform l'
      end
  end.

(** The lines of [fetch] before its loop: subscribe unless [self.ws]
    exists, sleep, start the inactivity timer.  [data] is not bound yet. *)
Definition fetch_enter (fuel : nat) : M locals :=
  o <- get_self ;;
  match ws o with
  | None =>
      _subscribe fuel ;;
      t <- time_time ;;
      modify_self (set_timer t)
  | Some _ => ret tt
  end ;;
  time_sleep 3 ;;
  response_timer <- time_time ;;
  ret (mkLocals None response_timer).

(** [Stop.fetch(platform)]. *)
Definition fetch (fuel : nat) (platform : pykey) : M unit :=
  l <- fetch_enter fuel ;;
  fetch_loop fuel fuel platform l.

(** The record dictionaries of the batch cached for [platform]: the list
    object [self._data[platform]['tab']]. *)
Definition records_of (o : Stop) (platform : pykey) : list pyval :=
  match kget (_data o) platform with
  | Some (PDict batch) =>
      match kget batch (KStr "tab") with
      | Some (PList l) => l
      | _ => []
      end
  | _ => []
  end.

(** Writing through a reference into the cache: the batch of [platform]
    keeps its identity and its other keys, its ['tab'] list now holds
    [records]. *)
Definition store_records (platform : pykey) (records : list pyval) (o : Stop)
  : Stop :=
  match kget (_data o) platform with
  | Some (PDict batch) =>
      set_data (kset (_data o) platform
                  (PDict (kset batch (KStr "tab") (PList records)))) o
  | _ => o
  end.

(** The loop variable [x] of [get_data] is a reference to the record at
    position [length done] of the cached list, so an assignment [x[k] = v]
    changes the cache itself: [commit] writes the record back in place. *)
Definition commit (platform : pykey) (done todo : list pyval)
  (x : list (pykey * pyval)) : M unit :=
  modify_self (store_records platform (done ++ PDict x :: todo)%list).

Definition is_dest_key (k : pykey) : bool :=
  match k with
  | KStr s => String.eqb s "cielZastavka" || String.eqb s "lastZ"
  | KInt _ => false
  end.

(** [for key in x: if key in ('cielZastavka', 'lastZ'): if x[key] != 0:
    x[key] = destid2destname(x[key])]. *)
Fixpoint resolve (platform : pykey) (done todo : list pyval)
  (keys : list pykey) (x : list (pykey * pyval)) : M (list (pykey * pyval)) :=
  match keys with
  | [] => ret x
  | key :: keys' =>
      if is_dest_key key then
        match kget x key with
        | Some v =>
            if py_ne_zero v then
              name <- destid2destname v ;;
              let x' := kset x key name in
              commit platform done todo x' ;;
              resolve platform done todo keys' x'
            else resolve platform done todo keys' x
        | None => raise KeyError
        end
      else resolve platform done todo keys' x
  end.

(** The body of [for x in self._data[platform]['tab']] and the loop
    itself.  [done] are the records already visited (as they are now),
    [todo] the ones to come; the result is the list of the records appended
    to [result], each given by its position in the cached list. *)
Fixpoint visit (platform : pykey) (conn : list string) (resolve_names : bool)
  (done todo : list pyval) (result : list nat) : M (list nat) :=
  match todo with
  | [] => ret result
  | x :: todo' =>
      linka <- of_result (py_item x "linka") ;;
      if in_strings linka conn then
        match x with
        | PDict d =>
            cas <- of_result (py_item x "cas") ;;
            ms <- of_result (py_int cas) ;;
            now <- time_time ;;
            let d := kset d (KStr "toffset")
                       (PInt (Qtrunc (inject_Z ms / 1000 - now))) in
            commit platform done todo' d ;;
            d <- (if resolve_names
                  then resolve platform done todo' (Dict.keys d) d
                  else ret d) ;;
            visit platform conn resolve_names (done ++ [PDict d])%list todo'
                  (result ++ [length done])%list
        | _ => raise TypeError
        end
      else
        visit platform conn resolve_names (done ++ [x])%list todo' result
  end.

(** [conn] as the list of strings it is coerced to. *)
Definition routes (conn : pyval) : list string :=
  match conn with
  | PList l => map py_str l
  | _ => [py_str conn]
  end.

(** [Stop.get_data(platform, conn, force_update, resolve_names)].  The
    returned list holds references to records of the cache: it is given as
    the positions of those records in [self._data[platform]['tab']]. *)
Definition get_data (fuel : nat) (platform : pykey) (conn : pyval)
  (force_update resolve_names : bool) : M (list nat) :=
  let conn := routes conn in
  (if force_update then fetch fuel platform else ret tt) ;;
  o <- get_self ;;
  match kget (_data o) platform with
  | None => raise KeyError
  | Some batch =>
      tab <- of_result (py_item batch "tab") ;;
      match tab with
      | PList l => visit platform conn resolve_names [] l []
      | PStr EmptyString | PDict [] => ret []
      | PStr (String _ _) | PDict (_ :: _) => raise TypeError
      | PNone | PBool _ | PInt _ | PFloat _ | PObject _ => raise TypeError
      end
  end.

End Program.

Arguments destid2destname : simpl never.

(** What a caller holding the list returned by [get_data] reads in it, in
    machine state [m]. *)
Definition view (m : machine) (platform : pykey) (refs : list nat)
  : list pyval :=
  map (fun i => nth i (records_of (self m) platform) PNone) refs.

(** The state a run ends in ([otherwise] when the step bound cut it). *)
Definition final {A} (o : outcome A) (otherwise : machine) : machine :=
  match o with
  | Ok _ m | Raise _ m | Hang m => m
  | OutOfFuel => otherwise
  end.

(** An object no attribute of which has been set, in an untouched world;
    and the state after [Stop(busstopid)] there. *)
Definition blank : machine :=
  mkMachine (mkStop [] "" [] "" [] [] None None None) world0.

Definition boot (E : Env) (id : pyval) : machine :=
  final (init E id blank) blank.

(* ------------------------------------------------------------------ *)
(** ** The older script, ivtt2txt.py *)

Module Old.

(** [busstop2id(busstop)] of the older script.  Its first line reads the
    name [query], which is neither a parameter nor a local of the function:
    it is looked up in the module's globals, given here as [globals]. *)
Definition busstop2id (E : Env) (globals : list (string * pyval))
  (busstop : pyval) : M string :=
  match sget globals "query" with
  | None => raise (NameError "query")
  | Some (PStr query) =>
      r <- requests_get E ("http://imhd.sk/ba/vyhladavanie?hladaj=" ++ query)
             [] [] [] ;;
      let soup := html_select E (text r) in
      found <- attempt (tag <- of_result (first soup) ;;
                        of_result (attr tag "href")) ;;
      match found with
      | inr e =>
          if is_IndexError e
          then raise (NoMatch ("Multiple matches for string or invalid name? "
                               ++ exn_str e))
          else raise e
      | inl link => of_result (z_group link)
      end
  | Some _ => raise TypeError
  end.

(** The names the script binds at module level before [__main__] runs:
    imports, classes and functions.  [query] is not among them. *)
Definition module_globals : list (string * pyval) :=
  [ ("requests", PObject "requests"); ("sys", PObject "sys"); ("re", PObject "re"); ("time", PObject "time");
    ("BeautifulSoup", PObject "BeautifulSoup"); ("websocket", PObject "websocket"); ("json", PObject "json");
    ("thread", PObject "thread"); ("NoMatch", PObject "NoMatch"); ("ConnError", PObject "ConnError");
    ("ParseError", PObject "ParseError"); ("busstop2id", PObject "busstop2id"); ("location2id", PObject "location2id");
    ("destid2destname", PObject "destid2destname"); ("ImhdBa", PObject "ImhdBa") ].

(** [query=sys.argv[1]] of the [__main__] block. *)
Definition main_globals (argv1 : string) : list (string * pyval) :=
  sset module_globals "query" (PStr argv1).

(** *** The name lookup of the older script *)

(** [destid2destname(id)] of the older script: it insists on a list. *)
Definition destid2destname (E : Env) (id : pyval) : M pyval :=
  match id with
  | PList l =>
      let idlist := Str.join "," (map (py_str E) l) in
      now <- time_time E ;;
      r <- requests_get E "http://imhd.sk/ba/api/sk/cp"
             [("op", "gsn"); ("id", idlist); ("t", strftime_s now)] [] [] ;;
      match json_loads E (text r) with
      | None => raise ValueError
      | Some doc =>
          sn <- of_result (py_item doc "sn") ;;
          match sn with
          | PDict d => names <- of_result (int_keys d []) ;; ret (PDict names)
          | _ => raise AttributeError
          end
      end
  | _ => raise TypeError
  end.

(** *** The class [ImhdBa] of the older script: its state and the
    [on_message] callback of [get_arrival_time] *)

(** The attributes of an [ImhdBa] instance. *)
Record ImhdBa : Type := mkImhdBa {
  eta : list pyval;
  delay : list pyval;
  linkadata : list pyval;
  result : list pyval;
  msgcounter : Z
}.

(** [ImhdBa.__init__]. *)
Definition new_ImhdBa : ImhdBa := mkImhdBa [] [] [] [] 0.

Definition count_message (o : ImhdBa) : ImhdBa :=
  mkImhdBa (eta o) (delay o) (linkadata o) (result o) (msgcounter o + 1).

Definition append_result (x : pyval) (o : ImhdBa) : ImhdBa :=
  mkImhdBa (eta o) (delay o) (linkadata o) (result o ++ [x])%list (msgcounter o).

(** How a call of the callback [on_message] ends: the object as it is
    then, the number of times [ws.close()] was called, and the exception
    that left the callback, if any. *)
Record handled : Type := mkHandled {
  after : ImhdBa;
  closes : nat;
  raised : option exn
}.

(** The loop [for llinkadata in linkadata[1]['tab']] of [on_message]:
    records that are not ['online'] or whose route is not asked for are
    skipped, the others appended to [self.result]. *)
Fixpoint collect (E : Env) (linkalist : list string) (tab : list pyval)
  (o : ImhdBa) : ImhdBa * option exn :=
  match tab with
  | [] => (o, None)
  | llinkadata :: rest =>
      match py_item llinkadata "typ" with
      | inr e => (o, Some e)
      | inl typ =>
          if negb (String.eqb (py_str E typ) "online")
          then collect E linkalist rest o
          else
            match py_item llinkadata "linka" with
            | inr e => (o, Some e)
            | inl route =>
                if negb (existsb (String.eqb (py_str E route)) linkalist)
                then collect E linkalist rest o
                else collect E linkalist rest (append_result llinkadata o)
            end
      end
  end.

(** The callback [on_message(ws, message)] that [get_arrival_time]
    defines, for the values [linka], [nastupiste] (both already passed
    through [str()]) and [platform] of the enclosing call; [debug] is off. *)
Definition on_message (E : Env) (linka nastupiste platform : string)
  (o : ImhdBa) (message : string) : handled :=
  let linkalist := Str.split "," linka in
  if Str.contains "nastupiste" message then
    let o := count_message o in
    let closed :=
      if (Z.of_nat (String.length platform) + 2 <? msgcounter o)%Z
      then 1%nat else 0%nat in
    match json_loads E (Str.drop 2 message) with
    | None => mkHandled o closed (Some ValueError)
    | Some doc =>
        match py_index doc 1 with
        | inr e => mkHandled o closed (Some e)
        | inl second =>
            match py_item second "nastupiste" with
            | inr e => mkHandled o closed (Some e)
            | inl n =>
                if negb (String.eqb (py_str E n) nastupiste)
                then mkHandled o closed None
                else
                  match py_item second "tab" with
                  | inr e => mkHandled o closed (Some e)
                  | inl tab =>
                      match py_iter tab with
                      | inr e => mkHandled o closed (Some e)
                      | inl records =>
                          match collect E linkalist records o with
                          | (o', Some e) => mkHandled o' closed (Some e)
                          | (o', None) => mkHandled o' (S closed) None
                          end
                      end
                  end
            end
        end
    end
  else mkHandled o 0 None.

(** A record the older handler keeps when asked for [linkalist]. *)
Definition wanted (E : Env) (linkalist : list string) (x : pyval) : Prop :=
  exists typ route,
    py_item x "typ" = inl typ /\ py_str E typ = "online" /\
    py_item x "linka" = inl route /\ In (py_str E route) linkalist.

End Old.

(* ------------------------------------------------------------------ *)
(** ** Record extraction, as the specification words it

    "Filter the cached batch's arrival entries to those whose route field
    matches, annotate each with a computed toffset": the functions below
    say this over a list of records, the [n]-th annotated record taking
    the [n]-th clock reading from [tick] on. *)

(** [x['linka']] and [int(x['cas'])] of a record that has them. *)
Definition linka_of (x : pyval) : pyval :=
  match py_item x "linka" with inl v => v | inr _ => PNone end.

Definition cas_of (x : pyval) : Z :=
  match py_item x "cas" with
  | inl c => match py_int c with inl ms => ms | inr _ => 0 end
  | inr _ => 0
  end.





(** The offset of the record [x] at clock reading [now] is computed
    without rounding: the reading, the quotient [int(cas) / 1000] and the
    difference are double precision numbers. *)
Definition exact_offset (x : pyval) (now : Q) : bool :=
  is_binary64 now &&
  is_binary64 (inject_Z (cas_of x) / 1000) &&
  is_binary64 (inject_Z (cas_of x) / 1000 - now).

(** So are the offsets of all the records of the batch that a call for the
    routes [conn] annotates, each at its own clock reading. *)
Fixpoint exact_offsets (clk : nat -> Q) (tick : nat) (conn : list string)
  (tab : list pyval) : bool :=
  match tab with
  | [] => true
  | x :: rest =>
      if in_strings (linka_of x) conn
      then exact_offset x (clk tick) && exact_offsets clk (S tick) conn rest
      else exact_offsets clk tick conn rest
  end.

(** A record without a scheduled time that [int()] could take: the key
    [cas] is missing ([KeyError]), or its value is [None], a list or a
    dictionary ([TypeError]). *)
Definition unscheduled (x : pyval) : option exn :=
  match x with
  | PDict d =>
      match kget d (KStr "cas") with
      | None => Some KeyError
      | Some PNone | Some (PList _) | Some (PDict _) => Some TypeError
      | Some _ => None
      end
  | _ => None
  end.

(** The positions of the matching records, counted from [offset]. *)
Fixpoint matching (conn : list string) (tab : list pyval) (offset : nat)
  : list nat :=
  match tab with
  | [] => []
  | x :: rest =>
      if in_strings (linka_of x) conn
      then offset :: matching conn rest (S offset)
      else matching conn rest (S offset)
  end.

(* ------------------------------------------------------------------ *)
(** ** What [get_data] leaves in a record *)

(** A value that some call of [destid2destname] returned. *)
Definition looked_up (E : Env) (val : pyval) : Prop :=
  exists id m m', destid2destname E id m = Ok val m'.

(** [x'] is the record [x] after [get_data] has appended it to its result:
    it has a [toffset], and with name resolution every destination field
    that was not 0 holds a value returned by [destid2destname]. *)
Definition mutated (E : Env) (resolve_names : bool) (x x' : pyval) : Prop :=
  exists d d',
    x = PDict d /\ x' = PDict d' /\
    (exists t, kget d' (KStr "toffset") = Some (PInt t)) /\
    (resolve_names = true ->
     forall k v,
       is_dest_key k = true -> kget d k = Some v -> py_ne_zero v = true ->
       exists val, kget d' k = Some val /\ looked_up E val).

(** A record of the batch before and after a call: mutated if its route
    was asked for, the same otherwise. *)
Definition touched (E : Env) (resolve_names : bool) (conn : list string)
  (x x' : pyval) : Prop :=
  if in_strings (linka_of x) conn then mutated E resolve_names x x' else x' = x.

(* ------------------------------------------------------------------ *)
(** ** The loop and the keepalive, as relations on states *)

(** The iterations that end with the loop going round: [continues n l m l'
    m'] when [n] iterations in a row started from locals [l] in state [m]
    all continue, leaving locals [l'] and state [m']. *)
Inductive continues (E : Env) (sub : nat) (platform : pykey)
  : nat -> locals -> machine -> locals -> machine -> Prop :=
| continues_O l m : continues E sub platform 0 l m l m
| continues_S n l m l1 m1 l2 m2 :
    fetch_body E sub platform l m = Ok (Some l1) m1 ->
    continues E sub platform n l1 m1 l2 m2 ->
    continues E sub platform (S n) l m l2 m2.

(** The state right after the keepalive frame has been handed to the
    socket: two clock readings taken, [timer] set to the second, the send
    on the trace. *)
Definition after_ping (E : Env) (m : machine) : machine :=
  mkMachine (set_timer (clock E (S (ticks (outside m)))) (self m))
            (bump_send "2" (bump_tick (bump_tick (outside m)))).

(* ------------------------------------------------------------------ *)
(** ** Reading a trace

    The steps of the push protocol, as they show in the trace: the
    bootstrap GET of the transport script, a polling GET without session
    id, the session-confirming GET (it carries [sid]), the subscribe POST,
    the opening of the websocket and the control frames on it. *)

Inductive step_kind : Type :=
| Bootstrap
| Polling
| Confirm
| SubscribePost
| Upgrade
| Probe
| Receive
| Upgraded
| Ping
| Pause
| Unknown.

Definition kind_of (a : action) : step_kind :=
  match a with
  | Http rq =>
      if String.eqb (rq_url rq) "http://imhd.sk/rt/sio/socket.io.js" then Bootstrap
      else if negb (String.eqb (rq_url rq) sio2) then Unknown
      else if String.eqb (rq_method rq) "POST" then SubscribePost
      else match sget (rq_params rq) "sid" with
           | Some _ => Confirm
           | None => Polling
           end
  | WsConnect _ => Upgrade
  | WsSend msg =>
      if String.eqb msg "2probe" then Probe
      else if String.eqb msg "5" then Upgraded
      else if String.eqb msg "2" then Ping
      else Unknown
  | WsRecv => Receive
  | Sleep _ => Pause
  end.

Definition kinds (tr : list action) : list step_kind := map kind_of tr.

(** The bodies of the POST requests of a trace. *)
Fixpoint posted (tr : list action) : list string :=
  match tr with
  | [] => []
  | Http rq :: rest =>
      match rq_data rq with
      | Some body => body :: posted rest
      | None => posted rest
      end
  | _ :: rest => posted rest
  end.

(** The polling rounds of a handshake in which the [io] cookie comes with
    the last of [rounds + 1] rounds. *)
Fixpoint polling_rounds (rounds : nat) : list step_kind :=
  match rounds with
  | O => [Polling; Polling]
  | S k => [Polling; Polling; Pause] ++ polling_rounds k
  end%list.

(** The whole handshake of [_subscribe], step by step. *)
Definition handshake (rounds : nat) : list step_kind :=
  ([Bootstrap] ++ polling_rounds rounds
   ++ [Confirm; SubscribePost; Upgrade; Probe; Receive; Pause; Upgraded])%list.

Definition has_io (resp : response) : bool :=
  match sget (cookies resp) "io" with
  | Some (String _ _) => true
  | _ => false
  end.

(** A network that lets a handshake started in world [w] through: the
    server answers request [j] from there with [reply j], the [io] cookie
    comes with the second answer of polling round [rounds] and not before,
    the websocket opens, takes the two control frames and delivers one
    frame in between. *)
Record cooperative (E : Env) (w : world) (rounds : nat)
  (reply : nat -> response) (io : string) : Prop := mkCooperative {
  coop_http : forall j rq,
      http E (requests_made w + j)%nat rq = Responded (reply j);
  coop_wait : forall i, (i < rounds)%nat -> has_io (reply (2 + 2 * i)%nat) = false;
  coop_io : sget (cookies (reply (2 + 2 * rounds)%nat)) "io" = Some io;
  coop_io_set : io <> "";
  coop_open : forall url, ws_open E (connects w) url = None;
  coop_probe : ws_send_result E (sends w) "2probe" = None;
  coop_ack : exists ack, ws_recv_result E (recvs w) = Frame ack;
  coop_upgrade : ws_send_result E (S (sends w)) "5" = None
}.

(* ------------------------------------------------------------------ *)
(** ** What a computation leaves alone

    [keeps rel c]: however [c] ends (returning, raising or blocking), the
    state it ends in is related by [rel] to the state it started in. *)

Definition keeps {A} (rel : machine -> machine -> Prop) (c : M A) : Prop :=
  forall m,
    match c m with
    | Ok _ m' | Raise _ m' | Hang m' => rel m m'
    | OutOfFuel => True
    end.

(** A relation between the object before and after, whatever was done to
    the world. *)
Definition on_object (rel : Stop -> Stop -> Prop) (m m' : machine) : Prop :=
  rel (self m) (self m').

(** The attributes the handshake has no business with. *)
Definition same_core (o o' : Stop) : Prop :=
  _data o' = _data o /\ timer o' = timer o /\ busstopid o' = busstopid o /\
  _urlbase o' = _urlbase o /\ eta o' = eta o /\
  _valid_platforms o' = _valid_platforms o.

(** The stop id and the cache entries of the platforms other than
    [platform]. *)
Definition others_kept (platform : pykey) (o o' : Stop) : Prop :=
  busstopid o' = busstopid o /\
  forall p, p <> platform -> kget (_data o') p = kget (_data o) p.

(** Nothing was sent, received or slept through: the trace has not grown
    (the clock may have been read). *)
Definition offline (m m' : machine) : Prop :=
  trace (outside m') = trace (outside m) /\
  requests_made (outside m') = requests_made (outside m) /\
  connects (outside m') = connects (outside m) /\
  sends (outside m') = sends (outside m) /\
  recvs (outside m') = recvs (outside m).

(** The subscription is the one it was: no HTTP request was made, no
    socket opened, and [self.ws] is the same handle. *)
Definition reusing (m m' : machine) : Prop :=
  requests_made (outside m') = requests_made (outside m) /\
  connects (outside m') = connects (outside m) /\
  ws (self m') = ws (self m).

(** [ends c]: [c] returns or raises; it neither blocks nor needs more
    steps than the model allows. *)
Definition ends {A} (c : M A) : Prop :=
  forall m,
    match c m with
    | Ok _ _ | Raise _ _ => True
    | Hang _ | OutOfFuel => False
    end.

(* ------------------------------------------------------------------ *)
(** ** The lookups, as the specification words them *)

(** The ids [destid2destname] asks for: the elements of a list, or the
    one scalar. *)
Definition ids_of (id : pyval) : list pyval :=
  match id with
  | PList l => l
  | _ => [id]
  end.

(** The value a dictionary built by [{int(x): y for ...}] from the pairs
    [sn] holds under the int [z]: the [y] of the last pair whose [x] reads
    as [z]. *)
Fixpoint last_named (sn : list (pykey * pyval)) (z : Z) : option pyval :=
  match sn with
  | [] => None
  | (x, y) :: rest =>
      match last_named rest z with
      | Some v => Some v
      | None =>
          match key_int x with
          | inl z' => if Z.eqb z' z then Some y else None
          | inr _ => None
          end
      end
  end.

(** An arrival that is on line and has a string for its route. *)
Definition online_route (x : pyval) : bool :=
  match py_item x "typ", py_item x "linka" with
  | inl (PStr typ), inl (PStr _) => String.eqb typ "online"
  | _, _ => false
  end.

(* ------------------------------------------------------------------ *)
(** ** Scripted environments

    A run of the program against a fixed script: the replies of the HTTP
    server in order, the results of the successive [recv] calls (silence
    once the script is over), the sends that fail, the documents the JSON
    decoder accepts and the pages the selector finds anchors in. *)

Definition no_reply : response := mkResponse 200 "" [].

Definition scripted (clk : nat -> Q) (replies : list response)
  (frames : list recv_result) (send_fails : list (nat * exn))
  (docs : list (string * pyval))
  (pages : list (string * list (list (string * string)))) : Env :=
  mkEnv clk
        (fun n _ => Responded (nth n replies no_reply))
        (fun _ _ => None)
        (fun n _ => Dict.get Nat.eqb send_fails n)
        (fun n => nth n frames Silence)
        (fun s => sget docs s)
        (fun s => match sget pages s with Some tags => tags | None => [] end)
        (fun _ => "<object>").

(** JSON text of the data frames, and the documents it decodes to. *)
Definition quoted (s : string) : string := dq ++ s ++ dq.

Definition record (linka : string) (cas ciel : Z) : pyval :=
  PDict [ (KStr "linka", PStr linka); (KStr "cas", PInt cas);
          (KStr "casDelta", PInt 0); (KStr "cielZastavka", PInt ciel);
          (KStr "lastZ", PInt 0); (KStr "typ", PStr "online") ].

Definition record_text (linka : string) (cas ciel : Z) : string :=
  "{" ++ quoted "linka" ++ ":" ++ quoted linka ++ ","
  ++ quoted "cas" ++ ":" ++ Str.of_Z cas ++ ","
  ++ quoted "casDelta" ++ ":0,"
  ++ quoted "cielZastavka" ++ ":" ++ Str.of_Z ciel ++ ","
  ++ quoted "lastZ" ++ ":0," ++ quoted "typ" ++ ":" ++ quoted "online" ++ "}".

Definition batch (records : list pyval) : pyval :=
  PDict [(KStr "tab", PList records)].

Definition frame_text (key records : string) : string :=
  "[" ++ quoted "tab" ++ ",{" ++ quoted key ++ ":{" ++ quoted "tab"
  ++ ":[" ++ records ++ "]}}]".

Definition frame_doc (key : string) (records : list pyval) : pyval :=
  PList [PStr "tab"; PDict [(KStr key, batch records)]].

(** *** A day at stop 7, platform 1

    The first [fetch] subscribes (cookie in the first polling round),
    hears the socket.io greeting "40", then a data frame for "7.1" at once
    and a second one 25 seconds later, on which it returns.  Two minutes
    later the caller fetches again: the keepalive is due, and the send
    fails with [failure]; the server then sets the cookie in the second
    polling round of the new handshake. *)
(** The clock readings of the day, in the order [time.time()] is called:
    four stamps of the first handshake, [timer], [response_timer], the
    keepalive test of iteration 1, the keepalive and silence tests and the
    timer reset of iteration 2, the keepalive test of iteration 3 and its
    silence test at 1030; then, from 1153, the second [fetch]. *)
Definition day_readings : list Q :=
  [ 1000; 1000; 1001; 1001; 1002; 1005; 1005; 1005; 1005; 1005; 1005; 1030;
    1153; 1153; 1153; 1153; 1153; 1155; 1155; 1156; 1156; 1157 ]%Q.

Definition day_replies : list response :=
  [ mkResponse 200 "" []; mkResponse 200 "" [];
    mkResponse 200 "" [("io", "abc")]; mkResponse 200 "ok" [];
    mkResponse 200 "ok" [];
    mkResponse 200 "" []; mkResponse 200 "" []; mkResponse 200 "" [];
    mkResponse 200 "" []; mkResponse 200 "" [("io", "def")];
    mkResponse 200 "ok" []; mkResponse 200 "ok" [] ].

Definition day (failure : exn) : Env :=
  scripted (fun n => nth n day_readings 1160%Q) day_replies
    [ Frame "3probe"; Frame "40";
      Frame ("42" ++ frame_text "7.1" (record_text "201" 1300000 5));
      Frame ("42" ++ frame_text "7.1" (record_text "201" 1310000 5));
      Frame "3probe" ]
    [(2%nat, failure)]
    [ (frame_text "7.1" (record_text "201" 1300000 5),
       frame_doc "7.1" [record "201" 1300000 5]);
      (frame_text "7.1" (record_text "201" 1310000 5),
       frame_doc "7.1" [record "201" 1310000 5]) ]
    [].

Definition day_boot (failure : exn) : machine := boot (day failure) (PInt 7).

(** The states at the head of the first three iterations of the first
    [fetch], and at the head of the first iteration of the second. *)
Definition day_entered (failure : exn) : machine :=
  final (fetch_enter (day failure) 5 (day_boot failure)) (day_boot failure).

Definition day_greeted (failure : exn) : machine :=
  final (fetch_body (day failure) 5 (KInt 1) (mkLocals None 1005)
           (day_entered failure)) (day_boot failure).

Definition day_cached (failure : exn) : machine :=
  final (fetch_body (day failure) 5 (KInt 1) (mkLocals (Some "") 1005)
           (day_greeted failure)) (day_boot failure).

Definition day_later (failure : exn) : machine :=
  final (fetch_enter (day failure) 5
           (final (fetch (day failure) 5 (KInt 1) (day_boot failure))
                  (day_boot failure)))
        (day_boot failure).

(** The one request [busstop2id] makes. *)
Definition search_request (busstop : string) : request :=
  mkRequest "GET" ("http://imhd.sk/ba/vyhladavanie?hladaj=" ++ busstop)
            [] [] [] None.

(** *** Search pages: one with a single timetable link, one with two. *)
Definition search_page (links : list string) : Env :=
  scripted (fun _ => 1000%Q) [mkResponse 200 "<html>results</html>" []] [] [] []
    [("<html>results</html>", map (fun l => [("href", l)]) links)].

Definition unique : Env :=
  search_page ["/ba/online-zastavkova-tabula?z=123&skin=1"].

Definition twins : Env :=
  search_page [ "/ba/online-zastavkova-tabula?z=12&skin=1";
                "/ba/online-zastavkova-tabula?z=34&skin=1" ].

(** *** A stocked cache: platform 1 of stop 7 holds a batch with three
    arrivals, of routes 201, 202 and 204; the clock stands at 1000. *)
Definition quiet : Env := scripted (fun _ => 1000%Q) [] [] [] [] [].

Definition stocked (records : list pyval) : machine :=
  mkMachine (set_data [(KInt 1, batch records)] (new_Stop quiet (PInt 7)))
            world0.

Definition three_routes : list pyval :=
  [ record "201" 1120000 5; record "202" 1180000 6; record "204" 1001500 5 ].

(** The one request [destid2destname] makes for the ids [ids], at clock
    reading [now]. *)
Definition name_request (ids : string) (now : Q) : request :=
  mkRequest "GET" "http://imhd.sk/ba/api/sk/cp"
            [("op", "gsn"); ("id", ids); ("t", strftime_s now)] [] [] None.

(** The answer of the name service for one id. *)
Definition names_doc (id name : string) : pyval :=
  PDict [(KStr "sn", PDict [(KStr id, PStr name)])].

Definition names_text (id name : string) : string :=
  "{" ++ quoted "sn" ++ ":{" ++ quoted id ++ ":" ++ quoted name ++ "}}".

(** *** The end-to-end scenario: the clock stands at 1000 (so [now_ms] is
    1000000), platform 1 caches one arrival of route 1 due in 120 seconds
    for destination 5, which the name service calls "Hlavná stanica". *)
Definition lookup : Env :=
  scripted (fun _ => 1000%Q)
    [mkResponse 200 (names_text "5" "Hlavná stanica") []] [] []
    [(names_text "5" "Hlavná stanica", names_doc "5" "Hlavná stanica")] [].

(** *** A silent channel: the handshake goes through and then the server
    never pushes a frame. *)
Definition silent : Env :=
  scripted (fun n => nth n day_readings 1160%Q) day_replies
    [Frame "3probe"] [] [] [].

(** *** A slow start: the first data frame, for the watched key, comes 10
    seconds after [fetch] has started to listen. *)
Definition slow : Env :=
  scripted (fun n => if (n <? 7)%nat then 1000%Q else 1010%Q) day_replies
    [ Frame "3probe";
      Frame ("42" ++ frame_text "7.1" (record_text "201" 1300000 5)) ]
    []
    [ (frame_text "7.1" (record_text "201" 1300000 5),
       frame_doc "7.1" [record "201" 1300000 5]) ]
    [].

(** *** Further scripts *)

(** *** A dropped socket: the handshake goes through, then the first
    [recv] of the loop raises [failure]; the server lets a second handshake
    through (cookie in its second polling round). *)
Definition dropped (failure : exn) : Env :=
  scripted (fun n => nth n day_readings 1160%Q) day_replies
    [Frame "3probe"; RecvRaises failure; Frame "3probe"] [] [] [].

Definition dropped_entered (failure : exn) : machine :=
  final (fetch_enter (dropped failure) 5 (boot (dropped failure) (PInt 7))) blank.

(** *** A refused probe: the websocket opens, and the first frame sent on
    it, "2probe", fails. *)
Definition probe_refused : Env :=
  scripted (fun n => nth n day_readings 1160%Q) day_replies
    [] [(0%nat, BrokenPipeError)] [] [].

(** *** Frames that are JSON but not the array the loop expects: a
    one-element array, and an array whose second element is a list holding
    the watched key. *)
Definition short_text : string := "[" ++ quoted "tab" ++ "]".
Definition listed_text : string :=
  "[" ++ quoted "tab" ++ ",[" ++ quoted "7.1" ++ "]]".

Definition shapeless (payload : string) : Env :=
  scripted (fun n => nth n day_readings 1160%Q) day_replies
    [Frame "3probe"; Frame ("42" ++ payload)] []
    [ (short_text, PList [PStr "tab"]);
      (listed_text, PList [PStr "tab"; PList [PStr "7.1"]]) ]
    [].

Definition shapeless_entered (payload : string) : machine :=
  final (fetch_enter (shapeless payload) 5 (boot (shapeless payload) (PInt 7)))
        blank.


Definition numbered : list pyval :=
  [ record "201" 1120000 5;
    PDict [(KStr "linka", PInt 201); (KStr "cas", PInt 1180000)] ].

(** *** A name service that knows stop 5 under two spellings of its id. *)
Definition two_spellings : Env :=
  scripted (fun _ => 1000%Q) [mkResponse 200 "names" []] [] []
    [("names",
      PDict [(KStr "sn", PDict [ (KStr "5", PStr "Hlavna stanica");
                                 (KStr "6", PStr "Patronka");
                                 (KStr "05", PStr "Hl. st.") ])])]
    [].

(** *** A search page whose first anchor has no [href]. *)
Definition bare_anchor : Env :=
  scripted (fun _ => 1000%Q) [mkResponse 200 "<html>results</html>" []] [] [] []
    [("<html>results</html>", [[("class", "x")]])].

(** The state right after the first handshake of the day. *)
Definition day_entered_socket : machine :=
  final (_subscribe (day BrokenPipeError) 5 (day_boot BrokenPipeError)) blank.

(** *** Messages of the older protocol for platform 1: one with three
    arrivals (route 201 on line, route 202 on line, route 201 planned), one
    with the stocked batch. *)
Definition old_arrival (linka typ : string) : pyval :=
  PDict [(KStr "linka", PStr linka); (KStr "typ", PStr typ)].

Definition old_board : Env :=
  scripted (fun _ => 1000%Q) [] [] []
    [("nastupiste 1",
      PList [PStr "tab";
             PDict [(KStr "nastupiste", PInt 1);
                    (KStr "tab",
                     PList [ old_arrival "201" "online";
                             old_arrival "202" "online";
                             old_arrival "201" "planned" ])]]);
     ("nastupiste 1 stocked",
      PList [PStr "tab";
             PDict [(KStr "nastupiste", PInt 1);
                    (KStr "tab", PList three_routes)]])]
    [].

(* ================================================================== *)
(** * Properties *)

(** ** Dictionaries *)

Lemma key_eqb_refl k : key_eqb k k = true.
Proof. destruct k; simpl; [apply Z.eqb_refl | apply String.eqb_refl]. Qed.

Lemma key_eqb_eq a b : key_eqb a b = true <-> a = b.
Proof.
  destruct a, b; simpl; split; intros H; try discriminate.
  - apply Z.eqb_eq in H. now subst.
  - inversion H. apply Z.eqb_refl.
  - apply String.eqb_eq in H. now subst.
  - inversion H. apply String.eqb_refl.
Qed.

Lemma kget_kset_same d k v : kget (kset d k v) k = Some v.
Proof.
  unfold kget, kset.
  induction d as [|[k' v'] d IH]; simpl.
  - now rewrite key_eqb_refl.
  - destruct (key_eqb k' k) eqn:Hk; simpl; rewrite Hk; auto.
Qed.

Lemma kget_kset_other d k k' v :
  key_eqb k k' = false -> kget (kset d k v) k' = kget d k'.
Proof.
  unfold kget, kset. intros Hne.
  induction d as [|[k0 v0] d IH]; simpl.
  - now rewrite Hne.
  - destruct (key_eqb k0 k) eqn:Hk; simpl.
    + apply key_eqb_eq in Hk. subst k0. now rewrite Hne.
    + now rewrite IH.
Qed.

Lemma keys_kset_present d k v :
  kmem d k = true -> Dict.keys (kset d k v) = Dict.keys d.
Proof.
  unfold kmem, Dict.mem, kget, kset, Dict.keys.
  induction d as [|[k0 v0] d IH]; simpl; [discriminate|].
  destruct (key_eqb k0 k) eqn:Hk; simpl; intros H; [reflexivity|].
  now rewrite IH.
Qed.

(** ** Strings and numerals *)

Lemma digits_string_of_uint d :
  forall acc b, (d <> Nil \/ b = true) ->
  Str.digits acc b (NilEmpty.string_of_uint d) = Some (Str.uint_value d acc).
Proof.
  induction d; intros acc b H; simpl;
    try (rewrite IHd; [reflexivity | now right]).
  destruct H as [H| ->]; [congruence|reflexivity].
Qed.

Lemma uint_value_acc d : forall p,
  Str.uint_value d (Z.pos p) = Z.pos (Pos.of_uint_acc d p).
Proof.
  induction d; intros p; cbn [Str.uint_value Pos.of_uint_acc]; try reflexivity;
    rewrite <- IHd; f_equal; lia.
Qed.

Lemma uint_value_0 d : Str.uint_value d 0 = Z.of_uint d.
Proof.
  unfold Z.of_uint.
  induction d; cbn [Str.uint_value Pos.of_uint]; try reflexivity; try assumption;
    (match goal with |- Str.uint_value _ ?k = _ =>
       change k with (Z.pos (Z.to_pos k)) end;
     rewrite uint_value_acc; reflexivity).
Qed.

Lemma no_space_strip s :
  (forall c, Str.mem c s = true -> Str.is_space c = false) ->
  Str.lstrip s = s /\ Str.rstrip s = s.
Proof.
  induction s as [|a s IH]; intros H; [now split|].
  assert (Ha : Str.is_space a = false).
  { apply H. simpl. now rewrite Ascii.eqb_refl. }
  assert (Hs : forall c, Str.mem c s = true -> Str.is_space c = false).
  { intros c Hc. apply H. simpl. rewrite Hc. apply orb_true_r. }
  destruct (IH Hs) as [_ Hr]. simpl. rewrite Ha, Hr. split; [reflexivity|].
  now destruct s.
Qed.

Lemma uint_chars d c :
  Str.mem c (NilEmpty.string_of_uint d) = true -> Str.is_digit c = true.
Proof.
  induction d; cbn [NilEmpty.string_of_uint Str.mem]; try discriminate;
    intros H; apply orb_true_iff in H; destruct H as [H|H]; auto;
    apply Ascii.eqb_eq in H; subst c; reflexivity.
Qed.

Lemma digit_not_space c : Str.is_digit c = true -> Str.is_space c = false.
Proof.
  unfold Str.is_digit, Str.is_space. intros H.
  apply andb_true_iff in H. destruct H as [H1 H2].
  apply Nat.leb_le in H1. apply Nat.leb_le in H2.
  apply orb_false_iff. split; apply andb_false_iff.
  - right. apply Nat.leb_gt. lia.
  - right. apply Nat.leb_gt. lia.
Qed.

Lemma to_Z_uint d :
  d <> Nil -> Str.to_Z (NilEmpty.string_of_uint d) = Some (Z.of_uint d).
Proof.
  intros Hd. unfold Str.to_Z.
  destruct (no_space_strip (NilEmpty.string_of_uint d)) as [Hl Hr].
  { intros c Hc. apply digit_not_space. now apply uint_chars with d. }
  rewrite Hl, Hr. rewrite <- uint_value_0.
  rewrite <- (digits_string_of_uint d 0 false) by now left.
  destruct d; try congruence; reflexivity.
Qed.

Lemma to_Z_of_Z z : Str.to_Z (Str.of_Z z) = Some z.
Proof.
  unfold Str.of_Z. destruct z as [|p|p]; [reflexivity| |].
  - simpl. unfold NilZero.string_of_uint.
    pose proof (Unsigned.to_uint_nonnil p) as Hn.
    destruct (Pos.to_uint p) eqn:Hp; try congruence;
      rewrite <- Hp in *; rewrite to_Z_uint by assumption;
      unfold Z.of_uint; now rewrite DecimalPos.Unsigned.of_to.
  - simpl. unfold NilZero.string_of_uint.
    pose proof (Unsigned.to_uint_nonnil p) as Hn.
    assert (H : Str.to_Z (String "-" (NilEmpty.string_of_uint (Pos.to_uint p)))
                = Some (Z.neg p)).
    { unfold Str.to_Z.
      destruct (no_space_strip (String "-" (NilEmpty.string_of_uint (Pos.to_uint p))))
        as [Hl Hr].
      { intros c Hc. cbn [Str.mem] in Hc.
        apply orb_true_iff in Hc. destruct Hc as [Hc|Hc].
        - apply Ascii.eqb_eq in Hc. now subst c.
        - apply digit_not_space. now apply uint_chars with (Pos.to_uint p). }
      rewrite Hl, Hr.
      rewrite (digits_string_of_uint _ 0 false) by now left.
      rewrite uint_value_0. unfold Z.of_uint.
      now rewrite DecimalPos.Unsigned.of_to. }
    destruct (Pos.to_uint p) eqn:Hp; try congruence; exact H.
Qed.


Lemma append_nil_r s : s ++ "" = s.
Proof. induction s as [|a s IH]; [reflexivity|]. cbn [append]. now rewrite IH. Qed.

Lemma append_assoc s t u : (s ++ t) ++ u = s ++ t ++ u.
Proof. induction s as [|a s IH]; [reflexivity|]. cbn [append]. now rewrite IH. Qed.






(** [str(n)] is made of digits and, for a negative [n], a leading minus. *)
Lemma of_Z_chars z c :
  Str.mem c (Str.of_Z z) = true -> Str.is_digit c = true \/ c = "-"%char.
Proof.
  unfold Str.of_Z.
  assert (Hu : forall d, Str.mem c (NilZero.string_of_uint d) = true ->
                         Str.is_digit c = true).
  { intros d. unfold NilZero.string_of_uint.
    destruct d; try apply uint_chars.
    cbn [Str.mem]. intros H. apply orb_true_iff in H.
    destruct H as [H|H]; [|discriminate].
    apply Ascii.eqb_eq in H. now subst c. }
  destruct (Z.to_int z) as [d|d]; cbn [NilZero.string_of_int Str.mem].
  - intros H. left. now apply Hu with d.
  - intros H. apply orb_true_iff in H. destruct H as [H|H].
    + right. apply Ascii.eqb_eq in H. now subst c.
    + left. now apply Hu with d.
Qed.

Lemma of_Z_free z c :
  Str.is_digit c = false -> c <> "-"%char -> Str.mem c (Str.of_Z z) = false.
Proof.
  intros Hd Hm. destruct (Str.mem c (Str.of_Z z)) eqn:H; [|reflexivity].
  destruct (of_Z_chars z c H); congruence.
Qed.

(** ** The monad *)

Lemma bind_ok {A B} (c : M A) (k : A -> M B) m a m' :
  c m = Ok a m' -> bind c k m = k a m'.
Proof. unfold bind. now intros ->. Qed.

Lemma bind_inv {A B} (c : M A) (k : A -> M B) m b m2 :
  bind c k m = Ok b m2 -> exists a m1, c m = Ok a m1 /\ k a m1 = Ok b m2.
Proof.
  unfold bind. destruct (c m) as [a m1|e m1|m1|]; try discriminate.
  intros H. now exists a, m1.
Qed.

(** Running the monad's plumbing on a symbolic state. *)
Ltac step :=
  unfold bind, ret, raise, attempt, get_self, modify_self, of_result,
    time_time, time_sleep, self_ws, self_timer, set_header, commit;
  simpl.
Ltac run := repeat (progress step).

(* ------------------------------------------------------------------ *)
(** ** The older [busstop2id] and its undefined global *)

(** C10.  In the older script [busstop2id] builds its URL from the global
    name [query], not from its parameter.  Called where the module's
    globals bind no [query] (that is, anywhere but under the script's
    [__main__] block), it raises [NameError] for every argument, in the
    state it was called in: no request has been issued.  It never returns
    an id there. *)
Theorem old_busstop2id_raises_NameError :
  forall (E : Env) (globals : list (string * pyval)) (busstop : pyval)
         (m : machine),
    sget globals "query" = None ->
    Old.busstop2id E globals busstop m = Raise (NameError "query") m /\
    (forall id m', Old.busstop2id E globals busstop m <> Ok id m').
Proof.
  intros E globals busstop m Hq.
  assert (Hr : Old.busstop2id E globals busstop m = Raise (NameError "query") m).
  { unfold Old.busstop2id. now rewrite Hq. }
  split; [exact Hr|].
  intros id m'. rewrite Hr. discriminate.
Qed.

(** The globals of the imported module bind no [query]: the call raises
    for the argument "Kosicka" as for any other. *)
Lemma old_busstop2id_raises_NameError_witness :
  sget Old.module_globals "query" = None /\
  Old.busstop2id unique Old.module_globals (PStr "Kosicka") blank
  = Raise (NameError "query") blank.
Proof.
  split; [reflexivity|].
  apply (old_busstop2id_raises_NameError unique Old.module_globals
           (PStr "Kosicka") blank).
  reflexivity.
Defined.

(** Under [__main__] the global exists, and the request goes out for it,
    not for the argument; the id comes back as text. *)
Example old_busstop2id_under_main :
  Old.busstop2id unique (Old.main_globals "Kosicka") (PStr "Hranicna") blank =
  Ok "123" (on_world (bump_http (search_request "Kosicka")) blank).
Proof. reflexivity. Qed.

(** Whatever the argument, the result is the same. *)
Lemma old_busstop2id_ignores_argument :
  forall E argv1 busstop busstop' m,
    Old.busstop2id E (Old.main_globals argv1) busstop m =
    Old.busstop2id E (Old.main_globals argv1) busstop' m.
Proof. reflexivity. Qed.

(* ------------------------------------------------------------------ *)
(** ** One iteration of the receive loop *)

Section Iteration.

Variable E : Env.

(** When the keepalive lets the iteration go on to receive, it has changed
    nothing of the object but, possibly, [timer]. *)
Lemma keepalive_true_self sub m m1 :
  keepalive E sub m = Ok true m1 ->
  self m1 = self m \/ exists t, self m1 = set_timer t (self m).
Proof.
  unfold keepalive. run.
  destruct (timer (self m)) as [last|]; [|discriminate].
  destruct (Qgtb _ 30).
  - destruct (ws (self m)) as [c|] eqn:Hws; simpl; rewrite ?Hws; simpl; [|discriminate].
    unfold ws_send. simpl.
    destruct (ws_send_result E _ "2") as [e|]; simpl.
    + destruct (is_OSError e); [|discriminate].
      destruct (resubscribe E sub _); discriminate.
    + intros H. inversion H. right. now eexists.
  - intros H. inversion H. now left.
Qed.

Lemma keepalive_true_data sub m m1 :
  keepalive E sub m = Ok true m1 -> _data (self m1) = _data (self m).
Proof.
  intros H. destruct (keepalive_true_self _ _ _ H) as [->|[t ->]]; reflexivity.
Qed.

Lemma keepalive_true_busstopid sub m m1 :
  keepalive E sub m = Ok true m1 -> busstopid (self m1) = busstopid (self m).
Proof.
  intros H. destruct (keepalive_true_self _ _ _ H) as [->|[t ->]]; reflexivity.
Qed.

(** The iteration up to the point where a frame has been received. *)
Lemma fetch_body_received sub platform l m m1 c raw :
  keepalive E sub m = Ok true m1 ->
  ws (self m1) = Some c ->
  ws_recv_result E (recvs (outside m1)) = Frame raw ->
  fetch_body E sub platform l m =
  match json_loads E (Str.drop 2 raw) with
  | None =>
      Ok (Some (mkLocals (Some (Str.drop 2 raw)) (response_timer l)))
         (on_world bump_recv m1)
  | Some table_data =>
      (now <- time_time E ;;
       if Qgtb (now - response_timer l) 3 then ret None
       else l' <- accept E platform
                    (mkLocals (Some (Str.drop 2 raw)) (response_timer l))
                    table_data ;;
            ret (Some l'))%py
        (on_world bump_recv m1)
  end.
Proof.
  intros Hk Hws Hrecv.
  unfold fetch_body. rewrite (bind_ok _ _ _ _ _ Hk).
  unfold receive, bind at 1, attempt, bind at 1, self_ws, bind at 1, get_self.
  rewrite Hws. unfold ret at 1, ws_recv. rewrite Hrecv.
  destruct (json_loads E (Str.drop 2 raw)); reflexivity.
Qed.

(** The loop goes round when the iteration says so. *)
Lemma fetch_loop_continue sub fuel platform l m l' m' :
  fetch_body E sub platform l m = Ok (Some l') m' ->
  fetch_loop E sub (S fuel) platform l m = fetch_loop E sub fuel platform l' m'.
Proof. intros H. simpl. now rewrite (bind_ok _ _ _ _ _ H). Qed.

Lemma fetch_loop_return sub fuel platform l m m' :
  fetch_body E sub platform l m = Ok None m' ->
  fetch_loop E sub (S fuel) platform l m = Ok tt m'.
Proof. intros H. simpl. now rewrite (bind_ok _ _ _ _ _ H). Qed.

Lemma fetch_loop_hang sub fuel platform l m m' :
  fetch_body E sub platform l m = Hang m' ->
  fetch_loop E sub (S fuel) platform l m = Hang m'.
Proof. intros H. simpl. unfold bind. now rewrite H. Qed.

(** C4.  A received frame whose text after the two-character prefix is
    not valid JSON is dropped: the iteration ends normally and asks for the
    next one, the cache and the inactivity timer are what they were, and
    the loop simply goes on from there. *)
Theorem fetch_discards_malformed_frame :
  forall (sub : nat) (platform : pykey) (l : locals) (m m1 : machine)
         (c : wsconn) (raw : string),
    keepalive E sub m = Ok true m1 ->
    ws (self m1) = Some c ->
    ws_recv_result E (recvs (outside m1)) = Frame raw ->
    json_loads E (Str.drop 2 raw) = None ->
    exists l' m',
      fetch_body E sub platform l m = Ok (Some l') m' /\
      _data (self m') = _data (self m) /\
      response_timer l' = response_timer l /\
      forall fuel,
        fetch_loop E sub (S fuel) platform l m =
        fetch_loop E sub fuel platform l' m'.
Proof.
  intros sub platform l m m1 c raw Hk Hws Hrecv Hjson.
  pose proof (fetch_body_received sub platform l m m1 c raw Hk Hws Hrecv) as Hb.
  rewrite Hjson in Hb.
  eexists _, _. split; [exact Hb|]. split; [|split].
  - simpl. now apply keepalive_true_data with sub.
  - reflexivity.
  - intros fuel. now apply fetch_loop_continue.
Qed.

(** What [accept] does with a frame whose second element is a mapping. *)
Lemma accept_mapping platform l table_data second m :
  py_index table_data 1 = inl (PDict second) ->
  accept E platform l table_data m =
  match kget second (KStr (frame_key (self m) platform)) with
  | Some batch =>
      Ok (mkLocals (data l) (clock E (ticks (outside m))))
         (mkMachine (set_data (kset (_data (self m)) platform batch) (self m))
                    (bump_tick (outside m)))
  | None => Ok l m
  end.
Proof.
  intros Hsecond. unfold accept. run. rewrite Hsecond. run.
  unfold kmem, Dict.mem, kget.
  destruct (Dict.get key_eqb second (KStr (frame_key (self m) platform)));
    reflexivity.
Qed.

(** C1, as the code has it.  A frame that parses, whose second element is
    a mapping, and that is received no more than 3 seconds after the
    inactivity timer was last set: if the mapping has the key of the watched
    stop and platform, the batch under that key becomes the cache entry of
    the platform as a whole (the other platforms keep theirs) and the
    inactivity timer is set to the current time; if it has not, the object
    is left as it was and so is the timer.  Either way the loop goes on. *)
Theorem fetch_caches_watched_batch :
  forall (sub : nat) (platform : pykey) (l : locals) (m m1 : machine)
         (c : wsconn) (raw : string) (table_data : pyval)
         (second : list (pykey * pyval)),
    keepalive E sub m = Ok true m1 ->
    ws (self m1) = Some c ->
    ws_recv_result E (recvs (outside m1)) = Frame raw ->
    json_loads E (Str.drop 2 raw) = Some table_data ->
    py_index table_data 1 = inl (PDict second) ->
    Qgtb (clock E (ticks (outside m1)) - response_timer l) 3 = false ->
    exists l' m',
      fetch_body E sub platform l m = Ok (Some l') m' /\
      match kget second (KStr (frame_key (self m) platform)) with
      | Some batch =>
          _data (self m') = kset (_data (self m)) platform batch /\
          kget (_data (self m')) platform = Some batch /\
          (forall p, key_eqb platform p = false ->
                     kget (_data (self m')) p = kget (_data (self m)) p) /\
          response_timer l' = clock E (S (ticks (outside m1)))
      | None =>
          self m' = self m1 /\
          _data (self m') = _data (self m) /\
          response_timer l' = response_timer l
      end.
Proof.
  intros sub platform l m m1 c raw table_data second Hk Hws Hrecv Hjson Hsnd Hsoon.
  pose proof (fetch_body_received sub platform l m m1 c raw Hk Hws Hrecv) as Hb.
  rewrite Hjson in Hb.
  pose proof (keepalive_true_data _ _ _ Hk) as Hdata.
  pose proof (keepalive_true_busstopid _ _ _ Hk) as Hid.
  unfold bind at 1, time_time at 1 in Hb. simpl in Hb. rewrite Hsoon in Hb.
  unfold bind at 1 in Hb.
  rewrite (accept_mapping _ _ _ _ _ Hsnd) in Hb. simpl in Hb.
  unfold frame_key in *. rewrite Hid in Hb.
  destruct (kget second (KStr (busstopid (self m) ++ "." ++ key_str platform)))
    as [batch|]; simpl in Hb; eexists _, _; (split; [exact Hb|]); simpl.
  - rewrite Hdata. split; [reflexivity|]. split; [apply kget_kset_same|].
    split; [|reflexivity].
    intros p Hp. now apply kget_kset_other.
  - now repeat split.
Qed.

Lemma fetch_loop_continues sub platform n l m l' m' :
  continues E sub platform n l m l' m' ->
  forall fuel,
    fetch_loop E sub (n + fuel) platform l m = fetch_loop E sub fuel platform l' m'.
Proof.
  induction 1 as [|n l m l1 m1 l2 m2 Hbody _ IH]; intros fuel.
  - reflexivity.
  - change (S n + fuel)%nat with (S (n + fuel)).
    rewrite (fetch_loop_continue _ _ _ _ _ _ _ Hbody). apply IH.
Qed.

(** After the iterations that go round, [fetch] is its loop started at
    the iteration they lead to. *)
Lemma fetch_after_continues fuel platform m0 l m n l' m' :
  fetch_enter E fuel m0 = Ok l m ->
  continues E fuel platform n l m l' m' ->
  (n < fuel)%nat ->
  fetch E fuel platform m0 =
  fetch_loop E fuel (S (fuel - S n)) platform l' m'.
Proof.
  intros Henter Hcont Hn.
  unfold fetch. rewrite (bind_ok _ _ _ _ _ Henter).
  replace fuel with (n + S (fuel - S n))%nat at 2 by lia.
  now apply fetch_loop_continues.
Qed.

(** An iteration that gets to [recv] on a silent channel stays there. *)
Lemma fetch_body_silent sub platform l m m1 c :
  keepalive E sub m = Ok true m1 ->
  ws (self m1) = Some c ->
  ws_recv_result E (recvs (outside m1)) = Silence ->
  fetch_body E sub platform l m = Hang (on_world bump_recv m1).
Proof.
  intros Hk Hws Hsilent.
  unfold fetch_body. rewrite (bind_ok _ _ _ _ _ Hk).
  unfold receive. run. rewrite Hws. simpl. unfold ws_recv.
  now rewrite Hsilent.
Qed.

(** C3, as the code has it.  [fetch] comes back at the first frame that
    parses as JSON and is received more than 3 seconds after the inactivity
    timer was last set (by the most recent matching frame, or when the call
    started to listen): after any number of iterations that go round, such
    a frame ends the call, whatever the step bound beyond those iterations,
    and the object is as those iterations and the last keepalive test left
    it. *)
Theorem fetch_returns_on_late_frame :
  forall (fuel : nat) (platform : pykey) (m0 : machine) (l : locals)
         (m : machine) (n : nat) (l' : locals) (m' m1 : machine) (c : wsconn)
         (raw : string) (table_data : pyval),
    fetch_enter E fuel m0 = Ok l m ->
    continues E fuel platform n l m l' m' ->
    (n < fuel)%nat ->
    keepalive E fuel m' = Ok true m1 ->
    ws (self m1) = Some c ->
    ws_recv_result E (recvs (outside m1)) = Frame raw ->
    json_loads E (Str.drop 2 raw) = Some table_data ->
    Qgtb (clock E (ticks (outside m1)) - response_timer l') 3 = true ->
    fetch E fuel platform m0 =
    Ok tt (on_world bump_tick (on_world bump_recv m1)).
Proof.
  intros fuel platform m0 l m n l' m' m1 c raw table_data
         Henter Hcont Hn Hk Hws Hrecv Hjson Hlate.
  rewrite (fetch_after_continues _ _ _ _ _ _ _ _ Henter Hcont Hn).
  apply fetch_loop_return.
  rewrite (fetch_body_received _ _ _ _ _ _ _ Hk Hws Hrecv), Hjson.
  unfold bind, time_time. simpl. now rewrite Hlate.
Qed.

End Iteration.

(* ------------------------------------------------------------------ *)
(** ** The handshake *)

Section Handshake.

Variable E : Env.

Lemma kinds_app tr tr' : kinds (tr ++ tr') = (kinds tr ++ kinds tr')%list.
Proof. apply map_app. Qed.

Lemma posted_app tr tr' : posted (tr ++ tr') = (posted tr ++ posted tr')%list.
Proof.
  induction tr as [|a tr IH]; simpl; [reflexivity|].
  destruct a; auto. destruct (rq_data rq); simpl; now rewrite IH.
Qed.

(** The polling loop against a server that sets the cookie in round
    [rounds]. *)
Lemma poll_rounds :
  forall (rounds fuel : nat) (m : machine) (reply : nat -> response) (io : string),
    (rounds < fuel)%nat ->
    (forall j rq,
        http E (requests_made (outside m) + j)%nat rq = Responded (reply j)) ->
    (forall i, (i < rounds)%nat -> has_io (reply (1 + 2 * i)%nat) = false) ->
    sget (cookies (reply (1 + 2 * rounds)%nat)) "io" = Some io ->
    io <> "" ->
    exists m',
      poll E fuel m = Ok io m' /\
      self m' = set_r (reply (1 + 2 * rounds)%nat) (self m) /\
      kinds (trace (outside m')) =
        (kinds (trace (outside m)) ++ polling_rounds rounds)%list /\
      posted (trace (outside m')) = posted (trace (outside m)) /\
      requests_made (outside m') = (requests_made (outside m) + 2 * rounds + 2)%nat /\
      connects (outside m') = connects (outside m) /\
      sends (outside m') = sends (outside m) /\
      recvs (outside m') = recvs (outside m).
Proof.
  induction rounds as [|k IH]; intros fuel m reply io Hfuel Hhttp Hwait Hio Hset;
    (destruct fuel as [|fuel]; [lia|]).
  - simpl poll. run. unfold requests_get, requests_call. simpl.
    pose proof (Hhttp 0%nat) as H0. rewrite Nat.add_0_r in H0. rewrite H0.
    simpl. pose proof (Hhttp 1%nat) as H1. rewrite Nat.add_1_r in H1. rewrite H1.
    simpl. simpl in Hio. rewrite Hio.
    destruct io as [|a io]; [contradiction|].
    eexists. split; [reflexivity|]. simpl.
    repeat split; try lia.
    + unfold kinds. now rewrite <- !app_assoc, map_app.
    + now rewrite <- !app_assoc, posted_app, app_nil_r.
  - simpl poll. run. unfold requests_get, requests_call. simpl.
    pose proof (Hhttp 0%nat) as H0. rewrite Nat.add_0_r in H0. rewrite H0.
    simpl. pose proof (Hhttp 1%nat) as H1. rewrite Nat.add_1_r in H1. rewrite H1.
    simpl.
    pose proof (Hwait 0%nat ltac:(lia)) as Hno. unfold has_io in Hno. simpl in Hno.
    set (m1 := mkMachine _ _).
    assert (Hgo : forall X : M string,
               match sget (cookies (reply 1%nat)) "io" return M string with
               | Some (String c rest) => ret (String c rest)
               | _ => X
               end = X).
    { intros X. destruct (sget (cookies (reply 1%nat)) "io") as [[|c rest]|];
        [reflexivity|discriminate|reflexivity]. }
    destruct (IH fuel (on_world (log_sleep 2) m1) (fun j => reply (2 + j)%nat) io)
      as (m' & Hrun & Hself & Hkinds & Hposted & Hreq & Hconn & Hsend & Hrecv).
    + lia.
    + intros j rq. subst m1. simpl.
      replace (S (S (requests_made (outside m) + j)))
        with (requests_made (outside m) + (2 + j))%nat by lia.
      apply Hhttp.
    + intros i Hi.
      replace (2 + (1 + 2 * i))%nat with (1 + 2 * S i)%nat by lia.
      apply Hwait. lia.
    + replace (2 + (1 + 2 * k))%nat with (1 + 2 * S k)%nat by lia. exact Hio.
    + exact Hset.
    + exists m'.
      split.
      { destruct (sget (cookies (reply 1%nat)) "io") as [[|c rest]|];
          [exact Hrun|discriminate|exact Hrun]. }
      subst m1.
      replace (2 + (1 + 2 * k))%nat with (1 + 2 * S k)%nat in Hself by lia.
      split; [|split; [|split; [|split; [|split; [|split]]]]].
      * rewrite Hself. reflexivity.
      * rewrite Hkinds. unfold kinds. cbn [outside on_world log_sleep bump_http bump_tick trace].
        rewrite !map_app. cbn [polling_rounds]. rewrite <- !app_assoc. reflexivity.
      * rewrite Hposted. cbn [outside on_world log_sleep bump_http bump_tick trace].
        rewrite !posted_app. simpl. now rewrite !app_nil_r.
      * rewrite Hreq. simpl. lia.
      * rewrite Hconn. reflexivity.
      * rewrite Hsend. reflexivity.
      * rewrite Hrecv. reflexivity.
Qed.

(** The handshake against a cooperative network: [_subscribe] completes,
    having gone through the five steps in order, POSTed the subscribe
    command once and stored the socket; the cache is not touched. *)
Lemma subscribe_cooperative :
  forall (fuel : nat) (m : machine) (rounds : nat) (reply : nat -> response)
         (io : string),
    cooperative E (outside m) rounds reply io ->
    (rounds < fuel)%nat ->
    exists m',
      _subscribe E fuel m = Ok tt m' /\
      kinds (trace (outside m')) =
        (kinds (trace (outside m)) ++ handshake rounds)%list /\
      posted (trace (outside m')) =
        (posted (trace (outside m)) ++ [reqdata (self m)])%list /\
      _data (self m') = _data (self m) /\
      busstopid (self m') = busstopid (self m) /\
      timer (self m') = timer (self m) /\
      ws (self m') =
        Some (mkWs ("ws://imhd.sk/rt/sio2/?EIO=3&transport=websocket&sid=" ++ io)) /\
      recvs (outside m') = S (recvs (outside m)) /\
      sends (outside m') = S (S (sends (outside m))).
Proof.
  intros fuel m rounds reply io [Hhttp Hwait Hio Hset Hopen Hprobe [ack Hack] Hup] Hfuel.
  unfold _subscribe. run. unfold requests_get at 1, requests_call. simpl.
  pose proof (Hhttp 0%nat) as H0. rewrite Nat.add_0_r in H0. rewrite H0.
  simpl.
  match goal with |- context [poll E fuel ?st] => set (m1 := st) end.
  destruct (poll_rounds rounds fuel m1 (fun j => reply (S j)) io)
    as (m2 & Hpoll & Hself & Hkinds & Hposted & Hreq & Hconn & Hsend & Hrecv);
    try assumption.
  { intros j rq. subst m1. simpl.
    replace (S (requests_made (outside m) + j))
      with (requests_made (outside m) + S j)%nat by lia.
    apply Hhttp. }
  rewrite Hpoll. run. unfold requests_get, requests_post, requests_call. simpl.
  assert (Hreq2 : requests_made (outside m2) =
                  (requests_made (outside m) + (2 * rounds + 3))%nat).
  { rewrite Hreq. subst m1. simpl. lia. }
  rewrite Hreq2, Hhttp. simpl. rewrite Hreq2.
  replace (S (requests_made (outside m) + (2 * rounds + 3)))
    with (requests_made (outside m) + (2 * rounds + 4))%nat by lia.
  rewrite Hhttp. simpl.
  unfold create_connection. simpl. rewrite Hconn. subst m1. simpl.
  rewrite Hopen. simpl.
  unfold ws_send at 1. simpl. rewrite Hsend. simpl. rewrite Hprobe. simpl.
  unfold ws_recv. simpl. rewrite Hrecv. simpl. rewrite Hack. simpl.
  unfold ws_send. simpl. rewrite Hsend. simpl. rewrite Hup.
  eexists. split; [reflexivity|]. simpl.
  rewrite Hself. simpl.
  repeat split.
  - unfold kinds in *. rewrite !map_app, Hkinds. simpl. rewrite !map_app. simpl.
    unfold handshake. rewrite <- !app_assoc. reflexivity.
  - rewrite !posted_app, Hposted. simpl. rewrite !posted_app. simpl.
    now rewrite !app_nil_r.
  - now rewrite Hrecv.
  - now rewrite Hsend.
Qed.

Lemma keepalive_due sub m t c :
  timer (self m) = Some t ->
  Qgtb (clock E (ticks (outside m)) - t) 30 = true ->
  ws (self m) = Some c ->
  keepalive E sub m =
  match ws_send_result E (sends (outside m)) "2" with
  | None => Ok true (after_ping E m)
  | Some e =>
      if is_OSError e
      then (resubscribe E sub ;; ret false)%py (after_ping E m)
      else Raise e (after_ping E m)
  end.
Proof.
  intros Ht Hdue Hws. unfold keepalive. run. rewrite Ht. simpl. rewrite Hdue.
  run. rewrite Hws. simpl. unfold ws_send. simpl.
  destruct (ws_send_result E (sends (outside m)) "2") as [e|]; simpl;
    [|reflexivity].
  destruct (is_OSError e); reflexivity.
Qed.

(** Any exception of the keepalive send that is not an [OSError] leaves
    [fetch] as it is. *)
Lemma keepalive_other_exception sub platform l m t c e :
  timer (self m) = Some t ->
  Qgtb (clock E (ticks (outside m)) - t) 30 = true ->
  ws (self m) = Some c ->
  ws_send_result E (sends (outside m)) "2" = Some e ->
  is_OSError e = false ->
  fetch_body E sub platform l m = Raise e (after_ping E m).
Proof.
  intros Ht Hdue Hws Hsend Hos.
  unfold fetch_body, bind.
  now rewrite (keepalive_due sub m t c Ht Hdue Hws), Hsend, Hos.
Qed.

(** C2, as the code has it.  At the head of an iteration, when more than
    30 seconds have passed since [timer] was set (by the last keepalive or
    the last subscription), [fetch] sends the frame "2".  If the send goes
    through, the iteration goes on to receive.  If it raises an [OSError],
    [fetch] runs [_subscribe] again, resets [timer], sleeps and starts the
    next iteration: against a network that lets the handshake through, the
    trace shows the ping, then the five steps of the handshake in order
    (bootstrap GET, polling GETs until the cookie, confirming GET, subscribe
    POST, websocket probe exchange), then the pause, the only [recv] being
    the one of the probe exchange. *)
Theorem keepalive_failure_rehandshakes :
  forall (sub : nat) (platform : pykey) (l : locals) (m : machine) (t : Q)
         (c : wsconn),
    timer (self m) = Some t ->
    Qgtb (clock E (ticks (outside m)) - t) 30 = true ->
    ws (self m) = Some c ->
    kinds (trace (outside (after_ping E m))) =
      (kinds (trace (outside m)) ++ [Ping])%list /\
    (ws_send_result E (sends (outside m)) "2" = None ->
     keepalive E sub m = Ok true (after_ping E m)) /\
    (forall e,
        ws_send_result E (sends (outside m)) "2" = Some e ->
        is_OSError e = true ->
        fetch_body E sub platform l m =
          (resubscribe E sub ;; ret (Some l))%py (after_ping E m) /\
        forall rounds reply io,
          cooperative E (outside (after_ping E m)) rounds reply io ->
          (rounds < sub)%nat ->
          exists m',
            fetch_body E sub platform l m = Ok (Some l) m' /\
            kinds (trace (outside m')) =
              (kinds (trace (outside m)) ++ [Ping] ++ handshake rounds
               ++ [Pause])%list /\
            recvs (outside m') = S (recvs (outside m)) /\
            _data (self m') = _data (self m)).
Proof.
  intros sub platform l m t c Ht Hdue Hws.
  pose proof (keepalive_due sub m t c Ht Hdue Hws) as Hk.
  split; [unfold kinds; simpl; now rewrite map_app|].
  split; [intros Hsend; now rewrite Hk, Hsend|].
  intros e Hsend Hos. rewrite Hsend, Hos in Hk.
  assert (Hbody : fetch_body E sub platform l m =
                  (resubscribe E sub ;; ret (Some l))%py (after_ping E m)).
  { unfold fetch_body, bind at 1. rewrite Hk. unfold bind.
    destruct (resubscribe E sub (after_ping E m)); reflexivity. }
  split; [exact Hbody|].
  intros rounds reply io Hcoop Hrounds.
  destruct (subscribe_cooperative sub (after_ping E m) rounds reply io Hcoop Hrounds)
    as (m' & Hsub & Hkinds & _ & Hdata & _ & _ & _ & Hrecv & _).
  rewrite Hbody. unfold resubscribe, bind at 1, bind at 1. rewrite Hsub.
  run. eexists. split; [reflexivity|]. simpl.
  split; [|split].
  - unfold kinds in *. rewrite !map_app, Hkinds. simpl.
    rewrite !map_app. unfold handshake. simpl.
    rewrite <- !app_assoc. simpl. now rewrite <- !app_assoc.
  - exact Hrecv.
  - exact Hdata.
Qed.

(** *** The subscribe command *)




End Handshake.

(* ------------------------------------------------------------------ *)
(** ** The theorems on the runs of the day *)

(** The greeting "40" is dropped in the first iteration of the first
    [fetch]. *)
Lemma fetch_discards_malformed_frame_witness :
  json_loads (day BrokenPipeError) (Str.drop 2 "40") = None /\
  exists l' m',
    fetch_body (day BrokenPipeError) 5 (KInt 1) (mkLocals None 1005)
      (day_entered BrokenPipeError) = Ok (Some l') m' /\
    _data (self m') = _data (self (day_entered BrokenPipeError)) /\
    response_timer l' = response_timer (mkLocals None 1005) /\
    forall fuel,
      fetch_loop (day BrokenPipeError) 5 (S fuel) (KInt 1) (mkLocals None 1005)
        (day_entered BrokenPipeError) =
      fetch_loop (day BrokenPipeError) 5 fuel (KInt 1) l' m'.
Proof.
  split; [reflexivity|].
  apply (fetch_discards_malformed_frame (day BrokenPipeError) 5 (KInt 1)
           (mkLocals None 1005) (day_entered BrokenPipeError)
           (on_world bump_tick (day_entered BrokenPipeError))
           (mkWs "ws://imhd.sk/rt/sio2/?EIO=3&transport=websocket&sid=abc")
           "40");
    vm_compute; reflexivity.
Defined.

(** The data frame for "7.1" is cached in the second iteration. *)
Lemma fetch_caches_watched_batch_witness :
  exists l' m',
    fetch_body (day BrokenPipeError) 5 (KInt 1) (mkLocals (Some "") 1005)
      (day_greeted BrokenPipeError) = Ok (Some l') m' /\
    _data (self m') =
      kset (_data (self (day_greeted BrokenPipeError))) (KInt 1)
           (batch [record "201" 1300000 5]) /\
    kget (_data (self m')) (KInt 1) = Some (batch [record "201" 1300000 5]) /\
    (forall p, key_eqb (KInt 1) p = false ->
               kget (_data (self m')) p =
               kget (_data (self (day_greeted BrokenPipeError))) p) /\
    response_timer l' = 1005%Q.
Proof.
  apply (fetch_caches_watched_batch (day BrokenPipeError) 5 (KInt 1)
           (mkLocals (Some "") 1005) (day_greeted BrokenPipeError)
           (on_world bump_tick (day_greeted BrokenPipeError))
           (mkWs "ws://imhd.sk/rt/sio2/?EIO=3&transport=websocket&sid=abc")
           ("42" ++ frame_text "7.1" (record_text "201" 1300000 5))
           (frame_doc "7.1" [record "201" 1300000 5])
           [(KStr "7.1", batch [record "201" 1300000 5])]);
    vm_compute; reflexivity.
Defined.

(** C1 fails as stated: in the slow start the first frame carries the
    batch of the watched key "7.1", but it is received 10 seconds after the
    inactivity timer was started.  [fetch] returns on it, and the cache is
    still empty: the batch was not cached and the timer was not reset. *)
Lemma fetch_drops_late_watched_frame :
  ws_recv_result slow 1 =
    Frame ("42" ++ frame_text "7.1" (record_text "201" 1300000 5)) /\
  json_loads slow (Str.drop 2 ("42" ++ frame_text "7.1" (record_text "201" 1300000 5))) =
    Some (frame_doc "7.1" [record "201" 1300000 5]) /\
  match fetch slow 5 (KInt 1) (boot slow (PInt 7)) with
  | Ok _ m' => _data (self m') = [] /\ recvs (outside m') = 2%nat
  | _ => False
  end.
Proof. vm_compute. repeat split; reflexivity. Qed.

(** The first [fetch] of the day returns on the second data frame, 25
    seconds after the first. *)
Lemma fetch_returns_on_late_frame_witness :
  fetch (day BrokenPipeError) 5 (KInt 1) (day_boot BrokenPipeError) =
  Ok tt (on_world bump_tick
           (on_world bump_recv (on_world bump_tick (day_cached BrokenPipeError)))).
Proof.
  apply (fetch_returns_on_late_frame (day BrokenPipeError) 5 (KInt 1)
           (day_boot BrokenPipeError) (mkLocals None 1005)
           (day_entered BrokenPipeError) 2
           (mkLocals (Some (frame_text "7.1" (record_text "201" 1300000 5))) 1005)
           (day_cached BrokenPipeError)
           (on_world bump_tick (day_cached BrokenPipeError))
           (mkWs "ws://imhd.sk/rt/sio2/?EIO=3&transport=websocket&sid=abc")
           ("42" ++ frame_text "7.1" (record_text "201" 1310000 5))
           (frame_doc "7.1" [record "201" 1310000 5]));
    try (vm_compute; reflexivity).
  - apply continues_S with (l1 := mkLocals (Some "") 1005)
                           (m1 := day_greeted BrokenPipeError);
      [vm_compute; reflexivity|].
    apply continues_S
      with (l1 := mkLocals (Some (frame_text "7.1" (record_text "201" 1300000 5))) 1005)
           (m1 := day_cached BrokenPipeError);
      [vm_compute; reflexivity|].
    apply continues_O.
  - lia.
Defined.

(** On the silent channel the call blocks whatever the step bound of the
    model: it never returns. *)
Lemma fetch_silent_never_returns :
  forall fuel m', fetch silent fuel (KInt 1) (boot silent (PInt 7)) <> Ok tt m'.
Proof.
  intros [|fuel] m'; [vm_compute; discriminate|].
  rewrite (fetch_after_continues silent (S fuel) (KInt 1) (boot silent (PInt 7))
             (mkLocals None 1005)
             (final (fetch_enter silent 1 (boot silent (PInt 7))) blank)
             0 (mkLocals None 1005)
             (final (fetch_enter silent 1 (boot silent (PInt 7))) blank));
    [|vm_compute; reflexivity|apply continues_O|lia].
  rewrite (fetch_loop_hang silent (S fuel) _ (KInt 1) _ _
             (on_world bump_recv
                (on_world bump_tick
                   (final (fetch_enter silent 1 (boot silent (PInt 7))) blank)))).
  - discriminate.
  - apply fetch_body_silent
      with (c := mkWs "ws://imhd.sk/rt/sio2/?EIO=3&transport=websocket&sid=abc");
      [vm_compute; reflexivity|reflexivity|reflexivity].
Qed.

(** C3 fails as stated: on the silent channel no frame for the watched key
    ever comes, yet [fetch] does not return; it stays in its first
    [recv]. *)
Lemma fetch_blocks_on_silent_channel :
  ws_recv_result silent 1 = Silence /\
  match fetch silent 5 (KInt 1) (boot silent (PInt 7)) with
  | Hang m' => recvs (outside m') = 2%nat /\ _data (self m') = []
  | _ => False
  end.
Proof. vm_compute. repeat split; reflexivity. Qed.

(** The subscribe command of the first handshake of the day, for stop 7:
    19 characters after the colon. *)
Example day_subscribe_command :
  posted (trace (outside (day_entered BrokenPipeError))) =
  ["19:42[" ++ dq ++ "req" ++ dq ++ ",[7,[" ++ dq ++ "*" ++ dq ++ "]]]"].
Proof. reflexivity. Qed.


(** C6 fails as stated.  For the stop "Košická" the prefix is 25, the
    number of characters of the body, which takes 27 bytes; and of the
    stop id made of 7, a space, a tab and 1 the space goes and the tab
    stays in the frame. *)
Lemma subscribe_counts_characters_keeps_tabs :
  match _subscribe (day BrokenPipeError) 5
          (boot (day BrokenPipeError) (PStr "Košická")) with
  | Ok _ m' =>
      posted (trace (outside m')) =
        ["25:42[" ++ dq ++ "req" ++ dq ++ ",[Košická,[" ++ dq ++ "*" ++ dq ++ "]]]"] /\
      String.length ("42[" ++ dq ++ "req" ++ dq ++ ",[Košická,[" ++ dq ++ "*"
                     ++ dq ++ "]]]") = 27%nat
  | _ => False
  end /\
  match _subscribe (day BrokenPipeError) 5
          (boot (day BrokenPipeError) (PStr ("7 " ++ String "009"%char "1"))) with
  | Ok _ m' =>
      posted (trace (outside m')) =
        ["21:42[" ++ dq ++ "req" ++ dq ++ ",[7" ++ String "009"%char "1" ++ ",["
         ++ dq ++ "*" ++ dq ++ "]]]"]
  | _ => False
  end.
Proof. vm_compute. repeat split; reflexivity. Qed.

(** On the second [fetch] of the day the keepalive is due and its send
    fails with [BrokenPipeError]: the iteration runs the whole handshake
    again (two polling rounds this time) and then goes round. *)
Lemma keepalive_failure_rehandshakes_witness :
  ws_send_result (day BrokenPipeError)
    (sends (outside (day_later BrokenPipeError))) "2" = Some BrokenPipeError /\
  exists m',
    fetch_body (day BrokenPipeError) 5 (KInt 1) (mkLocals None 1153)
      (day_later BrokenPipeError) = Ok (Some (mkLocals None 1153)) m' /\
    kinds (trace (outside m')) =
      (kinds (trace (outside (day_later BrokenPipeError))) ++ [Ping]
       ++ handshake 1 ++ [Pause])%list /\
    recvs (outside m') = S (recvs (outside (day_later BrokenPipeError))) /\
    _data (self m') = _data (self (day_later BrokenPipeError)).
Proof.
  split; [reflexivity|].
  destruct (keepalive_failure_rehandshakes (day BrokenPipeError) 5 (KInt 1)
              (mkLocals None 1153) (day_later BrokenPipeError) 1002%Q
              (mkWs "ws://imhd.sk/rt/sio2/?EIO=3&transport=websocket&sid=abc"))
    as (_ & _ & H); [vm_compute; reflexivity ..|].
  apply (proj2 (H BrokenPipeError eq_refl eq_refl) 1%nat
           (fun j => nth (5 + j) day_replies no_reply) "def");
    [|lia].
  constructor; try reflexivity.
  - intros i Hi. assert (i = 0)%nat as -> by lia. reflexivity.
  - discriminate.
  - now exists "3probe".
Defined.

(** C2 fails as stated: when the send of the keepalive raises
    [WebSocketConnectionClosedException] (the socket has been closed), which
    is not an [OSError], the second [fetch] of the day raises it to its
    caller right after the ping; no handshake follows. *)
Lemma keepalive_closed_socket_raises :
  ws_send_result (day WebSocketConnectionClosedException) 2 "2" =
    Some WebSocketConnectionClosedException /\
  match fetch (day WebSocketConnectionClosedException) 5 (KInt 1)
          (final (fetch (day WebSocketConnectionClosedException) 5 (KInt 1)
                    (day_boot WebSocketConnectionClosedException))
                 (day_boot WebSocketConnectionClosedException)) with
  | Raise e m' =>
      e = WebSocketConnectionClosedException /\
      kinds (trace (outside m')) =
        (handshake 0 ++ [Pause; Receive; Receive; Receive] ++ [Pause; Ping])%list
  | _ => False
  end.
Proof. vm_compute. repeat split; reflexivity. Qed.

(* ------------------------------------------------------------------ *)
(** ** Resolving a stop name *)

Section Search.

Lemma star_end ok s :
  Re.star ok false (fun _ => Some EmptyString) s = Some EmptyString.
Proof.
  induction s as [|c s IH]; [reflexivity|].
  cbn [Re.star]. rewrite IH. now destruct (ok c).
Qed.

(** A greedy run that may take the whole of [v] and then succeeds keeps
    all of it. *)
Lemma star_run ok k v rest r :
  (forall c, Str.mem c v = true -> ok c = true) ->
  Re.star ok true k rest = Some r ->
  Re.star ok true k (v ++ rest) = Some (v ++ r).
Proof.
  intros Hv Hrest. induction v as [|c v IH]; [exact Hrest|].
  cbn [append Re.star].
  rewrite (Hv c) by (cbn [Str.mem]; now rewrite Ascii.eqb_refl).
  rewrite IH; [reflexivity|].
  intros c' Hc'. apply Hv. cbn [Str.mem]. rewrite Hc'. apply orb_true_r.
Qed.

(** A star in front of a match gives way to it. *)
Lemma star_skip ok k pre b r :
  (forall c, Str.mem c pre = true -> ok c = true) ->
  Re.star ok false k b = Some r ->
  Re.star ok false k (pre ++ b) = Some r.
Proof.
  intros Hpre Hb. induction pre as [|c pre IH]; [exact Hb|].
  cbn [append Re.star].
  rewrite (Hpre c) by (cbn [Str.mem]; now rewrite Ascii.eqb_refl).
  rewrite IH; [reflexivity|].
  intros c' Hc'. apply Hpre. cbn [Str.mem]. rewrite Hc'. apply orb_true_r.
Qed.

Lemma tail_needs_z s :
  Str.starts "z=" s = false -> Re.match_here tail_pattern s = None.
Proof.
  destruct s as [|a [|b s]]; cbn [Str.starts]; intros H.
  - reflexivity.
  - cbn. destruct (Ascii.eqb a "z"); reflexivity.
  - cbn [tail_pattern tl z_pattern Re.match_here Re.p_quant Re.p_atom
         Re.p_group Re.atom_ok].
    rewrite (Ascii.eqb_sym a), (Ascii.eqb_sym b).
    destruct (Ascii.eqb "z" a); [|reflexivity].
    cbn [option_map Re.keep andb] in *.
    rewrite andb_true_r in H. rewrite H. reflexivity.
Qed.

Lemma star_nowhere ok g s :
  Str.contains "z=" s = false ->
  Re.star ok g (Re.match_here tail_pattern) s = None.
Proof.
  induction s as [|c s IH]; intros H.
  - reflexivity.
  - cbn [Str.contains] in H. apply orb_false_iff in H. destruct H as [H1 H2].
    cbn [Re.star]. rewrite (IH H2), (tail_needs_z _ H1).
    now destruct (ok c).
Qed.

Lemma tail_matches v post :
  v <> "" ->
  Str.mem "&" v = false ->
  Re.match_here tail_pattern ("z=" ++ v ++ "&" ++ post) = Some v.
Proof.
  intros Hne Hamp. destruct v as [|c v]; [congruence|].
  cbn [Str.mem] in Hamp. apply orb_false_iff in Hamp. destruct Hamp as [Hc Hv].
  cbn [tail_pattern tl z_pattern append Re.match_here Re.p_quant Re.p_atom
       Re.p_group Re.atom_ok].
  rewrite !Ascii.eqb_refl. cbn [option_map Re.keep].
  rewrite Hc. cbn [negb].
  rewrite (star_run _ _ v ("&" ++ post) "").
  - cbn [option_map Re.keep]. now rewrite append_nil_r.
  - intros a Ha. cbn [Re.atom_ok].
    destruct (Ascii.eqb a "&") eqn:E; [|reflexivity].
    apply Ascii.eqb_eq in E. subst a. rewrite Ha in Hv. discriminate.
  - cbn [append Re.star].
    replace (Re.atom_ok (Re.Not "&") "&") with false by reflexivity.
    now rewrite star_end.
Qed.

(** What [re.search('.*z=([^&]+)&.*', link).group(1)] finds in a link whose
    last [z=] parameter is [v]. *)
Lemma z_group_finds pre v post :
  Str.mem Re.newline pre = false ->
  v <> "" ->
  Str.mem "&" v = false ->
  Str.contains "z=" (v ++ "&" ++ post) = false ->
  z_group (pre ++ "z=" ++ v ++ "&" ++ post) = inl v.
Proof.
  intros Hpre Hne Hamp Hlast.
  assert (Hhere : Re.match_here z_pattern (pre ++ "z=" ++ v ++ "&" ++ post)
                  = Some v).
  { change (Re.match_here z_pattern)
      with (Re.star (Re.atom_ok Re.Any) false (Re.match_here tail_pattern)).
    apply star_skip.
    - intros c Hc. cbn [Re.atom_ok].
      destruct (Ascii.eqb c Re.newline) eqn:E; [|reflexivity].
      apply Ascii.eqb_eq in E. subst c. rewrite Hc in Hpre. discriminate.
    - change ("z=" ++ v ++ "&" ++ post)
        with (String "z" ("=" ++ v ++ "&" ++ post)).
      cbn [Re.star Re.atom_ok]. cbn [Ascii.eqb Bool.eqb Re.newline negb].
      rewrite star_nowhere.
      + change (String "z" ("=" ++ v ++ "&" ++ post))
          with ("z=" ++ v ++ "&" ++ post).
        now apply tail_matches.
      + cbn [append Str.contains Str.starts Ascii.eqb Bool.eqb andb orb].
        exact Hlast. }
  unfold z_group.
  destruct (pre ++ "z=" ++ v ++ "&" ++ post); cbn [Re.search];
    now rewrite Hhere.
Qed.

Lemma contains_skip v t :
  Str.mem "z" v = false -> Str.contains "z=" (v ++ t) = Str.contains "z=" t.
Proof.
  induction v as [|a v IH]; intros H; [reflexivity|].
  cbn [Str.mem] in H. apply orb_false_iff in H. destruct H as [Ha Hv].
  cbn [append Str.contains Str.starts]. rewrite (Ascii.eqb_sym "z" a), Ha.
  cbn [andb orb]. now apply IH.
Qed.

Lemma of_Z_nonempty z : Str.of_Z z <> "".
Proof.
  intros H. pose proof (to_Z_of_Z z) as Hz. rewrite H in Hz. discriminate.
Qed.

(** C7, as the code has it.  [busstop2id] asks the search page for the
    name and looks at the first anchor the selector finds, whether or not
    there are more.  With no anchor at all it raises [NoMatch].  Otherwise
    it returns the number [id] that the first anchor's link carries as its
    last [z=<id>&] parameter. *)
Theorem busstop2id_reads_first_anchor :
  forall (E : Env) (busstop : string) (m : machine) (resp : response),
    http E (requests_made (outside m)) (search_request busstop)
    = Responded resp ->
    match html_select E (text resp) with
    | [] =>
        busstop2id E busstop m =
        Raise (NoMatch ("Multiple matches for string or invalid name? "
                        ++ "list index out of range"))
              (on_world (bump_http (search_request busstop)) m)
    | tag :: _ =>
        forall pre id post,
          sget tag "href" = Some (pre ++ "z=" ++ Str.of_Z id ++ "&" ++ post) ->
          Str.mem Re.newline pre = false ->
          Str.contains "z=" post = false ->
          busstop2id E busstop m =
          Ok id (on_world (bump_http (search_request busstop)) m)
    end.
Proof.
  intros E busstop m resp Hhttp.
  destruct (html_select E (text resp)) as [|tag rest] eqn:Hsel;
    [|intros pre id post Hhref Hpre Hpost];
    unfold busstop2id, requests_get, requests_call;
    fold (search_request busstop); unfold bind at 1; rewrite Hhttp, Hsel.
  - reflexivity.
  - run. unfold attr. rewrite Hhref. simpl.
    change (String "z" (String "=" (Str.of_Z id ++ String "&" post)))
      with ("z=" ++ Str.of_Z id ++ "&" ++ post).
    rewrite z_group_finds.
    + simpl. now rewrite to_Z_of_Z.
    + exact Hpre.
    + apply of_Z_nonempty.
    + now apply of_Z_free.
    + rewrite contains_skip by now apply of_Z_free.
      cbn [append Str.contains Str.starts Ascii.eqb Bool.eqb andb orb].
      exact Hpost.
Qed.

(** The greedy [.*] makes the search settle on the last [z=] parameter
    of a link, and a link whose [z] value is not followed by [&] has no
    match. *)
Example z_group_last_parameter :
  z_group "/ba/cp?z=12&xz=34&skin=1" = inl "34" /\
  z_group "/ba/online-zastavkova-tabula?z=123" = inr AttributeError.
Proof. split; reflexivity. Qed.

(** The page with a single link to the timetable of stop 123. *)
Lemma busstop2id_reads_first_anchor_witness :
  busstop2id unique "Kosicka" (boot unique PNone) =
  Ok 123 (on_world (bump_http (search_request "Kosicka")) (boot unique PNone)).
Proof.
  exact (busstop2id_reads_first_anchor unique "Kosicka" (boot unique PNone)
           (mkResponse 200 "<html>results</html>" []) eq_refl
           "/ba/online-zastavkova-tabula?" 123 "skin=1"
           eq_refl eq_refl eq_refl).
Defined.

(** C7 fails as stated: on a page where the selector finds two anchors
    [busstop2id] does not raise [NoMatch]; it returns the id of the first
    one. *)
Lemma busstop2id_two_anchors_returns_first :
  length (html_select twins "<html>results</html>") = 2%nat /\
  match busstop2id twins "Hranic" (boot twins PNone) with
  | Ok id _ => id = 12
  | _ => False
  end.
Proof. vm_compute. split; reflexivity. Qed.

End Search.

(* ------------------------------------------------------------------ *)
(** ** Record extraction *)

Lemma kset_kset d k v v' : kset (kset d k v) k v' = kset d k v'.
Proof.
  unfold kset. induction d as [|[k0 v0] d IH]; simpl.
  - now rewrite key_eqb_refl.
  - destruct (key_eqb k0 k) eqn:Hk; simpl; rewrite Hk; [reflexivity|].
    now rewrite IH.
Qed.

Lemma kset_same d k v : kget d k = Some v -> kset d k v = d.
Proof.
  unfold kget, kset. induction d as [|[k0 v0] d IH]; simpl; [discriminate|].
  destruct (key_eqb k0 k); intros H.
  - now inversion H.
  - now rewrite IH.
Qed.

Lemma set_data_same o : set_data (_data o) o = o.
Proof. now destruct o. Qed.

Section Store.

Variables (platform : pykey) (o : Stop) (b : list (pykey * pyval)).
Hypothesis Hcached : kget (_data o) platform = Some (PDict b).

Lemma store_get recs :
  kget (_data (store_records platform recs o)) platform =
  Some (PDict (kset b (KStr "tab") (PList recs))).
Proof.
  unfold store_records. rewrite Hcached. simpl. apply kget_kset_same.
Qed.

Lemma records_of_store recs :
  records_of (store_records platform recs o) platform = recs.
Proof.
  unfold records_of. rewrite store_get. now rewrite kget_kset_same.
Qed.

Lemma store_twice r1 r2 :
  store_records platform r2 (store_records platform r1 o) =
  store_records platform r2 o.
Proof.
  unfold store_records at 1. rewrite store_get.
  unfold store_records. rewrite Hcached. simpl.
  now rewrite !kset_kset.
Qed.

Lemma store_same recs :
  kget b (KStr "tab") = Some (PList recs) ->
  store_records platform recs o = o.
Proof.
  intros Htab. unfold store_records. rewrite Hcached.
  rewrite (kset_same b _ _ Htab), (kset_same _ _ _ Hcached).
  apply set_data_same.
Qed.

End Store.

Section Extraction.

Variable E : Env.




End Extraction.



(* ------------------------------------------------------------------ *)
(** ** Name resolution inside [get_data] *)

(** [int()] of a number strictly between [a] and [a + 1], or equal to
    [a + 1]. *)
Lemma Qtrunc_between (q : Q) (a : Z) :
  0 <= a ->
  (inject_Z a < q)%Q ->
  (q <= inject_Z (a + 1))%Q ->
  Qtrunc q = a \/ Qtrunc q = a + 1.
Proof.
  destruct q as [n d]. unfold Qtrunc, Qlt, Qle. simpl. intros Ha Hlo Hhi.
  rewrite Z.mul_1_r in *.
  assert (Hn : 0 <= n) by nia.
  rewrite Z.quot_div_nonneg by lia.
  assert (a <= n / Z.pos d) by (apply Z.div_le_lower_bound; lia).
  assert (n / Z.pos d <= a + 1) by (apply Z.div_le_upper_bound; lia).
  lia.
Qed.

Section Names.

Variable E : Env.

(** [destid2destname] of a single int id, when the name service answers
    with a document whose ["sn"] member is the mapping [sn]. *)
Lemma destid2destname_int z m resp sn names :
  http E (requests_made (outside m))
       (name_request (Str.of_Z z) (clock E (ticks (outside m)))) = Responded resp ->
  json_loads E (text resp) = Some (PDict [(KStr "sn", PDict sn)]) ->
  int_keys sn [] = inl names ->
  destid2destname E (PInt z) m =
  Ok (PDict names)
     (mkMachine (self m)
        (bump_http (name_request (Str.of_Z z) (clock E (ticks (outside m))))
           (bump_tick (outside m)))).
Proof.
  intros Hhttp Hjson Hnames. unfold destid2destname.
  cbn [py_str map Str.join]. unfold bind at 1, time_time.
  unfold bind at 1, requests_get, requests_call.
  cbn [outside on_world bump_tick requests_made].
  fold (name_request (Str.of_Z z) (clock E (ticks (outside m)))).
  rewrite Hhttp, Hjson. run. now rewrite Hnames.
Qed.

(** C8, as the code has it.  The cached batch holds the one record of the
    scenario, scheduled 120 seconds after [now_ms]; the clock reads a time
    within a second of [now_ms]; the name service answers the lookup of id
    5 with [name].  Then [get_data] for route "1" with name resolution
    returns exactly one record; its [toffset] is 119 or 120; and its
    [cielZastavka] is the dictionary [{5: name}] that [destid2destname]
    returned, not the name itself.  [lastZ], being 0, is left alone. *)
Theorem get_data_resolves_destination :
  forall (fuel : nat) (platform : pykey) (now_ms : Z) (name : string)
         (m : machine) (resp : response),
    kget (_data (self m)) platform = Some (batch [record "1" (now_ms + 120000) 5]) ->
    (inject_Z now_ms / 1000 <= clock E (ticks (outside m)))%Q ->
    (clock E (ticks (outside m)) < inject_Z now_ms / 1000 + 1)%Q ->
    http E (requests_made (outside m))
         (name_request "5" (clock E (S (ticks (outside m))))) = Responded resp ->
    json_loads E (text resp) = Some (names_doc "5" name) ->
    exists refs m' toffset,
      get_data E fuel platform (PStr "1") false true m = Ok refs m' /\
      view m' platform refs =
        [ PDict [ (KStr "linka", PStr "1"); (KStr "cas", PInt (now_ms + 120000));
                  (KStr "casDelta", PInt 0);
                  (KStr "cielZastavka", PDict [(KInt 5, PStr name)]);
                  (KStr "lastZ", PInt 0); (KStr "typ", PStr "online");
                  (KStr "toffset", PInt toffset) ] ] /\
      (toffset = 119 \/ toffset = 120).
Proof.
  intros fuel platform now_ms name m resp Hc Hlo Hhi Hhttp Hjson.
  set (toffset := Qtrunc (inject_Z (now_ms + 120000) / 1000
                          - clock E (ticks (outside m)))).
  assert (Hrun : exists m',
             get_data E fuel platform (PStr "1") false true m = Ok [0%nat] m' /\
             records_of (self m') platform =
               [ PDict [ (KStr "linka", PStr "1"); (KStr "cas", PInt (now_ms + 120000));
                         (KStr "casDelta", PInt 0);
                         (KStr "cielZastavka", PDict [(KInt 5, PStr name)]);
                         (KStr "lastZ", PInt 0); (KStr "typ", PStr "online");
                         (KStr "toffset", PInt toffset) ] ]).
  { unfold get_data. run. rewrite Hc. simpl. run. fold toffset.
    rewrite (destid2destname_int 5 _ resp [(KStr "5", PStr name)]
               [(KInt 5, PStr name)]); [|exact Hhttp|exact Hjson|reflexivity].
    eexists. split; [reflexivity|]. simpl.
    rewrite (store_twice platform (self m) _ Hc).
    now rewrite (records_of_store platform (self m) _ Hc). }
  destruct Hrun as (m' & Hrun & Hrec).
  exists [0%nat], m', toffset. split; [exact Hrun|]. split.
  - unfold view. rewrite Hrec. reflexivity.
  - assert (H : (inject_Z (now_ms + 120000) / 1000
                 == inject_Z now_ms * (1 # 1000) + 120)%Q)
      by (rewrite inject_Z_plus; change (inject_Z 120000) with 120000%Q; field).
    assert (H' : (inject_Z now_ms / 1000 == inject_Z now_ms * (1 # 1000))%Q)
      by reflexivity.
    rewrite H' in Hlo, Hhi.
    apply Qtrunc_between; [lia| |]; rewrite H.
    + change (inject_Z 119) with 119%Q. lra.
    + change (inject_Z (119 + 1)) with 120%Q. lra.
Qed.

End Names.

(** The scenario itself: the clock at 1000, the arrival due at 1120. *)
Lemma get_data_resolves_destination_witness :
  exists refs m' toffset,
    get_data lookup 5 (KInt 1) (PStr "1") false true
      (stocked [record "1" (1000000 + 120000) 5]) = Ok refs m' /\
    view m' (KInt 1) refs =
      [ PDict [ (KStr "linka", PStr "1"); (KStr "cas", PInt (1000000 + 120000));
                (KStr "casDelta", PInt 0);
                (KStr "cielZastavka", PDict [(KInt 5, PStr "Hlavná stanica")]);
                (KStr "lastZ", PInt 0); (KStr "typ", PStr "online");
                (KStr "toffset", PInt toffset) ] ] /\
    (toffset = 119 \/ toffset = 120).
Proof.
  apply (get_data_resolves_destination lookup 5 (KInt 1) 1000000
           "Hlavná stanica" (stocked [record "1" (1000000 + 120000) 5])
           (mkResponse 200 (names_text "5" "Hlavná stanica") []));
    try reflexivity.
  unfold Qle. simpl. lia.
Defined.

(** C8 fails as stated: in the scenario the returned record's
    [cielZastavka] is the dictionary [{5: "Hlavná stanica"}], not the string
    "Hlavná stanica" (its [toffset] is 120). *)
Lemma get_data_stores_name_dictionary :
  match get_data lookup 5 (KInt 1) (PStr "1") false true
          (stocked [record "1" (1000000 + 120000) 5]) with
  | Ok refs m' =>
      match view m' (KInt 1) refs with
      | [PDict d] =>
          kget d (KStr "cielZastavka") =
            Some (PDict [(KInt 5, PStr "Hlavná stanica")]) /\
          kget d (KStr "cielZastavka") <> Some (PStr "Hlavná stanica") /\
          kget d (KStr "toffset") = Some (PInt 120)
      | _ => False
      end
  | _ => False
  end.
Proof. vm_compute. repeat split; try reflexivity. discriminate. Qed.

(* ------------------------------------------------------------------ *)
(** ** [get_data] writes into the cache *)

Section Mutation.

Variable E : Env.

Lemma destid2destname_ok id m val m' :
  destid2destname E id m = Ok val m' ->
  self m' = self m /\ exists names, val = PDict names.
Proof.
  unfold destid2destname, requests_get, requests_call. run.
  destruct (http E _ _) as [resp|e]; simpl; [|discriminate].
  destruct (json_loads E (text resp)) as [doc|]; simpl; [|discriminate].
  destruct (py_item doc "sn") as [sn|e]; simpl; [|discriminate].
  destruct sn; simpl; try discriminate.
  destruct (int_keys d []) as [names|e]; simpl; [|discriminate].
  intros H. inversion H. split; [reflexivity|]. now exists names.
Qed.

Lemma looked_up_ne_zero val : looked_up E val -> py_ne_zero val = true.
Proof.
  intros (id & m & m' & H).
  destruct (destid2destname_ok _ _ _ _ H) as [_ [names ->]]. reflexivity.
Qed.

Lemma kget_in_keys d k v : kget d k = Some v -> In k (Dict.keys d).
Proof.
  unfold kget, Dict.keys. induction d as [|[k0 v0] d IH]; simpl; [discriminate|].
  destruct (key_eqb k0 k) eqn:Hk; intros H.
  - left. now apply key_eqb_eq.
  - right. now apply IH.
Qed.

Lemma key_eqb_neq a b : a <> b -> key_eqb a b = false.
Proof.
  intros H. destruct (key_eqb a b) eqn:Hk; [|reflexivity].
  apply key_eqb_eq in Hk. contradiction.
Qed.

Lemma key_eq_dec (a b : pykey) : {a = b} + {a <> b}.
Proof.
  destruct (key_eqb a b) eqn:H.
  - left. now apply key_eqb_eq.
  - right. intros ->. rewrite key_eqb_refl in H. discriminate.
Qed.

(** The name-resolving loop over the keys of a record [x] that the cache
    already holds at its position: the cache ends up holding the resulting
    record there; values that were looked up stay looked up, the other
    fields are kept, and every destination field among [keys] that was not
    0 is looked up. *)
Lemma resolve_inv platform done todo :
  forall keys x m b x' m',
    kget (_data (self m)) platform = Some (PDict b) ->
    kget b (KStr "tab") = Some (PList (done ++ PDict x :: todo)%list) ->
    resolve E platform done todo keys x m = Ok x' m' ->
    self m' = store_records platform (done ++ PDict x' :: todo)%list (self m) /\
    (forall k val, kget x k = Some val -> looked_up E val ->
                   exists val', kget x' k = Some val' /\ looked_up E val') /\
    (forall k, is_dest_key k = false -> kget x' k = kget x k) /\
    (forall k v, In k keys -> is_dest_key k = true -> kget x k = Some v ->
                 py_ne_zero v = true ->
                 exists val', kget x' k = Some val' /\ looked_up E val').
Proof.
  induction keys as [|key keys IH]; intros x m b x' m' Hc Htab Hrun.
  - simpl in Hrun. inversion Hrun. subst x' m'.
    split; [symmetry; now apply store_same with b|].
    split; [intros k val Hk Hl; now exists val|].
    split; [reflexivity|]. intros k v [].
  - cbn [resolve] in Hrun.
    destruct (is_dest_key key) eqn:Hdest.
    + destruct (kget x key) as [v|] eqn:Hv; [|discriminate].
      destruct (py_ne_zero v) eqn:Hnz.
      * unfold bind at 1 in Hrun.
        destruct (destid2destname E v m) as [name m1|e m1|m1|] eqn:Hcall;
          try discriminate.
        destruct (destid2destname_ok _ _ _ _ Hcall) as [Hself1 [names Hname]].
        unfold commit, bind at 1, modify_self in Hrun.
        match type of Hrun with
        | resolve E platform done todo keys ?x1 ?st = _ =>
            destruct (IH x1 st (kset b (KStr "tab")
                                  (PList (done ++ PDict x1 :: todo)%list))
                         x' m') as (Hs & Hkeep & Hother & Hkeys)
        end.
        -- simpl. rewrite Hself1. now apply store_get.
        -- apply kget_kset_same.
        -- exact Hrun.
        -- assert (Hlook : looked_up E name) by (now exists v, m, m1).
           split; [|split; [|split]].
           ++ rewrite Hs. simpl. rewrite Hself1. now apply store_twice with b.
           ++ intros k val Hk Hl.
              destruct (key_eq_dec key k) as [->|Hne].
              ** apply (Hkeep k name); [apply kget_kset_same|exact Hlook].
              ** apply (Hkeep k val); [|exact Hl].
                 rewrite kget_kset_other; [exact Hk|now apply key_eqb_neq].
           ++ intros k Hk. rewrite (Hother k Hk).
              apply kget_kset_other. apply key_eqb_neq. intros ->. congruence.
           ++ intros k v0 Hin Hd Hk Hn.
              destruct (key_eq_dec key k) as [->|Hne].
              ** apply (Hkeep k name); [apply kget_kset_same|exact Hlook].
              ** destruct Hin as [Heq|Hin]; [contradiction|].
                 apply (Hkeys k v0 Hin Hd); [|exact Hn].
                 rewrite kget_kset_other; [exact Hk|now apply key_eqb_neq].
      * destruct (IH x m b x' m' Hc Htab Hrun) as (Hs & Hkeep & Hother & Hkeys).
        split; [exact Hs|]. split; [exact Hkeep|]. split; [exact Hother|].
        intros k v0 [Heq|Hin] Hd Hk Hn.
        -- subst k. congruence.
        -- now apply (Hkeys k v0).
    + destruct (IH x m b x' m' Hc Htab Hrun) as (Hs & Hkeep & Hother & Hkeys).
      split; [exact Hs|]. split; [exact Hkeep|]. split; [exact Hother|].
      intros k v0 [Heq|Hin] Hd Hk Hn.
      * subst k. congruence.
      * now apply (Hkeys k v0).
Qed.

(** The loop of [get_data], whatever the records and with or without name
    resolution: when it ends normally the cache holds, in place of the
    records it visited, the records as the loop left them, and the result
    lists the positions of those whose route was asked for. *)
Lemma visit_inv platform conn rn :
  forall todo done result m b refs m',
    kget (_data (self m)) platform = Some (PDict b) ->
    kget b (KStr "tab") = Some (PList (done ++ todo)%list) ->
    visit E platform conn rn done todo result m = Ok refs m' ->
    exists todo',
      self m' = store_records platform (done ++ todo')%list (self m) /\
      refs = (result ++ matching conn todo (length done))%list /\
      Forall2 (touched E rn conn) todo todo'.
Proof.
  induction todo as [|x todo IH]; intros done result m b refs m' Hc Htab Hrun.
  - simpl in Hrun. inversion Hrun. subst refs m'. exists [].
    split; [symmetry; now apply store_same with b|].
    split; [now rewrite app_nil_r|constructor].
  - cbn [visit] in Hrun. unfold bind at 1 in Hrun.
    destruct (py_item x "linka") as [linka|e] eqn:Hlinka; [|discriminate].
    assert (Hl : linka_of x = linka) by (unfold linka_of; now rewrite Hlinka).
    cbn [of_result ret] in Hrun. cbn [matching]. rewrite Hl.
    destruct (in_strings linka conn) eqn:Hin.
    + destruct x as [| | | | |l|d|]; try discriminate.
      unfold bind at 1 in Hrun.
      destruct (py_item (PDict d) "cas") as [cas|e] eqn:Hcas; [|discriminate].
      cbn [of_result ret] in Hrun. unfold bind at 1 in Hrun.
      destruct (py_int cas) as [ms|e]; [|discriminate].
      cbn [of_result ret] in Hrun.
      unfold bind at 1, time_time, bind at 1, commit, modify_self in Hrun.
      cbn [self outside on_world] in Hrun.
      set (t := Qtrunc (inject_Z ms / 1000 - clock E (ticks (outside m)))) in *.
      set (d1 := kset d (KStr "toffset") (PInt t)) in *.
      set (m1 := mkMachine (store_records platform (done ++ PDict d1 :: todo)%list (self m))
                           (bump_tick (outside m))) in *.
      assert (Hc1 : kget (_data (self m1)) platform =
                    Some (PDict (kset b (KStr "tab")
                                   (PList (done ++ PDict d1 :: todo)%list))))
        by (subst m1; simpl; now apply store_get).
      unfold bind at 1 in Hrun.
      assert (Hstep : exists d' m2,
                 (if rn then resolve E platform done todo (Dict.keys d1) d1
                  else ret d1) m1 = Ok d' m2 /\
                 visit E platform conn rn (done ++ [PDict d'])%list todo
                   (result ++ [length done])%list m2 = Ok refs m').
      { destruct ((if rn then resolve E platform done todo (Dict.keys d1) d1
                   else ret d1) m1) as [d' m2|e m2|m2|]; try discriminate.
        now exists d', m2. }
      destruct Hstep as (d' & m2 & Hres & Hvisit). clear Hrun.
      assert (Hfacts :
                self m2 = store_records platform (done ++ PDict d' :: todo)%list (self m1) /\
                (forall k, is_dest_key k = false -> kget d' k = kget d1 k) /\
                (rn = true ->
                 forall k v, In k (Dict.keys d1) -> is_dest_key k = true ->
                             kget d1 k = Some v -> py_ne_zero v = true ->
                             exists val', kget d' k = Some val' /\ looked_up E val')).
      { destruct rn.
        - destruct (resolve_inv platform done todo (Dict.keys d1) d1 m1 _ d' m2
                      Hc1 (kget_kset_same _ _ _) Hres)
            as (Hs & _ & Hother & Hkeys).
          split; [exact Hs|]. split; [exact Hother|]. intros _. exact Hkeys.
        - inversion Hres. subst d' m2.
          split; [symmetry; apply store_same with (1 := Hc1); apply kget_kset_same|].
          split; [reflexivity|]. discriminate. }
      destruct Hfacts as (Hs2 & Hother & Hkeys).
      destruct (IH (done ++ [PDict d'])%list (result ++ [length done])%list m2
                   (kset (kset b (KStr "tab") (PList (done ++ PDict d1 :: todo)%list))
                         (KStr "tab") (PList (done ++ PDict d' :: todo)%list))
                   refs m')
        as (todo' & Hs & Hrefs & Hall).
      * rewrite Hs2. now apply store_get.
      * rewrite kget_kset_same. now rewrite <- app_assoc.
      * exact Hvisit.
      * exists (PDict d' :: todo'). split; [|split].
        -- rewrite Hs, Hs2. subst m1. cbn [self].
           rewrite (store_twice _ _ _ Hc).
           rewrite (store_twice _ _ _ Hc). now rewrite <- app_assoc.
        -- rewrite Hrefs, length_app, Nat.add_1_r, <- app_assoc. reflexivity.
        -- constructor; [|exact Hall].
           unfold touched. rewrite Hl, Hin.
           exists d, d'. split; [reflexivity|]. split; [reflexivity|]. split.
           ++ exists t. rewrite (Hother (KStr "toffset")) by reflexivity.
              apply kget_kset_same.
           ++ intros Hrn k v Hd Hk Hn.
              assert (Hk1 : kget d1 k = Some v).
              { subst d1. rewrite kget_kset_other; [exact Hk|].
                apply key_eqb_neq. intros <-. discriminate. }
              apply (Hkeys Hrn k v); try assumption.
              now apply kget_in_keys with v.
    + destruct (IH (done ++ [x])%list result m b refs m' Hc) as (todo' & Hs & Hrefs & Hall).
      * now rewrite <- app_assoc.
      * exact Hrun.
      * exists (x :: todo'). split; [|split].
        -- rewrite Hs. now rewrite <- app_assoc.
        -- rewrite Hrefs, length_app, Nat.add_1_r. reflexivity.
        -- constructor; [|exact Hall]. unfold touched. now rewrite Hl, Hin.
Qed.

(** C9.  [get_data] (without a forced update) writes into the cache.  When
    a call returns, the records cached for the platform are, position by
    position, the records that were there before, except that every record
    whose route was asked for (these are the records returned) has been
    changed where it stands: it has a [toffset] key and, with
    [resolve_names], each of its [cielZastavka] and [lastZ] fields that
    was not 0 holds the dictionary returned by [destid2destname].  A later
    call without a fetch in between iterates over exactly these records,
    not over the batch as it was received. *)
Theorem get_data_mutates_cached_records :
  forall (fuel : nat) (platform : pykey) (conn : pyval) (resolve_names : bool)
         (m : machine) (refs : list nat) (m' : machine),
    get_data E fuel platform conn false resolve_names m = Ok refs m' ->
    Forall2 (touched E resolve_names (routes E conn))
            (records_of (self m) platform) (records_of (self m') platform) /\
    refs = matching (routes E conn) (records_of (self m) platform) 0 /\
    (forall fuel2 conn2 resolve_names2,
        get_data E fuel2 platform conn2 false resolve_names2 m' =
        visit E platform (routes E conn2) resolve_names2 []
              (records_of (self m') platform) [] m').
Proof.
  intros fuel platform conn rn m refs m' Hrun.
  unfold get_data in Hrun. cbn [bind ret] in Hrun.
  unfold bind at 1, ret at 1, bind at 1, get_self in Hrun.
  destruct (kget (_data (self m)) platform) as [cached|] eqn:Hc; [|discriminate].
  destruct (py_item cached "tab") as [tab|e] eqn:Htab; [|discriminate].
  unfold of_result, ret at 1 in Hrun.
  destruct cached as [| | | | | |b|]; try discriminate.
  unfold py_item in Htab.
  destruct (kget b (KStr "tab")) as [tab0|] eqn:Hb; [|discriminate].
  inversion Htab. subst tab0. clear Htab.
  assert (Hidle : forall l,
             records_of (self m) platform = [] ->
             refs = [] -> m' = m ->
             (forall fuel2 conn2 rn2,
                 get_data E fuel2 platform conn2 false rn2 m = Ok [] m) ->
             Forall2 (touched E rn l) (records_of (self m) platform)
                     (records_of (self m') platform) /\
             refs = matching l (records_of (self m) platform) 0 /\
             (forall fuel2 conn2 rn2,
                 get_data E fuel2 platform conn2 false rn2 m' =
                 visit E platform (routes E conn2) rn2 []
                       (records_of (self m') platform) [] m')).
  { intros l Hnil -> -> Hget. rewrite Hnil.
    split; [constructor|]. split; [reflexivity|]. exact Hget. }
  destruct tab as [| | | |s|l|d|]; try discriminate.
  - destruct s; [|discriminate]. injection Hrun as Hrefs Hm.
    apply Hidle; [|now symmetry|now symmetry|].
    + unfold records_of. now rewrite Hc, Hb.
    + intros fuel2 conn2 rn2. unfold get_data. run. rewrite Hc. simpl.
      now rewrite Hb.
  - destruct (visit_inv platform (routes E conn) rn l [] [] m b refs m' Hc Hb Hrun)
      as (todo' & Hs & Hrefs & Hall).
    assert (Hbefore : records_of (self m) platform = l)
      by (unfold records_of; now rewrite Hc, Hb).
    assert (Hafter : records_of (self m') platform = todo')
      by (rewrite Hs; now apply records_of_store with b).
    rewrite Hbefore, Hafter. split; [exact Hall|]. split; [exact Hrefs|].
    intros fuel2 conn2 rn2. unfold get_data. run.
    rewrite Hs, (store_get platform (self m) b Hc). simpl.
    now rewrite kget_kset_same.
  - destruct d; [|discriminate]. injection Hrun as Hrefs Hm.
    apply Hidle; [|now symmetry|now symmetry|].
    + unfold records_of. now rewrite Hc, Hb.
    + intros fuel2 conn2 rn2. unfold get_data. run. rewrite Hc. simpl.
      now rewrite Hb.
Qed.

End Mutation.

(** In the end-to-end scenario the call with name resolution leaves the
    dictionary in the cache, and a second call, which asks for no
    resolution, returns the record with that dictionary in it. *)
Lemma get_data_mutates_cached_records_witness :
  Forall2 (touched lookup true (routes lookup (PStr "1")))
    (records_of (self (stocked [record "1" 1120000 5])) (KInt 1))
    (records_of
       (self (final (get_data lookup 5 (KInt 1) (PStr "1") false true
                       (stocked [record "1" 1120000 5]))
                    (stocked [])))
       (KInt 1)) /\
  match get_data lookup 5 (KInt 1) (PStr "1") false false
          (final (get_data lookup 5 (KInt 1) (PStr "1") false true
                    (stocked [record "1" 1120000 5]))
                 (stocked [])) with
  | Ok refs m'' =>
      match view m'' (KInt 1) refs with
      | [PDict d] =>
          kget d (KStr "cielZastavka") =
            Some (PDict [(KInt 5, PStr "Hlavná stanica")])
      | _ => False
      end
  | _ => False
  end.
Proof.
  split; [|reflexivity].
  apply (get_data_mutates_cached_records lookup 5 (KInt 1) (PStr "1") true
           (stocked [record "1" 1120000 5]) [0%nat]
           (final (get_data lookup 5 (KInt 1) (PStr "1") false true
                     (stocked [record "1" 1120000 5]))
                  (stocked []))).
  reflexivity.
Defined.

(* ================================================================== *)
(** * Further properties *)

(* ------------------------------------------------------------------ *)
(** ** Frame rules *)

Section Frame.

Variable rel : machine -> machine -> Prop.
Hypothesis rel_refl : forall m, rel m m.
Hypothesis rel_trans : forall a b c, rel a b -> rel b c -> rel a c.

Lemma keeps_ret {A} (a : A) : keeps rel (ret a).
Proof. intros m. apply rel_refl. Qed.

Lemma keeps_raise {A} e : keeps rel (@raise A e).
Proof. intros m. apply rel_refl. Qed.

Lemma keeps_bind {A B} (c : M A) (k : A -> M B) :
  keeps rel c -> (forall a, keeps rel (k a)) -> keeps rel (bind c k).
Proof.
  intros Hc Hk m. unfold bind. specialize (Hc m).
  destruct (c m) as [a m1|e m1|m1|]; auto.
  specialize (Hk a m1).
  destruct (k a m1) as [b m2|e m2|m2|]; eauto.
Qed.

Lemma keeps_of_result {A} (x : A + exn) : keeps rel (of_result x).
Proof. destruct x; [apply keeps_ret|apply keeps_raise]. Qed.

Lemma keeps_get_self : keeps rel get_self.
Proof. intros m. apply rel_refl. Qed.

Variable E : Env.

(** The calls that touch the world only. *)
Hypothesis rel_blind : forall m f, rel m (on_world f m).

Lemma keeps_time_sleep n : keeps rel (time_sleep n).
Proof. intros m. apply rel_blind. Qed.

Lemma keeps_requests_call rq : keeps rel (requests_call E rq).
Proof.
  intros m. unfold requests_call. destruct (http E _ rq); apply rel_blind.
Qed.

Lemma keeps_requests_get url params hs jar :
  keeps rel (requests_get E url params hs jar).
Proof. apply keeps_requests_call. Qed.

Lemma keeps_requests_post url params hs body jar :
  keeps rel (requests_post E url params hs body jar).
Proof. apply keeps_requests_call. Qed.

Lemma keeps_create_connection url : keeps rel (create_connection E url).
Proof.
  intros m. unfold create_connection. destruct (ws_open E _ url); apply rel_blind.
Qed.

Lemma keeps_ws_send c msg : keeps rel (ws_send E c msg).
Proof.
  intros m. unfold ws_send. destruct (ws_send_result E _ msg); apply rel_blind.
Qed.

Lemma keeps_ws_recv c : keeps rel (ws_recv E c).
Proof.
  intros m. unfold ws_recv. destruct (ws_recv_result E _); apply rel_blind.
Qed.

End Frame.

Lemma keeps_out {A} rel : keeps rel (fun _ => @OutOfFuel A).
Proof. intros m. exact I. Qed.

Lemma keeps_attempt {A} rel (c : M A) : keeps rel c -> keeps rel (attempt c).
Proof.
  intros Hc m. unfold attempt. specialize (Hc m).
  destruct (c m); auto.
Qed.

Lemma keeps_modify rel f :
  (forall m, rel m (mkMachine (f (self m)) (outside m))) ->
  keeps rel (modify_self f).
Proof. intros Hf m. apply Hf. Qed.

Lemma keeps_time_time rel E :
  (forall m, rel m (on_world bump_tick m)) -> keeps rel (time_time E).
Proof. intros H m. apply H. Qed.

Lemma keeps_weaken {A} (rel rel' : machine -> machine -> Prop) (c : M A) :
  (forall m m', rel m m' -> rel' m m') -> keeps rel c -> keeps rel' c.
Proof.
  intros Hsub Hc m. specialize (Hc m). destruct (c m); auto.
Qed.

(** *** The three relations *)

Lemma same_core_refl m : on_object same_core m m.
Proof. now repeat split. Qed.

Lemma same_core_trans a b c :
  on_object same_core a b -> on_object same_core b c -> on_object same_core a c.
Proof. unfold on_object, same_core. intuition congruence. Qed.

Lemma same_core_blind m f : on_object same_core m (on_world f m).
Proof. now repeat split. Qed.

Lemma others_kept_refl platform m : on_object (others_kept platform) m m.
Proof. now split. Qed.

Lemma others_kept_trans platform a b c :
  on_object (others_kept platform) a b -> on_object (others_kept platform) b c ->
  on_object (others_kept platform) a c.
Proof.
  intros [H1 H2] [H3 H4]. split; [congruence|].
  intros p Hp. now rewrite H4, H2.
Qed.

Lemma others_kept_blind platform m f :
  on_object (others_kept platform) m (on_world f m).
Proof. now split. Qed.

Lemma same_core_others platform m m' :
  on_object same_core m m' -> on_object (others_kept platform) m m'.
Proof. intros (Hd & _ & Hb & _). split; [exact Hb|]. intros p _. now rewrite Hd. Qed.

Lemma offline_refl m : offline m m.
Proof. now repeat split. Qed.

Lemma offline_trans a b c : offline a b -> offline b c -> offline a c.
Proof. unfold offline. intuition congruence. Qed.

Lemma offline_tick m : offline m (on_world bump_tick m).
Proof. now repeat split. Qed.

Create HintDb frame.
#[local] Hint Resolve same_core_refl same_core_trans same_core_blind
  others_kept_refl others_kept_trans others_kept_blind
  offline_refl offline_trans offline_tick : frame.

(** Takes a computation apart along its binds, its branches and the
    library calls it is made of. *)
Ltac frame_step :=
  match goal with
  | |- keeps _ (bind _ _) => apply keeps_bind; [eauto with frame ..| |intro]
  | |- keeps _ (ret _) => apply keeps_ret; eauto with frame
  | |- keeps _ (raise _) => apply keeps_raise; eauto with frame
  | |- keeps _ (attempt _) => apply keeps_attempt
  | |- keeps _ (of_result _) => apply keeps_of_result; eauto with frame
  | |- keeps _ get_self => apply keeps_get_self; eauto with frame
  | |- keeps _ (time_time _) => apply keeps_time_time; eauto with frame
  | |- keeps _ (time_sleep _) => apply keeps_time_sleep; eauto with frame
  | |- keeps _ (requests_get _ _ _ _ _) => apply keeps_requests_get; eauto with frame
  | |- keeps _ (requests_post _ _ _ _ _ _) => apply keeps_requests_post; eauto with frame
  | |- keeps _ (create_connection _ _) => apply keeps_create_connection; eauto with frame
  | |- keeps _ (ws_send _ _ _) => apply keeps_ws_send; eauto with frame
  | |- keeps _ (ws_recv _ _) => apply keeps_ws_recv; eauto with frame
  | |- keeps _ (modify_self _) => apply keeps_modify; intro; now repeat split
  | |- keeps _ (match ?x with _ => _ end) => destruct x
  end.
Ltac frame := repeat frame_step.

Section Frames.

Variable E : Env.

Lemma poll_keeps fuel : keeps (on_object same_core) (poll E fuel).
Proof.
  induction fuel as [|fuel IH]; [apply keeps_out|].
  cbn [poll]. frame; exact IH.
Qed.

Lemma subscribe_keeps fuel : keeps (on_object same_core) (_subscribe E fuel).
Proof.
  unfold _subscribe, self_ws, set_header. frame; apply poll_keeps.
Qed.

Lemma subscribe_keeps_others fuel platform :
  keeps (on_object (others_kept platform)) (_subscribe E fuel).
Proof.
  apply (keeps_weaken (on_object same_core)); [apply same_core_others|].
  apply subscribe_keeps.
Qed.

Lemma others_kept_set platform batch m :
  on_object (others_kept platform) m
    (mkMachine (set_data (kset (_data (self m)) platform batch) (self m))
               (outside m)).
Proof.
  split; [reflexivity|]. intros p Hp. cbn [self _data set_data].
  apply kget_kset_other. apply key_eqb_neq. congruence.
Qed.

Lemma others_kept_store platform recs m :
  on_object (others_kept platform) m
    (mkMachine (store_records platform recs (self m)) (outside m)).
Proof.
  unfold store_records. cbn [self].
  destruct (kget (_data (self m)) platform) as [[| | | | | |b|]|];
    try (now split).
  apply others_kept_set.
Qed.

Lemma resubscribe_keeps_others fuel platform :
  keeps (on_object (others_kept platform)) (resubscribe E fuel).
Proof.
  unfold resubscribe. frame. apply subscribe_keeps_others.
Qed.

Lemma fetch_body_keeps_others sub platform l :
  keeps (on_object (others_kept platform)) (fetch_body E sub platform l).
Proof.
  unfold fetch_body, keepalive, receive, accept, self_timer, self_ws.
  frame; try apply resubscribe_keeps_others.
  apply keeps_modify. intros m. apply others_kept_set.
Qed.

Lemma fetch_loop_keeps_others sub platform :
  forall fuel l,
    keeps (on_object (others_kept platform)) (fetch_loop E sub fuel platform l).
Proof.
  induction fuel as [|fuel IH]; intros l; [apply keeps_out|].
  cbn [fetch_loop]. frame; [apply fetch_body_keeps_others|apply IH].
Qed.

Lemma fetch_keeps_others fuel platform :
  keeps (on_object (others_kept platform)) (fetch E fuel platform).
Proof.
  unfold fetch, fetch_enter.
  frame; try apply subscribe_keeps_others; apply fetch_loop_keeps_others.
Qed.

Lemma destid2destname_keeps id :
  keeps (on_object same_core) (destid2destname E id).
Proof. unfold destid2destname. cbv zeta. frame. Qed.

Lemma commit_keeps_others platform done todo x :
  keeps (on_object (others_kept platform)) (commit platform done todo x).
Proof. apply keeps_modify. intros m. apply others_kept_store. Qed.

Lemma resolve_keeps_others platform done todo :
  forall keys x,
    keeps (on_object (others_kept platform)) (resolve E platform done todo keys x).
Proof.
  induction keys as [|key keys IH]; intros x; cbn [resolve]; frame;
    try apply IH; try apply commit_keeps_others.
  apply (keeps_weaken (on_object same_core)); [apply same_core_others|].
  apply destid2destname_keeps.
Qed.

Lemma visit_keeps_others platform conn rn :
  forall todo done result,
    keeps (on_object (others_kept platform))
          (visit E platform conn rn done todo result).
Proof.
  induction todo as [|x todo IH]; intros done result; cbn [visit]; frame;
    try apply IH; try apply commit_keeps_others; try apply resolve_keeps_others.
Qed.

Lemma get_data_keeps_others fuel platform conn fu rn :
  keeps (on_object (others_kept platform)) (get_data E fuel platform conn fu rn).
Proof.
  unfold get_data. cbv zeta.
  frame; try apply fetch_keeps_others; apply visit_keeps_others.
Qed.



End Frames.

(* ------------------------------------------------------------------ *)
(** ** The receive half of the loop *)

Section Receive.

Variable E : Env.

(** An iteration whose [recv] raises: the handler is picked by the class
    of the exception. *)
Lemma fetch_body_recv_raises sub platform l m m1 c e :
  keepalive E sub m = Ok true m1 ->
  ws (self m1) = Some c ->
  ws_recv_result E (recvs (outside m1)) = RecvRaises e ->
  fetch_body E sub platform l m =
  (if is_ValueError e then
     match data l with
     | Some _ => ret (Some l)
     | None => raise (UnboundLocalError "data")
     end
   else (resubscribe E sub ;; ret (Some l))%py) (on_world bump_recv m1).
Proof.
  intros Hk Hws Hrecv.
  unfold fetch_body. rewrite (bind_ok _ _ _ _ _ Hk).
  unfold receive, bind at 1, attempt, bind at 1, self_ws, bind at 1, get_self.
  rewrite Hws. unfold ret at 1, ws_recv. rewrite Hrecv.
  destruct (is_ValueError e); reflexivity.
Qed.

Lemma fetch_enter_unbound fuel m0 l m :
  fetch_enter E fuel m0 = Ok l m -> data l = None.
Proof.
  unfold fetch_enter. intros H.
  apply bind_inv in H. destruct H as (o & m1 & _ & H).
  apply bind_inv in H. destruct H as (u & m2 & _ & H).
  apply bind_inv in H. destruct H as (u' & m3 & _ & H).
  apply bind_inv in H. destruct H as (t & m4 & _ & H).
  inversion H. reflexivity.
Qed.

(** X1.  The bare [except:] of the receive loop: when [recv] raises
    anything that is not a [ValueError] (a closed socket, a timeout, even
    [KeyboardInterrupt]), the iteration runs [_subscribe] again, resets
    [timer], sleeps and goes round with its locals unchanged.  Against a
    network that lets the handshake through, the trace shows the failed
    receive, the whole handshake and the pause; the cache is untouched and
    the object holds the socket of the new session. *)
Theorem receive_failure_rehandshakes :
  forall (sub : nat) (platform : pykey) (l : locals) (m m1 : machine)
         (c : wsconn) (e : exn),
    keepalive E sub m = Ok true m1 ->
    ws (self m1) = Some c ->
    ws_recv_result E (recvs (outside m1)) = RecvRaises e ->
    is_ValueError e = false ->
    fetch_body E sub platform l m =
      (resubscribe E sub ;; ret (Some l))%py (on_world bump_recv m1) /\
    forall rounds reply io,
      cooperative E (outside (on_world bump_recv m1)) rounds reply io ->
      (rounds < sub)%nat ->
      exists m',
        fetch_body E sub platform l m = Ok (Some l) m' /\
        kinds (trace (outside m')) =
          (kinds (trace (outside m1)) ++ [Receive] ++ handshake rounds
           ++ [Pause])%list /\
        _data (self m') = _data (self m) /\
        ws (self m') =
          Some (mkWs ("ws://imhd.sk/rt/sio2/?EIO=3&transport=websocket&sid=" ++ io)).
Proof.
  intros sub platform l m m1 c e Hk Hws Hrecv Hcls.
  pose proof (fetch_body_recv_raises sub platform l m m1 c e Hk Hws Hrecv) as Hb.
  rewrite Hcls in Hb. split; [exact Hb|].
  intros rounds reply io Hcoop Hrounds.
  destruct (subscribe_cooperative E sub (on_world bump_recv m1) rounds reply io
              Hcoop Hrounds)
    as (m' & Hsub & Hkinds & _ & Hdata & _ & _ & Hsock & _ & _).
  rewrite Hb. unfold resubscribe, bind at 1, bind at 1. rewrite Hsub.
  run. eexists. split; [reflexivity|]. simpl.
  split; [|split].
  - unfold kinds in *. rewrite !map_app, Hkinds. simpl.
    rewrite !map_app. unfold handshake. simpl.
    rewrite <- !app_assoc. simpl. now rewrite <- !app_assoc.
  - rewrite Hdata. simpl. now apply (keepalive_true_data E sub).
  - exact Hsock.
Qed.

(** X2.  The [except ValueError] handler formats the local [data], which
    is bound by the first [recv] that returns.  A [recv] that raises a
    [ValueError] (a frame that is not valid UTF-8, say) is skipped once some
    frame has been received; in the first iteration of a [fetch], where
    [data] is still unbound, the handler itself fails and [fetch] raises
    [UnboundLocalError]. *)
Theorem receive_value_error_needs_data :
  forall (sub : nat) (platform : pykey) (l : locals) (m m1 : machine)
         (c : wsconn) (e : exn),
    keepalive E sub m = Ok true m1 ->
    ws (self m1) = Some c ->
    ws_recv_result E (recvs (outside m1)) = RecvRaises e ->
    is_ValueError e = true ->
    (forall raw, data l = Some raw ->
       fetch_body E sub platform l m = Ok (Some l) (on_world bump_recv m1)) /\
    (data l = None ->
       fetch_body E sub platform l m =
       Raise (UnboundLocalError "data") (on_world bump_recv m1)) /\
    (forall fuel m0, fetch_enter E fuel m0 = Ok l m -> 
       forall n, fetch_loop E sub (S n) platform l m =
                 Raise (UnboundLocalError "data") (on_world bump_recv m1)).
Proof.
  intros sub platform l m m1 c e Hk Hws Hrecv Hcls.
  pose proof (fetch_body_recv_raises sub platform l m m1 c e Hk Hws Hrecv) as Hb.
  rewrite Hcls in Hb.
  assert (Hnone : data l = None ->
                  fetch_body E sub platform l m =
                  Raise (UnboundLocalError "data") (on_world bump_recv m1))
    by (intros Hd; now rewrite Hb, Hd).
  split; [|split].
  - intros raw Hd. now rewrite Hb, Hd.
  - exact Hnone.
  - intros fuel m0 Henter n. cbn [fetch_loop]. unfold bind.
    now rewrite (Hnone (fetch_enter_unbound _ _ _ _ Henter)).
Qed.

(** What [accept] does with the second element of a frame, by its
    shape. *)
Lemma accept_shapes platform l table_data m :
  match accept E platform l table_data m with
  | Ok l' m' =>
      (m' = m /\ l' = l) \/
      (exists second batch,
          py_index table_data 1 = inl (PDict second) /\
          kget second (KStr (frame_key (self m) platform)) = Some batch /\
          _data (self m') = kset (_data (self m)) platform batch)
  | Raise e m' =>
      m' = m /\
      (forall second, py_index table_data 1 <> inl (PDict second)) /\
      In e [ IndexError "list index out of range";
             IndexError "string index out of range";
             KeyError; TypeError; AttributeError ]
  | Hang _ | OutOfFuel => False
  end.
Proof.
  destruct (py_index table_data 1) as [second|e] eqn:Hsnd.
  - destruct second as [| | | |s|items|d|];
      try (unfold accept; run; rewrite Hsnd; simpl;
           repeat split; [discriminate|tauto]).
    + unfold accept. run. rewrite Hsnd. run.
      destruct (Str.contains _ s); simpl; [|now left].
      repeat split; [discriminate|tauto].
    + unfold accept. run. rewrite Hsnd. run.
      destruct (existsb _ items); simpl; [|now left].
      repeat split; [discriminate|tauto].
    + rewrite (accept_mapping E platform l table_data d m Hsnd).
      destruct (kget d _) as [batch|] eqn:Hkey; [|now left].
      right. exists d, batch. now repeat split.
  - unfold accept. run. rewrite Hsnd. simpl.
    split; [reflexivity|]. split; [discriminate|].
    destruct table_data as [| | | |s|items|d|]; cbn [py_index] in Hsnd.
    + inversion Hsnd; tauto.
    + inversion Hsnd; tauto.
    + inversion Hsnd; tauto.
    + inversion Hsnd; tauto.
    + destruct (nth_error (Str.chars s) 1); inversion Hsnd; tauto.
    + destruct (nth_error items 1); inversion Hsnd; tauto.
    + destruct (kget d _); inversion Hsnd; tauto.
    + inversion Hsnd; tauto.
Qed.

(** X3.  A frame that parses, received in time, whatever JSON value it
    is.  The iteration never ends the call and never blocks.  It changes
    the cache only when the frame's second element is a mapping that has
    the watched key, and then to the value under that key.  It raises to
    the caller of [fetch] only when the second element is missing or is not
    a mapping ([IndexError], [KeyError], [TypeError], or [AttributeError]
    for a list or a string that holds the key), and the cache is then as it
    was. *)
Theorem fetch_caches_only_keyed_mapping :
  forall (sub : nat) (platform : pykey) (l : locals) (m m1 : machine)
         (c : wsconn) (raw : string) (table_data : pyval),
    keepalive E sub m = Ok true m1 ->
    ws (self m1) = Some c ->
    ws_recv_result E (recvs (outside m1)) = Frame raw ->
    json_loads E (Str.drop 2 raw) = Some table_data ->
    Qgtb (clock E (ticks (outside m1)) - response_timer l) 3 = false ->
    match fetch_body E sub platform l m with
    | Ok (Some l') m' =>
        (_data (self m') = _data (self m) /\
         response_timer l' = response_timer l) \/
        (exists second batch,
            py_index table_data 1 = inl (PDict second) /\
            kget second (KStr (frame_key (self m) platform)) = Some batch /\
            _data (self m') = kset (_data (self m)) platform batch)
    | Raise e m' =>
        _data (self m') = _data (self m) /\
        (forall second, py_index table_data 1 <> inl (PDict second)) /\
        In e [ IndexError "list index out of range";
               IndexError "string index out of range";
               KeyError; TypeError; AttributeError ]
    | Ok None _ | Hang _ | OutOfFuel => False
    end.
Proof.
  intros sub platform l m m1 c raw table_data Hk Hws Hrecv Hjson Hsoon.
  rewrite (fetch_body_received E sub platform l m m1 c raw Hk Hws Hrecv), Hjson.
  pose proof (keepalive_true_data _ _ _ _ Hk) as Hdata.
  pose proof (keepalive_true_busstopid _ _ _ _ Hk) as Hid.
  unfold bind at 1, time_time at 1. cbn [outside on_world ticks bump_recv].
  rewrite Hsoon. unfold bind at 1.
  match goal with
  | |- context [accept E platform ?l0 table_data ?st] =>
      pose proof (accept_shapes platform l0 table_data st) as Ha;
      destruct (accept E platform l0 table_data st) as [l' m'|e m'|m'|]
  end; try contradiction.
  - cbn [ret]. destruct Ha as [[-> ->]|(second & batch & Hsnd & Hkey & Hset)].
    + left. now split.
    + right. exists second, batch. split; [exact Hsnd|].
      unfold frame_key in *. cbn [self on_world] in Hkey, Hset.
      rewrite Hid in Hkey. rewrite Hdata in Hset. now split.
  - destruct Ha as (-> & Hshape & Hin). now split.
Qed.

(** X4.  A handshake that fails once the websocket has been opened (the
    probe is refused, the acknowledgment does not come) has assigned
    [self.ws] but not [self.timer].  [fetch] raises the failure to its
    caller, and from then on the object is of no use: every later [fetch]
    finds [ws] set, skips the handshake, and raises [AttributeError] at the
    first keepalive test, having sent and received nothing. *)
Theorem failed_handshake_leaves_object_unusable :
  forall (fuel : nat) (platform : pykey) (m : machine) (e : exn) (m1 : machine),
    ws (self m) = None ->
    timer (self m) = None ->
    _subscribe E fuel m = Raise e m1 ->
    ws (self m1) <> None ->
    fetch E fuel platform m = Raise e m1 /\
    forall fuel' platform',
      fetch E (S fuel') platform' m1 =
      Raise AttributeError
            (on_world bump_tick
               (on_world bump_tick (on_world (log_sleep 3) m1))).
Proof.
  intros fuel platform m e m1 Hws Htimer Hsub Hsock.
  split.
  - unfold fetch, fetch_enter. run. rewrite Hws. unfold bind. now rewrite Hsub.
  - intros fuel' platform'.
    pose proof (subscribe_keeps E fuel m) as Hkeep. rewrite Hsub in Hkeep.
    destruct Hkeep as (_ & Ht & _). rewrite Htimer in Ht.
    destruct (ws (self m1)) as [c|] eqn:Hc; [|contradiction].
    unfold fetch, fetch_enter. run. rewrite Hc. run.
    unfold fetch_body, keepalive. run. now rewrite Ht.
Qed.

End Receive.

(** The socket of the day is dropped right after the handshake: the
    iteration subscribes again, in two polling rounds, and goes on with the
    socket of session "def". *)
Lemma receive_failure_rehandshakes_witness :
  exists m',
    fetch_body (dropped WebSocketConnectionClosedException) 5 (KInt 1)
      (mkLocals None 1005)
      (dropped_entered WebSocketConnectionClosedException)
    = Ok (Some (mkLocals None 1005)) m' /\
    kinds (trace (outside m')) =
      (kinds (trace (outside
                (on_world bump_tick
                   (dropped_entered WebSocketConnectionClosedException))))
       ++ [Receive] ++ handshake 1 ++ [Pause])%list /\
    _data (self m') =
      _data (self (dropped_entered WebSocketConnectionClosedException)) /\
    ws (self m') =
      Some (mkWs ("ws://imhd.sk/rt/sio2/?EIO=3&transport=websocket&sid=" ++ "def")).
Proof.
  destruct (receive_failure_rehandshakes
              (dropped WebSocketConnectionClosedException) 5 (KInt 1)
              (mkLocals None 1005)
              (dropped_entered WebSocketConnectionClosedException)
              (on_world bump_tick
                 (dropped_entered WebSocketConnectionClosedException))
              (mkWs "ws://imhd.sk/rt/sio2/?EIO=3&transport=websocket&sid=abc")
              WebSocketConnectionClosedException)
    as [_ H]; [vm_compute; reflexivity ..|].
  apply (H 1%nat (fun j => nth (5 + j) day_replies no_reply) "def"); [|lia].
  constructor; try (vm_compute; reflexivity).
  - intros i Hi. assert (i = 0)%nat as -> by lia. vm_compute. reflexivity.
  - discriminate.
  - exists "3probe". vm_compute. reflexivity.
Defined.

(** The first frame of the day cannot be decoded: the first iteration of
    the first [fetch] raises [UnboundLocalError]. *)
Lemma receive_value_error_needs_data_witness :
  fetch_body (dropped UnicodeDecodeError) 5 (KInt 1) (mkLocals None 1005)
    (dropped_entered UnicodeDecodeError)
  = Raise (UnboundLocalError "data")
      (on_world bump_recv (on_world bump_tick (dropped_entered UnicodeDecodeError))).
Proof.
  destruct (receive_value_error_needs_data
              (dropped UnicodeDecodeError) 5 (KInt 1) (mkLocals None 1005)
              (dropped_entered UnicodeDecodeError)
              (on_world bump_tick (dropped_entered UnicodeDecodeError))
              (mkWs "ws://imhd.sk/rt/sio2/?EIO=3&transport=websocket&sid=abc")
              UnicodeDecodeError)
    as (_ & H & _); [vm_compute; reflexivity ..|].
  apply H. reflexivity.
Defined.

(** A frame with a single element: [table_data[1]] raises [IndexError]. *)
Lemma fetch_caches_only_keyed_mapping_witness :
  match fetch_body (shapeless short_text) 5 (KInt 1) (mkLocals None 1005)
          (shapeless_entered short_text) with
  | Ok (Some l') m' =>
      (_data (self m') = _data (self (shapeless_entered short_text)) /\
       response_timer l' = 1005%Q) \/
      (exists second batch,
          py_index (PList [PStr "tab"]) 1 = inl (PDict second) /\
          kget second
            (KStr (frame_key (self (shapeless_entered short_text)) (KInt 1)))
          = Some batch /\
          _data (self m') =
            kset (_data (self (shapeless_entered short_text))) (KInt 1) batch)
  | Raise e m' =>
      _data (self m') = _data (self (shapeless_entered short_text)) /\
      (forall second, py_index (PList [PStr "tab"]) 1 <> inl (PDict second)) /\
      In e [ IndexError "list index out of range";
             IndexError "string index out of range";
             KeyError; TypeError; AttributeError ]
  | Ok None _ | Hang _ | OutOfFuel => False
  end.
Proof.
  apply (fetch_caches_only_keyed_mapping (shapeless short_text) 5 (KInt 1)
           (mkLocals None 1005) (shapeless_entered short_text)
           (on_world bump_tick (shapeless_entered short_text))
           (mkWs "ws://imhd.sk/rt/sio2/?EIO=3&transport=websocket&sid=abc")
           ("42" ++ short_text) (PList [PStr "tab"]));
    vm_compute; reflexivity.
Defined.

(** The two shapes at work: the short frame raises [IndexError], the frame
    whose second element is a list holding "7.1" raises [AttributeError]. *)
Example fetch_shapeless_frames :
  (exists m', fetch (shapeless short_text) 5 (KInt 1)
                (boot (shapeless short_text) (PInt 7))
              = Raise (IndexError "list index out of range") m') /\
  (exists m', fetch (shapeless listed_text) 5 (KInt 1)
                (boot (shapeless listed_text) (PInt 7))
              = Raise AttributeError m').
Proof. split; eexists; vm_compute; reflexivity. Qed.

(** The probe is refused: the first [fetch] raises [BrokenPipeError], the
    second [AttributeError]. *)
Lemma failed_handshake_leaves_object_unusable_witness :
  fetch probe_refused 5 (KInt 1) (boot probe_refused (PInt 7)) =
    Raise BrokenPipeError
      (final (_subscribe probe_refused 5 (boot probe_refused (PInt 7))) blank) /\
  forall fuel' platform',
    fetch probe_refused (S fuel') platform'
      (final (_subscribe probe_refused 5 (boot probe_refused (PInt 7))) blank) =
    Raise AttributeError
      (on_world bump_tick
         (on_world bump_tick
            (on_world (log_sleep 3)
               (final (_subscribe probe_refused 5 (boot probe_refused (PInt 7)))
                      blank)))).
Proof.
  apply (failed_handshake_leaves_object_unusable probe_refused 5 (KInt 1)
           (boot probe_refused (PInt 7)) BrokenPipeError
           (final (_subscribe probe_refused 5 (boot probe_refused (PInt 7))) blank));
    try (vm_compute; reflexivity).
  vm_compute. discriminate.
Defined.

(* ------------------------------------------------------------------ *)
(** ** More on record extraction *)







Section MoreExtraction.

Variable E : Env.





(** The positions [matching] lists are those of the records whose route is
    a string among [conn]. *)
Lemma matching_spec conn :
  forall tab offset i,
    In i (matching conn tab offset) <->
    (offset <= i < offset + length tab)%nat /\
    exists s, linka_of (nth (i - offset) tab PNone) = PStr s /\ In s conn.
Proof.
  assert (Hstr : forall x, in_strings x conn = true <->
                           exists s, x = PStr s /\ In s conn).
  { intros x. unfold in_strings. split.
    - destruct x; try discriminate. intros H.
      apply existsb_exists in H. destruct H as (s' & Hin & Heq).
      apply String.eqb_eq in Heq. subst s'. now exists s.
    - intros (s & -> & Hin). apply existsb_exists. exists s.
      split; [exact Hin|apply String.eqb_refl]. }
  induction tab as [|x tab IH]; intros offset i.
  - simpl. split; [tauto|]. intros [H _]. lia.
  - cbn [matching length].
    assert (Hhere : i = offset -> nth (i - offset) (x :: tab) PNone = x)
      by (intros ->; now rewrite Nat.sub_diag).
    assert (Hthere : (offset < i)%nat ->
                     nth (i - offset) (x :: tab) PNone = nth (i - S offset) tab PNone).
    { intros Hlt. replace (i - offset)%nat with (S (i - S offset)) by lia.
      reflexivity. }
    destruct (in_strings (linka_of x) conn) eqn:Hx.
    + cbn [In]. rewrite IH. split.
      * intros [<-|[Hr (s & Hs & Hin)]].
        -- split; [lia|]. rewrite Hhere by reflexivity. now apply Hstr.
        -- split; [lia|]. rewrite Hthere by lia. now exists s.
      * intros [Hr (s & Hs & Hin)].
        destruct (Nat.eq_dec offset i) as [Heq|Hne]; [now left|right].
        split; [lia|]. rewrite Hthere in Hs by lia. now exists s.
    + rewrite IH. split.
      * intros [Hr (s & Hs & Hin)]. split; [lia|].
        rewrite Hthere by lia. now exists s.
      * intros [Hr (s & Hs & Hin)].
        destruct (Nat.eq_dec offset i) as [Heq|Hne].
        -- subst i. rewrite Hhere in Hs by reflexivity.
           assert (in_strings (linka_of x) conn = true)
             by (apply Hstr; now exists s).
           congruence.
        -- split; [lia|]. rewrite Hthere in Hs by lia. now exists s.
Qed.

(** The positions [get_data] returns, whatever the batch and the options. *)
Lemma get_data_refs fuel platform conn rn m refs m' :
  get_data E fuel platform conn false rn m = Ok refs m' ->
  refs = matching (routes E conn) (records_of (self m) platform) 0.
Proof.
  intros Hrun.
  unfold get_data in Hrun. cbn [bind ret] in Hrun.
  unfold bind at 1, ret at 1, bind at 1, get_self in Hrun.
  destruct (kget (_data (self m)) platform) as [cached|] eqn:Hc; [|discriminate].
  destruct (py_item cached "tab") as [tab|e] eqn:Htab; [|discriminate].
  unfold of_result, ret at 1 in Hrun.
  destruct cached as [| | | | | |b|]; try discriminate.
  unfold py_item in Htab.
  destruct (kget b (KStr "tab")) as [tab0|] eqn:Hb; [|discriminate].
  inversion Htab. subst tab0. clear Htab.
  unfold records_of. rewrite Hc, Hb.
  destruct tab as [| | | |s|l|d|]; try discriminate.
  - destruct s; [|discriminate]. now inversion Hrun.
  - destruct (visit_inv E platform (routes E conn) rn l [] [] m b refs m' Hc Hb Hrun)
      as (todo' & _ & Hrefs & _).
    exact Hrefs.
  - destruct d; [|discriminate]. now inversion Hrun.
Qed.

(** X7.  Which records [get_data] returns, whatever the batch and with
    or without name resolution: exactly those whose route is a {e string}
    equal to [str()] of one of the requested values.  The requested
    routes are coerced to strings, the routes of the records are not: a
    record whose route is a JSON number is never returned, not even to a
    caller who asks for that number. *)
Theorem get_data_returns_string_routes :
  forall (fuel : nat) (platform : pykey) (conn : pyval) (resolve_names : bool)
         (m : machine) (refs : list nat) (m' : machine),
    get_data E fuel platform conn false resolve_names m = Ok refs m' ->
    (forall i,
        In i refs <->
        (i < length (records_of (self m) platform))%nat /\
        exists s,
          linka_of (nth i (records_of (self m) platform) PNone) = PStr s /\
          In s (routes E conn)) /\
    (forall i z,
        linka_of (nth i (records_of (self m) platform) PNone) = PInt z ->
        ~ In i refs) /\
    (forall z, conn = PInt z -> routes E conn = [Str.of_Z z]).
Proof.
  intros fuel platform conn rn m refs m' Hrun.
  rewrite (get_data_refs _ _ _ _ _ _ _ Hrun).
  assert (Hspec : forall i,
             In i (matching (routes E conn) (records_of (self m) platform) 0) <->
             (i < length (records_of (self m) platform))%nat /\
             exists s,
               linka_of (nth i (records_of (self m) platform) PNone) = PStr s /\
               In s (routes E conn)).
  { intros i. rewrite matching_spec, Nat.sub_0_r. simpl.
    split; intros [H1 H2]; (split; [lia|exact H2]). }
  split; [exact Hspec|]. split.
  - intros i z Hz Hin. apply Hspec in Hin. destruct Hin as [_ (s & Hs & _)].
    congruence.
  - intros z ->. reflexivity.
Qed.

End MoreExtraction.



(** Asked for 201, the batch whose second record has the number 201 for
    its route gives the first record only. *)
Lemma get_data_returns_string_routes_witness :
  (forall i,
      In i [0%nat] <->
      (i < length (records_of (self (stocked numbered)) (KInt 1)))%nat /\
      exists s,
        linka_of (nth i (records_of (self (stocked numbered)) (KInt 1)) PNone)
        = PStr s /\
        In s (routes quiet (PInt 201))) /\
  (forall i z,
      linka_of (nth i (records_of (self (stocked numbered)) (KInt 1)) PNone)
      = PInt z ->
      ~ In i [0%nat]) /\
  (forall z, PInt 201 = PInt z -> routes quiet (PInt 201) = [Str.of_Z z]).
Proof.
  apply (get_data_returns_string_routes quiet 5 (KInt 1) (PInt 201) false
           (stocked numbered) [0%nat]
           (final (get_data quiet 5 (KInt 1) (PInt 201) false false
                     (stocked numbered)) blank)).
  reflexivity.
Defined.

(* ------------------------------------------------------------------ *)
(** ** Computations that end *)

Lemma ends_ret {A} (a : A) : ends (ret a).
Proof. intros m. exact I. Qed.

Lemma ends_raise {A} e : ends (@raise A e).
Proof. intros m. exact I. Qed.

Lemma ends_bind {A B} (c : M A) (k : A -> M B) :
  ends c -> (forall a, ends (k a)) -> ends (bind c k).
Proof.
  intros Hc Hk m. unfold bind. specialize (Hc m).
  destruct (c m) as [a m1|e m1|m1|]; auto. apply Hk.
Qed.

Lemma ends_attempt {A} (c : M A) : ends c -> ends (attempt c).
Proof. intros Hc m. unfold attempt. specialize (Hc m). destruct (c m); auto. Qed.

Lemma ends_of_result {A} (x : A + exn) : ends (of_result x).
Proof. destruct x; [apply ends_ret|apply ends_raise]. Qed.

Lemma ends_get_self : ends get_self.
Proof. intros m. exact I. Qed.

Lemma ends_modify f : ends (modify_self f).
Proof. intros m. exact I. Qed.

Lemma ends_time_time E : ends (time_time E).
Proof. intros m. exact I. Qed.

Lemma ends_time_sleep n : ends (time_sleep n).
Proof. intros m. exact I. Qed.

Lemma ends_requests_get E url params hs jar :
  ends (requests_get E url params hs jar).
Proof.
  intros m. unfold requests_get, requests_call. now destruct (http E _ _).
Qed.

Ltac ends_step :=
  match goal with
  | |- ends (bind _ _) => apply ends_bind; [|intro]
  | |- ends (ret _) => apply ends_ret
  | |- ends (raise _) => apply ends_raise
  | |- ends (attempt _) => apply ends_attempt
  | |- ends (of_result _) => apply ends_of_result
  | |- ends get_self => apply ends_get_self
  | |- ends (modify_self _) => apply ends_modify
  | |- ends (time_time _) => apply ends_time_time
  | |- ends (time_sleep _) => apply ends_time_sleep
  | |- ends (requests_get _ _ _ _ _) => apply ends_requests_get
  | |- ends (match ?x with _ => _ end) => destruct x
  end.
Ltac ends_all := repeat ends_step.

Section Ends.

Variable E : Env.


Lemma busstop2id_ends busstop : ends (busstop2id E busstop).
Proof. unfold busstop2id. cbv zeta. ends_all. Qed.





(** X9.  However the handshake ends (completed, failed at any step, or
    blocked waiting for the probe's acknowledgment), it has touched
    neither the cache nor [timer] nor the stop id: the only attributes it
    assigns are [headers], [r] and [ws]. *)
Theorem subscribe_leaves_cache_and_timer :
  forall (fuel : nat) (m : machine),
    match _subscribe E fuel m with
    | Ok _ m' | Raise _ m' | Hang m' =>
        _data (self m') = _data (self m) /\
        timer (self m') = timer (self m) /\
        busstopid (self m') = busstopid (self m) /\
        _urlbase (self m') = _urlbase (self m)
    | OutOfFuel => True
    end.
Proof.
  intros fuel m. pose proof (subscribe_keeps E fuel m) as H.
  destruct (_subscribe E fuel m); try exact I;
    destruct H as (H1 & H2 & H3 & H4 & _); now repeat split.
Qed.

(** X10.  [fetch(platform)] writes to the cache entry of [platform] only.
    However the call ends (it returns, raises, or blocks in [recv]), and
    however many frames and handshakes it went through, the entries of all
    other platforms are what they were, and so is the stop id. *)
Theorem fetch_keeps_other_platforms :
  forall (fuel : nat) (platform : pykey) (m : machine),
    match fetch E fuel platform m with
    | Ok _ m' | Raise _ m' | Hang m' =>
        busstopid (self m') = busstopid (self m) /\
        forall p, p <> platform ->
                  kget (_data (self m')) p = kget (_data (self m)) p
    | OutOfFuel => True
    end.
Proof. intros fuel platform m. apply (fetch_keeps_others E fuel platform m). Qed.

(** X11.  [get_data(platform, ...)], with any options (forced update,
    name resolution), changes nothing of the cache but the entry of
    [platform], however it ends. *)
Theorem get_data_keeps_other_platforms :
  forall (fuel : nat) (platform : pykey) (conn : pyval)
         (force_update resolve_names : bool) (m : machine),
    match get_data E fuel platform conn force_update resolve_names m with
    | Ok _ m' | Raise _ m' | Hang m' =>
        busstopid (self m') = busstopid (self m) /\
        forall p, p <> platform ->
                  kget (_data (self m')) p = kget (_data (self m)) p
    | OutOfFuel => True
    end.
Proof.
  intros fuel platform conn fu rn m.
  apply (get_data_keeps_others E fuel platform conn fu rn m).
Qed.


End Ends.


(* ------------------------------------------------------------------ *)
(** ** The lookups of the module *)

Lemma keys_kset d k v k0 :
  In k0 (Dict.keys (kset d k v)) -> k0 = k \/ In k0 (Dict.keys d).
Proof.
  unfold kset, Dict.keys. induction d as [|[k1 v1] d IH]; simpl.
  - intros [H|[]]. now left.
  - destruct (key_eqb k1 k) eqn:Hk; simpl.
    + intros [H|H]; right; [now left|now right].
    + intros [H|H]; [right; now left|].
      destruct (IH H) as [H'|H']; [now left|right; now right].
Qed.

Lemma int_keys_spec :
  forall sn acc names,
    int_keys sn acc = inl names ->
    (forall z, kget names (KInt z) =
               match last_named sn z with
               | Some v => Some v
               | None => kget acc (KInt z)
               end) /\
    (forall k, In k (Dict.keys names) ->
               In k (Dict.keys acc) \/ exists z, k = KInt z).
Proof.
  induction sn as [|[x y] sn IH]; intros acc names H.
  - inversion H. subst. split; [reflexivity|]. intros k Hk. now left.
  - cbn [int_keys] in H.
    destruct (key_int x) as [z'|e] eqn:Hx; [|discriminate].
    destruct (IH _ _ H) as [Hget Hkeys]. split.
    + intros z. rewrite Hget. cbn [last_named]. rewrite Hx.
      destruct (last_named sn z); [reflexivity|].
      destruct (Z.eqb z' z) eqn:Hz.
      * apply Z.eqb_eq in Hz. subst z'. apply kget_kset_same.
      * apply kget_kset_other. simpl. exact Hz.
    + intros k Hk. destruct (Hkeys k Hk) as [Hin|Hz]; [|now right].
      destruct (keys_kset _ _ _ _ Hin) as [->|Hin']; [right; now exists z'|now left].
Qed.

Lemma int_keys_error :
  forall sn acc e, int_keys sn acc = inr e -> e = ValueError.
Proof.
  induction sn as [|[x y] sn IH]; intros acc e H; [discriminate|].
  cbn [int_keys] in H.
  destruct (key_int x) as [z'|e'] eqn:Hx.
  - now apply IH with (kset acc (KInt z') y).
  - inversion H. subst e'. destruct x; simpl in Hx; [discriminate|].
    destruct (Str.to_Z s); now inversion Hx.
Qed.

Lemma ids_rendered E l :
  map (py_str E) (map (fun x => PStr (py_str E x)) l) = map (py_str E) l.
Proof. rewrite map_map. apply map_ext. reflexivity. Qed.

Section Lookups.

Variable E : Env.

(** [destid2destname] up to the answer of the name service. *)
Lemma destid2destname_unfold id m :
  destid2destname E id m =
  (r <- requests_get E "http://imhd.sk/ba/api/sk/cp"
          [("op", "gsn"); ("id", Str.join "," (map (py_str E) (ids_of id)));
           ("t", strftime_s (clock E (ticks (outside m))))] [] [] ;;
   match json_loads E (text r) with
   | None => raise ValueError
   | Some doc =>
       sn <- of_result (py_item doc "sn") ;;
       match sn with
       | PDict d => names <- of_result (int_keys d []) ;; ret (PDict names)
       | _ => raise AttributeError
       end
   end)%py (on_world bump_tick m).
Proof.
  unfold destid2destname. cbv zeta.
  assert (Hids : map (py_str E)
                   match id with
                   | PList l => map (fun x => PStr (py_str E x)) l
                   | _ => [id]
                   end = map (py_str E) (ids_of id)).
  { destruct id; try reflexivity. apply ids_rendered. }
  rewrite Hids. reflexivity.
Qed.

(** X13.  What [destid2destname] returns.  When the call returns, the
    name service has answered the one request for the comma-joined ids with
    a document whose ["sn"] member is an object; the result holds, under
    each int, the name the {e last} key of that object reading as this
    int comes with (["5"] and ["05"] are the same id), and it has no key
    that is not an int. *)
Theorem destid2destname_maps_int_keys :
  forall (id : pyval) (m : machine) (val : pyval) (m' : machine),
    destid2destname E id m = Ok val m' ->
    exists resp sn names,
      http E (requests_made (outside m))
        (name_request (Str.join "," (map (py_str E) (ids_of id)))
                      (clock E (ticks (outside m)))) = Responded resp /\
      (exists doc, json_loads E (text resp) = Some doc /\
                   py_item doc "sn" = inl (PDict sn)) /\
      val = PDict names /\
      (forall z, kget names (KInt z) = last_named sn z) /\
      (forall k, In k (Dict.keys names) -> exists z, k = KInt z).
Proof.
  intros id m val m'. rewrite destid2destname_unfold.
  unfold bind at 1, requests_get, requests_call.
  cbn [outside on_world requests_made bump_tick].
  fold (name_request (Str.join "," (map (py_str E) (ids_of id)))
                     (clock E (ticks (outside m)))).
  destruct (http E (requests_made (outside m)) _) as [resp|e]; [|discriminate].
  destruct (json_loads E (text resp)) as [doc|] eqn:Hdoc; [|discriminate].
  unfold bind at 1.
  destruct (py_item doc "sn") as [sn|e] eqn:Hsn; [|discriminate].
  cbn [of_result ret].
  destruct sn as [| | | | | |d|]; try discriminate.
  unfold bind at 1.
  destruct (int_keys d []) as [names|e] eqn:Hnames; [|discriminate].
  cbn [of_result ret]. intros H. inversion H. subst val.
  destruct (int_keys_spec _ _ _ Hnames) as [Hget Hkeys].
  exists resp, d, names. split; [reflexivity|].
  split; [now exists doc|]. split; [reflexivity|]. split.
  - intros z. rewrite Hget. now destruct (last_named d z).
  - intros k Hk. destruct (Hkeys k Hk) as [[]|Hz]. exact Hz.
Qed.


(** X15.  The two versions of [destid2destname].  On a list of ids they
    are the same function.  On anything else the older one raises
    [TypeError] at once (no request goes out), while the current one does
    what it does for the one-element list of that value. *)
Theorem destid2destname_versions :
  forall (id : pyval) (m : machine),
    match id with
    | PList _ => Old.destid2destname E id m = destid2destname E id m
    | _ =>
        Old.destid2destname E id m = Raise TypeError m /\
        destid2destname E id m = destid2destname E (PList [id]) m
    end.
Proof.
  intros id m.
  destruct id;
    try (split; [reflexivity|]; now rewrite !destid2destname_unfold).
  rewrite destid2destname_unfold. reflexivity.
Qed.

(** X16.  The two versions of [busstop2id].  The current one is the older
    one, run where the global [query] is bound to the name, followed by
    [int()] of the text it returns: same request, same exceptions, and in
    addition [ValueError] when the [z] parameter is not a number. *)
Theorem busstop2id_is_int_of_old :
  forall (query : string) (busstop : pyval) (m : machine),
    busstop2id E query m =
    (g <- Old.busstop2id E (Old.main_globals query) busstop ;;
     of_result (py_int (PStr g)))%py m.
Proof.
  intros query busstop m.
  unfold Old.busstop2id.
  change (sget (Old.main_globals query) "query") with (Some (PStr query)).
  unfold busstop2id, bind, attempt, requests_get, requests_call.
  destruct (http E (requests_made (outside m)) _) as [resp|e]; [|reflexivity].
  destruct (html_select E (text resp)) as [|tag rest];
    cbn [first of_result ret raise is_IndexError]; [reflexivity|].
  unfold attr. destruct (sget tag "href") as [link|];
    cbn [of_result ret raise is_IndexError]; [|reflexivity].
  destruct (z_group link); reflexivity.
Qed.

End Lookups.

(** The name service lists stop 5 as "5" and as "05": the later entry
    wins, and the result has the two keys 5 and 6. *)
Lemma destid2destname_maps_int_keys_witness :
  exists resp sn names,
    http two_spellings (requests_made (outside blank))
      (name_request (Str.join "," (map (py_str two_spellings)
                                       (ids_of (PList [PInt 5; PInt 6]))))
                    (clock two_spellings (ticks (outside blank))))
    = Responded resp /\
    (exists doc, json_loads two_spellings (text resp) = Some doc /\
                 py_item doc "sn" = inl (PDict sn)) /\
    PDict [(KInt 5, PStr "Hl. st."); (KInt 6, PStr "Patronka")] = PDict names /\
    (forall z, kget names (KInt z) = last_named sn z) /\
    (forall k, In k (Dict.keys names) -> exists z, k = KInt z).
Proof.
  apply (destid2destname_maps_int_keys two_spellings (PList [PInt 5; PInt 6])
           blank (PDict [(KInt 5, PStr "Hl. st."); (KInt 6, PStr "Patronka")])
           (final (destid2destname two_spellings (PList [PInt 5; PInt 6]) blank)
                  blank)).
  vm_compute. reflexivity.
Defined.

(* ------------------------------------------------------------------ *)
(** ** What the pattern of [busstop2id] can match *)

Lemma star_sound ok g k :
  forall s cap,
    Re.star ok g k s = Some cap ->
    exists run rest cap',
      s = run ++ rest /\
      (forall c, Str.mem c run = true -> ok c = true) /\
      k rest = Some cap' /\
      cap = if g then run ++ cap' else cap'.
Proof.
  assert (Hstop : forall s cap, k s = Some cap ->
            exists run rest cap',
              s = run ++ rest /\
              (forall c, Str.mem c run = true -> ok c = true) /\
              k rest = Some cap' /\
              cap = if g then run ++ cap' else cap').
  { intros s cap H. exists "", s, cap. split; [reflexivity|].
    split; [discriminate|]. split; [exact H|]. now destruct g. }
  induction s as [|a s IH]; intros cap H; cbn [Re.star] in H.
  - now apply Hstop.
  - destruct (ok a) eqn:Hok; [|now apply Hstop].
    destruct (Re.star ok g k s) as [cap0|]; [|now apply Hstop].
    inversion H. subst cap. clear H.
    destruct (IH cap0 eq_refl) as (run & rest & cap' & -> & Hrun & Hk & ->).
    exists (String a run), rest, cap'. split; [reflexivity|]. split.
    + intros c Hc. cbn [Str.mem] in Hc. apply orb_true_iff in Hc.
      destruct Hc as [Hc|Hc]; [|now apply Hrun].
      apply Ascii.eqb_eq in Hc. now subst c.
    + split; [exact Hk|]. unfold Re.keep. now destruct g.
Qed.

Lemma not_amp_run run :
  (forall c, Str.mem c run = true -> Re.atom_ok (Re.Not "&") c = true) ->
  Str.mem "&" run = false.
Proof.
  intros H. destruct (Str.mem "&" run) eqn:Hm; [|reflexivity].
  specialize (H _ Hm). discriminate.
Qed.

Lemma tail_sound s v :
  Re.match_here tail_pattern s = Some v ->
  exists post,
    s = "z=" ++ v ++ "&" ++ post /\ v <> "" /\ Str.mem "&" v = false.
Proof.
  unfold tail_pattern. cbn [tl z_pattern].
  cbn [Re.match_here Re.p_quant Re.p_atom Re.p_group Re.atom_ok].
  destruct s as [|a s]; [discriminate|].
  destruct (Ascii.eqb a "z") eqn:Ha; [|discriminate].
  apply Ascii.eqb_eq in Ha. subst a.
  destruct s as [|b s]; [discriminate|].
  destruct (Ascii.eqb b "=") eqn:Hb; [|discriminate].
  apply Ascii.eqb_eq in Hb. subst b.
  destruct s as [|c s]; [discriminate|].
  destruct (Ascii.eqb c "&") eqn:Hc; [discriminate|].
  cbn [negb option_map Re.keep].
  destruct (Re.star _ true _ s) as [cap|] eqn:Hstar; [|discriminate].
  cbn [option_map Re.keep]. intros H. inversion H. subst v. clear H.
  apply star_sound in Hstar.
  destruct Hstar as (run & rest & cap' & -> & Hrun & Hk & ->).
  destruct rest as [|d rest]; [discriminate|].
  destruct (Ascii.eqb d "&") eqn:Hd; [|discriminate].
  apply Ascii.eqb_eq in Hd. subst d.
  rewrite star_end in Hk. cbn [option_map Re.keep] in Hk. inversion Hk. subst cap'.
  exists rest. rewrite append_nil_r.
  split; [reflexivity|]. split; [discriminate|].
  cbn [Str.mem]. rewrite Hc. cbn [orb]. now apply not_amp_run.
Qed.

Lemma search_sound :
  forall s v,
    Re.search z_pattern s = Some v ->
    exists pre post,
      s = pre ++ "z=" ++ v ++ "&" ++ post /\ v <> "" /\ Str.mem "&" v = false.
Proof.
  assert (Hhere : forall s v,
             Re.match_here z_pattern s = Some v ->
             exists pre post,
               s = pre ++ "z=" ++ v ++ "&" ++ post /\ v <> "" /\
               Str.mem "&" v = false).
  { intros s v H.
    change (Re.match_here z_pattern)
      with (Re.star (Re.atom_ok Re.Any) false (Re.match_here tail_pattern)) in H.
    apply star_sound in H.
    destruct H as (run & rest & cap' & -> & _ & Hk & ->).
    destruct (tail_sound _ _ Hk) as (post & -> & Hne & Hamp).
    now exists run, post. }
  induction s as [|a s IH]; intros v H; cbn [Re.search] in H.
  - destruct (Re.match_here z_pattern "") eqn:Hm; [|discriminate].
    inversion H. subst. now apply Hhere.
  - destruct (Re.match_here z_pattern (String a s)) eqn:Hm.
    + inversion H. subst. now apply Hhere.
    + destruct (IH v H) as (pre & post & -> & Hne & Hamp).
      now exists (String a pre), post.
Qed.

Section SearchMore.

Variable E : Env.

(** X17.  What [busstop2id] returns.  Whenever the call returns a number,
    the search page was fetched, the selector found at least one anchor, and
    the [href] of the first one contains [z=<g>&] where [<g>] is not empty,
    holds no [&], and reads as that number under [int()] (so ["007"] gives
    7).  A link whose [z] parameter comes last, with no [&] after it, never
    yields an id. *)
Theorem busstop2id_returns_embedded_number :
  forall (busstop : string) (m : machine) (id : Z) (m' : machine),
    busstop2id E busstop m = Ok id m' ->
    exists resp tag rest pre g post,
      http E (requests_made (outside m)) (search_request busstop)
      = Responded resp /\
      html_select E (text resp) = tag :: rest /\
      sget tag "href" = Some (pre ++ "z=" ++ g ++ "&" ++ post) /\
      g <> "" /\ Str.mem "&" g = false /\
      Str.to_Z g = Some id.
Proof.
  intros busstop m id m'.
  unfold busstop2id, bind, attempt, requests_get, requests_call.
  fold (search_request busstop).
  destruct (http E (requests_made (outside m)) _) as [resp|e]; [|discriminate].
  destruct (html_select E (text resp)) as [|tag rest] eqn:Hsel;
    cbn [first of_result ret raise is_IndexError]; [discriminate|].
  unfold attr. destruct (sget tag "href") as [link|] eqn:Hhref;
    cbn [of_result ret raise is_IndexError]; [|discriminate].
  unfold z_group.
  destruct (Re.search z_pattern link) as [g|] eqn:Hg;
    cbn [of_result ret raise]; [|discriminate].
  cbn [py_int]. destruct (Str.to_Z g) as [z|] eqn:Hz;
    cbn [of_result ret raise]; [|discriminate].
  intros H. inversion H. subst z.
  destruct (search_sound _ _ Hg) as (pre & post & -> & Hne & Hamp).
  exists resp, tag, rest, pre, g, post. now repeat split.
Qed.

(** X18.  How [busstop2id] fails once the search page has been fetched.
    [NoMatch] is raised when, and only when, the selector finds no anchor:
    the [except] clause catches [IndexError] alone.  A first anchor without
    [href] gives [KeyError], a link the pattern does not match gives
    [AttributeError] ([None] has no [group]), and a [z] value that is not a
    number gives [ValueError]; none of them is turned into [NoMatch]. *)
Theorem busstop2id_failures :
  forall (busstop : string) (m : machine) (resp : response) (e : exn)
         (m' : machine),
    http E (requests_made (outside m)) (search_request busstop)
    = Responded resp ->
    busstop2id E busstop m = Raise e m' ->
    match html_select E (text resp) with
    | [] =>
        e = NoMatch ("Multiple matches for string or invalid name? "
                     ++ "list index out of range")
    | tag :: _ =>
        match sget tag "href" with
        | None => e = KeyError
        | Some link =>
            match z_group link with
            | inr _ => e = AttributeError
            | inl g => e = ValueError /\ Str.to_Z g = None
            end
        end
    end.
Proof.
  intros busstop m resp e m' Hhttp.
  unfold busstop2id, bind, attempt, requests_get, requests_call.
  fold (search_request busstop). rewrite Hhttp.
  destruct (html_select E (text resp)) as [|tag rest];
    cbn [first of_result ret raise is_IndexError exn_str].
  - intros H. now inversion H.
  - unfold attr. destruct (sget tag "href") as [link|];
      cbn [of_result ret raise is_IndexError]; [|intros H; now inversion H].
    unfold z_group.
    destruct (Re.search z_pattern link) as [g|];
      cbn [of_result ret raise]; [|intros H; now inversion H].
    cbn [py_int]. destruct (Str.to_Z g) as [z|];
      cbn [of_result ret raise]; [discriminate|].
    intros H. inversion H. now split.
Qed.

End SearchMore.

(** The page with the single link to stop 123. *)
Lemma busstop2id_returns_embedded_number_witness :
  exists resp tag rest pre g post,
    http unique (requests_made (outside blank)) (search_request "Kosicka")
    = Responded resp /\
    html_select unique (text resp) = tag :: rest /\
    sget tag "href" = Some (pre ++ "z=" ++ g ++ "&" ++ post) /\
    g <> "" /\ Str.mem "&" g = false /\
    Str.to_Z g = Some 123.
Proof.
  apply (busstop2id_returns_embedded_number unique "Kosicka" blank 123
           (on_world (bump_http (search_request "Kosicka")) blank)).
  vm_compute. reflexivity.
Defined.

(** An anchor without [href]: [KeyError], not [NoMatch]. *)
Lemma busstop2id_failures_witness :
  match html_select bare_anchor "<html>results</html>" with
  | [] =>
      KeyError = NoMatch ("Multiple matches for string or invalid name? "
                          ++ "list index out of range")
  | tag :: _ =>
      match sget tag "href" with
      | None => KeyError = KeyError
      | Some link =>
          match z_group link with
          | inr _ => KeyError = AttributeError
          | inl g => KeyError = ValueError /\ Str.to_Z g = None
          end
      end
  end.
Proof.
  apply (busstop2id_failures bare_anchor "Kosicka" blank
           (mkResponse 200 "<html>results</html>" []) KeyError
           (on_world (bump_http (search_request "Kosicka")) blank));
    vm_compute; reflexivity.
Defined.

(* ------------------------------------------------------------------ *)
(** ** The session of a completed handshake *)

Lemma sset_sget {V} (d : list (string * V)) k v : sget (sset d k v) k = Some v.
Proof.
  unfold sget, sset. induction d as [|[k0 v0] d IH]; simpl.
  - now rewrite String.eqb_refl.
  - destruct (String.eqb k0 k) eqn:Hk; simpl; now rewrite Hk.
Qed.

Lemma sset_sget_other {V} (d : list (string * V)) k k' v :
  String.eqb k k' = false -> sget (sset d k v) k' = sget d k'.
Proof.
  intros Hne. unfold sget, sset. induction d as [|[k0 v0] d IH]; simpl.
  - now rewrite Hne.
  - destruct (String.eqb k0 k) eqn:Hk; simpl.
    + apply String.eqb_eq in Hk. subst k0. now rewrite Hne.
    + destruct (String.eqb k0 k'); [reflexivity|exact IH].
Qed.

Lemma sset_same {V} (d : list (string * V)) k v :
  sget d k = Some v -> sset d k v = d.
Proof.
  unfold sget, sset. induction d as [|[k0 v0] d IH]; simpl; [discriminate|].
  destruct (String.eqb k0 k); intros H.
  - now inversion H.
  - now rewrite IH.
Qed.

Section Session.

Variable E : Env.

(** The polling loop returns the cookie of the answer it has just stored
    in [self.r], and never an empty one. *)
Lemma poll_ok :
  forall fuel m io m',
    poll E fuel m = Ok io m' ->
    io <> "" /\
    (exists resp, r (self m') = Some resp /\ sget (cookies resp) "io" = Some io) /\
    headers (self m') = headers (self m) /\
    busstopid (self m') = busstopid (self m).
Proof.
  induction fuel as [|fuel IH]; intros m io m'; [discriminate|].
  simpl poll. run. unfold requests_get, requests_call. simpl.
  destruct (http E (requests_made (outside m)) _) as [r1|e]; simpl;
    [|discriminate].
  destruct (http E (S (requests_made (outside m))) _) as [r2|e]; simpl;
    [|discriminate].
  destruct (sget (cookies r2) "io") as [[|c rest]|] eqn:Hio.
  - intros H. destruct (IH _ _ _ H) as (H1 & H2 & H3 & H4). now repeat split.
  - intros H. inversion H. subst. simpl.
    split; [discriminate|]. split; [now exists r2|]. now split.
  - intros H. destruct (IH _ _ _ H) as (H1 & H2 & H3 & H4). now repeat split.
Qed.

(** X19.  A handshake that completes leaves the object consistent with
    the session it has opened: [self.r] is the polling answer that set the
    [io] cookie, that cookie is not empty, [self.ws] is the socket opened
    for exactly this session id, and [self.headers] has gained [Referer]
    (the timetable page of the stop), [Origin] and [Content-type], its other
    entries being what they were. *)
Theorem subscribe_opens_socket_for_cookie :
  forall (fuel : nat) (m m' : machine),
    _subscribe E fuel m = Ok tt m' ->
    exists resp io,
      r (self m') = Some resp /\
      sget (cookies resp) "io" = Some io /\
      io <> "" /\
      ws (self m') =
        Some (mkWs ("ws://imhd.sk/rt/sio2/?EIO=3&transport=websocket&sid=" ++ io)) /\
      headers (self m') =
        sset (sset (sset (headers (self m)) "Referer"
                      (_urlbase (self m) ++ "online-zastavkova-tabula?z="
                       ++ busstopid (self m) ++ "&skin=2&fullscreen=1"))
                "Origin" "http://imhd.sk")
             "Content-type" "text/plain;charset=UTF-8".
Proof.
  intros fuel m m'.
  unfold _subscribe. run. unfold requests_get at 1, requests_call. simpl.
  destruct (http E (requests_made (outside m)) _) as [r0|e]; simpl;
    [|discriminate].
  match goal with
  | |- context [poll E fuel ?st] =>
      pose proof (poll_ok fuel st) as Hpoll; set (m1 := st) in *
  end.
  destruct (poll E fuel m1) as [io m2|e m2|m2|]; simpl; try discriminate.
  destruct (Hpoll io m2 eq_refl) as (Hne & (resp & Hr & Hio) & Hh & _).
  subst m1. simpl in Hh.
  unfold requests_get, requests_post, requests_call. simpl.
  destruct (http E (requests_made (outside m2)) _) as [r3|e]; simpl;
    [|discriminate].
  destruct (http E (S (requests_made (outside m2))) _) as [r4|e]; simpl;
    [|discriminate].
  unfold create_connection. simpl.
  destruct (ws_open E (connects (outside m2)) _) as [e|]; simpl;
    [discriminate|].
  unfold ws_send at 1. simpl.
  destruct (ws_send_result E (sends (outside m2)) "2probe") as [e|]; simpl;
    [discriminate|].
  unfold ws_recv. simpl.
  destruct (ws_recv_result E (recvs (outside m2))) as [ack|e|]; simpl;
    try discriminate.
  unfold ws_send. simpl.
  destruct (ws_send_result E (S (sends (outside m2))) "5") as [e|]; simpl;
    [discriminate|].
  intros H. inversion H. subst m'. simpl.
  exists resp, io. rewrite Hh. unfold _u. now repeat split.
Qed.

End Session.

(** The first handshake of the day: session "abc". *)
Lemma subscribe_opens_socket_for_cookie_witness :
  exists resp io,
    r (self (day_entered_socket)) = Some resp /\
    sget (cookies resp) "io" = Some io /\
    io <> "" /\
    ws (self (day_entered_socket)) =
      Some (mkWs ("ws://imhd.sk/rt/sio2/?EIO=3&transport=websocket&sid=" ++ io)) /\
    headers (self (day_entered_socket)) =
      sset (sset (sset (headers (self (day_boot BrokenPipeError))) "Referer"
                    (_urlbase (self (day_boot BrokenPipeError))
                     ++ "online-zastavkova-tabula?z="
                     ++ busstopid (self (day_boot BrokenPipeError))
                     ++ "&skin=2&fullscreen=1"))
              "Origin" "http://imhd.sk")
           "Content-type" "text/plain;charset=UTF-8".
Proof.
  apply (subscribe_opens_socket_for_cookie (day BrokenPipeError) 5
           (day_boot BrokenPipeError) day_entered_socket).
  vm_compute. reflexivity.
Defined.

(* ------------------------------------------------------------------ *)
(** ** A server that never sets the cookie *)

Section NoCookie.

Variable E : Env.
Hypothesis no_cookie :
  forall n rq, exists resp, http E n rq = Responded resp /\ has_io resp = false.

Lemma poll_never_ends : forall fuel m, poll E fuel m = OutOfFuel.
Proof.
  induction fuel as [|fuel IH]; intros m; [reflexivity|].
  simpl poll. run. unfold requests_get, requests_call. simpl.
  destruct (no_cookie (requests_made (outside m))
              (mkRequest "GET" sio2
                 [("EIO", "3"); ("transport", "polling");
                  ("t", millis (clock E (ticks (outside m))))]
                 (headers (self m)) [("testCookie", "1")] None))
    as (r1 & -> & _).
  simpl.
  destruct (no_cookie (S (requests_made (outside m)))
              (mkRequest "GET" sio2
                 [("EIO", "3"); ("transport", "polling");
                  ("t", millis (clock E (S (ticks (outside m)))) ++ "-0")]
                 (headers (self m)) [("testCookie", "1")] None))
    as (r2 & -> & Hno).
  simpl. unfold has_io in Hno.
  destruct (sget (cookies r2) "io") as [[|c rest]|];
    [apply IH|discriminate|apply IH].
Qed.

(** X20.  The polling loop of the handshake has no retry limit.  Against
    a server that answers every request but never sets the [io] cookie,
    [_subscribe] does not end, whatever number of steps it is given: it
    neither returns nor raises.  Nor does the [fetch] that has to
    subscribe first. *)
Theorem subscribe_polls_without_limit :
  forall (fuel : nat) (m : machine),
    _subscribe E fuel m = OutOfFuel /\
    (ws (self m) = None ->
     forall platform, fetch E fuel platform m = OutOfFuel).
Proof.
  intros fuel m.
  assert (Hsub : forall m0, _subscribe E fuel m0 = OutOfFuel).
  { intros m0. unfold _subscribe. run. unfold requests_get at 1, requests_call.
    simpl.
    match goal with
    | |- context [http E ?n ?rq] => destruct (no_cookie n rq) as (r0 & -> & _)
    end.
    simpl. now rewrite poll_never_ends. }
  split; [apply Hsub|].
  intros Hws platform. unfold fetch, fetch_enter. run. rewrite Hws.
  unfold bind. now rewrite Hsub.
Qed.

End NoCookie.

(** The quiet server answers everything with an empty reply. *)
Lemma subscribe_polls_without_limit_witness :
  _subscribe quiet 1000 (boot quiet (PInt 7)) = OutOfFuel /\
  (ws (self (boot quiet (PInt 7))) = None ->
   forall platform, fetch quiet 1000 platform (boot quiet (PInt 7)) = OutOfFuel).
Proof.
  apply (subscribe_polls_without_limit quiet).
  intros n rq. exists no_reply. split; [destruct n|]; reflexivity.
Defined.

(* ------------------------------------------------------------------ *)
(** ** The message handler of the older script *)

Lemma split_plain c s : Str.mem c s = false -> Str.split c s = [s].
Proof.
  induction s as [|a s IH]; [reflexivity|].
  cbn [Str.mem Str.split]. intros H. apply orb_false_iff in H.
  destruct H as [Ha Hs]. rewrite Ha, (IH Hs). reflexivity.
Qed.

Lemma split_app c s t :
  Str.mem c s = false ->
  Str.split c (s ++ String c t) = s :: Str.split c t.
Proof.
  induction s as [|a s IH]; intros H.
  - cbn [append Str.split]. now rewrite Ascii.eqb_refl.
  - cbn [Str.mem] in H. apply orb_false_iff in H. destruct H as [Ha Hs].
    cbn [append Str.split]. rewrite Ha, (IH Hs). reflexivity.
Qed.

(** [','.join(l).split(',')] gives [l] back when no element holds a
    comma and [l] is not empty. *)
Lemma split_join (l : list string) :
  l <> [] ->
  (forall s, In s l -> Str.mem "," s = false) ->
  Str.split "," (Str.join "," l) = l.
Proof.
  induction l as [|x l IH]; intros Hne Hall; [contradiction|].
  destruct l as [|y l].
  - cbn [Str.join]. apply split_plain. apply Hall. now left.
  - change (Str.join "," (x :: y :: l))
      with (x ++ String "," (Str.join "," (y :: l))).
    rewrite split_app by (apply Hall; now left).
    rewrite IH; [reflexivity|discriminate|].
    intros s Hs. apply Hall. now right.
Qed.

Section OldHandler.

Import Old.

Variable E : Env.

Lemma collect_spec linkalist :
  forall tab o,
    exists added,
      result (fst (collect E linkalist tab o)) = (result o ++ added)%list /\
      Forall (wanted E linkalist) added /\
      msgcounter (fst (collect E linkalist tab o)) = msgcounter o.
Proof.
  induction tab as [|x tab IH]; intros o; cbn [collect].
  - exists []. rewrite app_nil_r. now repeat split.
  - destruct (py_item x "typ") as [typ|e] eqn:Htyp;
      [|exists []; rewrite app_nil_r; now repeat split].
    destruct (String.eqb (py_str E typ) "online") eqn:Honline; cbn [negb];
      [|apply IH].
    destruct (py_item x "linka") as [route|e] eqn:Hroute;
      [|exists []; rewrite app_nil_r; now repeat split].
    destruct (existsb (String.eqb (py_str E route)) linkalist) eqn:Hin;
      cbn [negb]; [|apply IH].
    destruct (IH (append_result x o)) as (added & Hres & Hall & Hcnt).
    exists (x :: added). split; [|split].
    + rewrite Hres. cbn [append_result result]. now rewrite <- app_assoc.
    + constructor; [|exact Hall].
      exists typ, route. split; [exact Htyp|].
      split; [now apply String.eqb_eq|]. split; [exact Hroute|].
      apply existsb_exists in Hin. destruct Hin as (s & Hs & Heq).
      apply String.eqb_eq in Heq. now rewrite Heq.
    + exact Hcnt.
Qed.

(** X21.  The callback of the older script, for any message.  A message
    that does not contain the word [nastupiste] (the probes) is ignored
    altogether.  Any other message is counted, and whatever comes of it
    (even an exception half-way) [self.result] only grows, and only by
    records of the message whose [typ] reads ['online'] and whose route,
    passed through [str()], is one of the comma-separated routes asked
    for.  The socket is closed by a call that goes through the records of
    the watched platform without an exception. *)
Theorem on_message_keeps_wanted_records :
  forall (linka nastupiste platform : string) (o : ImhdBa) (message : string),
    let h := on_message E linka nastupiste platform o message in
    (Str.contains "nastupiste" message = false -> h = mkHandled o 0 None) /\
    (Str.contains "nastupiste" message = true ->
     msgcounter (after h) = msgcounter o + 1) /\
    (exists added,
        result (after h) = (result o ++ added)%list /\
        Forall (wanted E (Str.split "," linka)) added) /\
    (forall doc second n,
        Str.contains "nastupiste" message = true ->
        json_loads E (Str.drop 2 message) = Some doc ->
        py_index doc 1 = inl second ->
        py_item second "nastupiste" = inl n ->
        py_str E n = nastupiste ->
        raised h = None -> (1 <= closes h)%nat).
Proof.
  intros linka nastupiste platform o message h. subst h. unfold on_message.
  assert (Hnil : forall o', result o' = (result o' ++ [])%list /\
                            Forall (wanted E (Str.split "," linka)) [])
    by (intros o'; rewrite app_nil_r; now split).
  destruct (Str.contains "nastupiste" message); cbv zeta.
  2: { split; [reflexivity|]. split; [discriminate|].
       split; [exists []; apply Hnil|discriminate]. }
  split; [discriminate|].
  destruct (json_loads E (Str.drop 2 message)) as [doc|] eqn:Hdoc.
  2: { split; [reflexivity|]. split; [exists []; apply (Hnil (count_message o))|].
       discriminate. }
  destruct (py_index doc 1) as [second|e] eqn:Hsecond.
  2: { split; [reflexivity|]. split; [exists []; apply (Hnil (count_message o))|].
       discriminate. }
  destruct (py_item second "nastupiste") as [n|e] eqn:Hnast.
  2: { split; [reflexivity|]. split; [exists []; apply (Hnil (count_message o))|].
       discriminate. }
  destruct (String.eqb (py_str E n) nastupiste) eqn:Hn; cbn [negb].
  2: { split; [reflexivity|]. split; [exists []; apply (Hnil (count_message o))|].
       intros doc' second' n' _ Hd Hs Hi Heq.
       inversion Hd. subst doc'. rewrite Hsecond in Hs. inversion Hs. subst second'.
       rewrite Hnast in Hi. inversion Hi. subst n'.
       apply String.eqb_neq in Hn. contradiction. }
  destruct (py_item second "tab") as [tab|e].
  2: { split; [reflexivity|]. split; [exists []; apply (Hnil (count_message o))|].
       discriminate. }
  destruct (py_iter tab) as [records|e].
  2: { split; [reflexivity|]. split; [exists []; apply (Hnil (count_message o))|].
       discriminate. }
  destruct (collect_spec (Str.split "," linka) records (count_message o))
    as (added & Hres & Hall & Hcnt).
  destruct (collect E (Str.split "," linka) records (count_message o))
    as [o' [e|]]; cbn [fst after closes raised] in *.
  - split; [intros _; exact Hcnt|]. split; [now exists added|]. discriminate.
  - split; [intros _; exact Hcnt|]. split; [now exists added|]. intros. lia.
Qed.

(** The records the older handler keeps, when all are on line and have
    strings for routes: those the filter of [get_data] selects. *)
Lemma collect_online linkalist :
  forall tab o,
    forallb online_route tab = true ->
    collect E linkalist tab o =
    (mkImhdBa (eta o) (delay o) (linkadata o)
       (result o ++ map (fun i => nth i tab PNone) (matching linkalist tab 0))%list
       (msgcounter o),
     None).
Proof.
  assert (Hgen : forall tab o done,
             forallb online_route tab = true ->
             collect E linkalist tab o =
             (mkImhdBa (eta o) (delay o) (linkadata o)
                (result o ++ map (fun i => nth i (done ++ tab)%list PNone)
                               (matching linkalist tab (length done)))%list
                (msgcounter o),
              None)).
  { induction tab as [|x tab IH]; intros o done Hall.
    - cbn [collect matching map]. rewrite app_nil_r. now destruct o.
    - cbn [forallb] in Hall. apply andb_true_iff in Hall.
      destruct Hall as [Hx Hall]. unfold online_route in Hx.
      cbn [collect matching].
      destruct (py_item x "typ") as [[| | | |typ| | |]|] eqn:Htyp;
        try discriminate.
      destruct (py_item x "linka") as [[| | | |route| | |]|] eqn:Hroute;
        try discriminate.
      cbn [py_str]. rewrite Hx. cbn [negb].
      unfold linka_of. rewrite Hroute. cbn [in_strings].
      specialize (IH (if existsb (String.eqb route) linkalist
                      then append_result x o else o)
                     (done ++ [x])%list Hall).
      rewrite length_app, Nat.add_1_r, <- app_assoc in IH. cbn [app] in IH.
      destruct (existsb (String.eqb route) linkalist); cbn [negb].
      + rewrite IH. cbn [append_result eta delay linkadata result msgcounter map].
        rewrite nth_middle, <- app_assoc. reflexivity.
      + exact IH. }
  intros tab o Hall. exact (Hgen tab o [] Hall).
Qed.

(** X22.  The two versions filter alike where they can be compared.
    Take a batch whose arrivals are all on line and have strings for
    routes.  [get_data] of the current module, asked for some routes (none
    of them holding a comma), returns certain records of it.  The callback
    of the older script, asked for the same routes joined by commas and
    handed a message for the watched platform that carries the same batch,
    appends exactly these records (as they were before [get_data] annotated
    them) to [self.result], in the same order, and closes the socket. *)
Theorem old_and_new_filters_agree :
  forall (fuel : nat) (platform : pykey) (conn : pyval) (resolve_names : bool)
         (m : machine) (refs : list nat) (m' : machine)
         (nastupiste page : string) (o : ImhdBa) (message : string)
         (doc second n : pyval),
    get_data E fuel platform conn false resolve_names m = Ok refs m' ->
    forallb online_route (records_of (self m) platform) = true ->
    routes E conn <> [] ->
    (forall s, In s (routes E conn) -> Str.mem "," s = false) ->
    Str.contains "nastupiste" message = true ->
    json_loads E (Str.drop 2 message) = Some doc ->
    py_index doc 1 = inl second ->
    py_item second "nastupiste" = inl n ->
    py_str E n = nastupiste ->
    py_item second "tab" = inl (PList (records_of (self m) platform)) ->
    let h := on_message E (Str.join "," (routes E conn)) nastupiste page o
               message in
    raised h = None /\
    result (after h) =
      (result o ++ map (fun i => nth i (records_of (self m) platform) PNone) refs)%list /\
    msgcounter (after h) = msgcounter o + 1 /\
    (1 <= closes h)%nat.
Proof.
  intros fuel platform conn rn m refs m' nastupiste page o message doc second n
         Hrun Hall Hne Hcomma Hword Hdoc Hsecond Hn Hstr Htab h.
  subst h. unfold on_message.
  rewrite Hword, Hdoc, Hsecond, Hn, Hstr, String.eqb_refl, Htab.
  cbn [negb py_iter]. rewrite (split_join _ Hne Hcomma).
  rewrite (collect_online _ _ (count_message o) Hall).
  rewrite <- (get_data_refs E _ _ _ _ _ _ _ Hrun).
  cbn [after raised closes result msgcounter count_message].
  repeat split. lia.
Qed.

End OldHandler.

(** Routes "201,204" asked of the board of platform 1: the one arrival of
    route 201 that is on line is kept, and the socket is closed. *)
Example on_message_board :
  Old.on_message old_board "201,204" "1" "[1,2]" Old.new_ImhdBa
    "42nastupiste 1"
  = Old.mkHandled
      (Old.mkImhdBa [] [] [] [old_arrival "201" "online"] 1) 1 None.
Proof. vm_compute. reflexivity. Qed.

(** The stocked batch, asked for routes 201 and 204, and a message of
    the older protocol that carries it. *)
Lemma old_and_new_filters_agree_witness :
  let h := Old.on_message old_board
             (Str.join "," (routes old_board (PList [PInt 201; PInt 204])))
             "1" "[1,2]" Old.new_ImhdBa "42nastupiste 1 stocked" in
  Old.raised h = None /\
  Old.result (Old.after h) =
    (Old.result Old.new_ImhdBa
     ++ map (fun i => nth i (records_of (self (stocked three_routes)) (KInt 1))
                          PNone) [0%nat; 2%nat])%list /\
  Old.msgcounter (Old.after h) =
    Old.msgcounter Old.new_ImhdBa + 1 /\
  (1 <= Old.closes h)%nat.
Proof.
  apply (old_and_new_filters_agree old_board 5 (KInt 1)
           (PList [PInt 201; PInt 204]) false (stocked three_routes)
           [0%nat; 2%nat]
           (final (get_data old_board 5 (KInt 1) (PList [PInt 201; PInt 204])
                     false false (stocked three_routes)) blank)
           "1" "[1,2]" Old.new_ImhdBa "42nastupiste 1 stocked"
           (PList [PStr "tab";
                   PDict [(KStr "nastupiste", PInt 1);
                          (KStr "tab", PList three_routes)]])
           (PDict [(KStr "nastupiste", PInt 1);
                   (KStr "tab", PList three_routes)])
           (PInt 1));
    try (vm_compute; reflexivity).
  - discriminate.
  - intros s [<-|[<-|[]]]; reflexivity.
Defined.

(* ------------------------------------------------------------------ *)
(** ** One subscription for many refreshes *)

Lemma reusing_refl m : reusing m m.
Proof. now repeat split. Qed.

Lemma reusing_trans a b c : reusing a b -> reusing b c -> reusing a c.
Proof. unfold reusing. intuition congruence. Qed.

Lemma reusing_world m f :
  requests_made (f (outside m)) = requests_made (outside m) ->
  connects (f (outside m)) = connects (outside m) ->
  reusing m (on_world f m).
Proof. intros H1 H2. now repeat split. Qed.

Lemma reusing_tick m : reusing m (on_world bump_tick m).
Proof. now apply reusing_world. Qed.

#[local] Hint Resolve reusing_refl reusing_trans reusing_tick : frame.

Section Reuse.

Variable E : Env.
Hypothesis pings_go_through : forall n, ws_send_result E n "2" = None.
Hypothesis recv_raises_value_errors_only :
  forall n e, ws_recv_result E n = RecvRaises e -> is_ValueError e = true.

Lemma accept_reuses platform l table_data :
  keeps reusing (accept E platform l table_data).
Proof. unfold accept. frame. Qed.

Lemma keepalive_reuses sub c m :
  ws (self m) = Some c ->
  match keepalive E sub m with
  | Ok go m' => go = true /\ reusing m m'
  | Raise _ m' | Hang m' => reusing m m'
  | OutOfFuel => True
  end.
Proof.
  intros Hws. unfold keepalive. run.
  destruct (timer (self m)) as [last|]; simpl; [|now apply reusing_tick].
  destruct (Qgtb _ 30); simpl.
  - rewrite Hws. simpl. unfold ws_send. simpl. rewrite pings_go_through.
    split; [reflexivity|]. now repeat split.
  - split; [reflexivity|]. now apply reusing_tick.
Qed.

Lemma receive_reuses sub platform l c m :
  ws (self m) = Some c ->
  match receive E sub platform l m with
  | Ok _ m' | Raise _ m' | Hang m' => reusing m m'
  | OutOfFuel => True
  end.
Proof.
  intros Hws.
  unfold receive, bind at 1, attempt, bind at 1, self_ws, bind at 1, get_self.
  rewrite Hws. unfold ret at 1, ws_recv.
  assert (Hstep : reusing m (on_world bump_recv m)) by now apply reusing_world.
  destruct (ws_recv_result E (recvs (outside m))) as [raw|e|] eqn:Hrecv;
    [| |exact Hstep].
  - destruct (json_loads E (Str.drop 2 raw)) as [table_data|]; [|exact Hstep].
    match goal with
    | |- match ?c ?st with _ => _ end =>
        assert (Hk : keeps reusing c) by (frame; apply accept_reuses);
        specialize (Hk st); destruct (c st)
    end; try exact I; now apply reusing_trans with (on_world bump_recv m).
  - rewrite (recv_raises_value_errors_only _ _ Hrecv).
    destruct (data l); exact Hstep.
Qed.

Lemma fetch_body_reuses sub platform l c m :
  ws (self m) = Some c ->
  match fetch_body E sub platform l m with
  | Ok _ m' | Raise _ m' | Hang m' => reusing m m'
  | OutOfFuel => True
  end.
Proof.
  intros Hws. unfold fetch_body, bind at 1.
  pose proof (keepalive_reuses sub c m Hws) as Hk.
  destruct (keepalive E sub m) as [go m1|e m1|m1|]; try exact Hk.
  destruct Hk as [-> Hk].
  assert (Hws1 : ws (self m1) = Some c).
  { destruct Hk as (_ & _ & H). now rewrite H. }
  pose proof (receive_reuses sub platform l c m1 Hws1) as Hr.
  destruct (receive E sub platform l m1); try exact I;
    now apply reusing_trans with m1.
Qed.

Lemma fetch_loop_reuses sub platform c :
  forall fuel l m,
    ws (self m) = Some c ->
    match fetch_loop E sub fuel platform l m with
    | Ok _ m' | Raise _ m' | Hang m' => reusing m m'
    | OutOfFuel => True
    end.
Proof.
  induction fuel as [|fuel IH]; intros l m Hws; [exact I|].
  cbn [fetch_loop]. unfold bind at 1.
  pose proof (fetch_body_reuses sub platform l c m Hws) as Hb.
  destruct (fetch_body E sub platform l m) as [[l'|] m1|e m1|m1|];
    try exact Hb.
  assert (Hws1 : ws (self m1) = Some c).
  { destruct Hb as (_ & _ & H). now rewrite H. }
  specialize (IH l' m1 Hws1).
  destruct (fetch_loop E sub fuel platform l' m1); try exact I;
    now apply reusing_trans with m1.
Qed.

(** X23.  One subscription serves all refreshes.  On an object that
    holds a socket, as long as the keepalive pings go through and [recv]
    raises nothing but [ValueError]s, a [fetch] stays on that socket however
    long it listens and however it ends: it makes no HTTP request, opens no
    connection, and leaves [self.ws] as it was.  The handshake is run again
    only to recover from a failure. *)
Theorem fetch_reuses_subscription :
  forall (fuel : nat) (platform : pykey) (m : machine) (c : wsconn),
    ws (self m) = Some c ->
    match fetch E fuel platform m with
    | Ok _ m' | Raise _ m' | Hang m' =>
        requests_made (outside m') = requests_made (outside m) /\
        connects (outside m') = connects (outside m) /\
        ws (self m') = Some c
    | OutOfFuel => True
    end.
Proof.
  intros fuel platform m c Hws.
  unfold fetch, fetch_enter. run. rewrite Hws. run.
  match goal with
  | |- match fetch_loop E fuel fuel platform ?l ?st with _ => _ end =>
      pose proof (fetch_loop_reuses fuel platform c fuel l st Hws) as Hl;
      destruct (fetch_loop E fuel fuel platform l st)
  end; try exact I;
    destruct Hl as (H1 & H2 & H3); simpl in H1, H2, H3;
    now rewrite H1, H2, H3.
Qed.

End Reuse.

(** A second [fetch] on the silent channel: it waits on the socket of the
    first. *)
Lemma fetch_reuses_subscription_witness :
  match fetch silent 5 (KInt 1) (final (fetch_enter silent 5 (boot silent (PInt 7))) blank) with
  | Ok _ m' | Raise _ m' | Hang m' =>
      requests_made (outside m') =
        requests_made (outside (final (fetch_enter silent 5 (boot silent (PInt 7))) blank)) /\
      connects (outside m') =
        connects (outside (final (fetch_enter silent 5 (boot silent (PInt 7))) blank)) /\
      ws (self m') =
        Some (mkWs "ws://imhd.sk/rt/sio2/?EIO=3&transport=websocket&sid=abc")
  | OutOfFuel => True
  end.
Proof.
  apply (fetch_reuses_subscription silent).
  - intros n. reflexivity.
  - intros [|[|n]] e H; vm_compute in H; discriminate.
  - vm_compute. reflexivity.
Defined.
